(** * WebWaka platform foundation: offline-first sync engine and realtime channel

    A shallow embedding of the client-side offline layer
    ([docs/R3A_OFFLINE_FIRST_REPORT.md]: [OfflineRepository], the service
    worker's [syncPendingMutations], [SyncManager], [ConflictResolver],
    [NetworkMonitor]), of the reconciliation service of the PF-2 test-suite
    ([MockReconciliationService]) and of the PF-2 [WebSocketService], followed
    by the properties of the specification that concern them.

    Conventions of the embedding.
    - JavaScript numbers that hold timestamps, versions and counters are
      integers ([Z]); floating-point rounding is not modelled.
    - [Date.now()], [new Date()] and [uuidv4()] are read from the environment:
      every function that calls one takes the value read as an argument.
    - Asynchronous functions run to completion one after the other (the code
      awaits every call), so a promise is modelled by its outcome.
    - Time-to-live settings of Redis keys are not modelled. *)

From Stdlib Require Import ZArith Bool List.
From stdpp Require Import base gmap strings list fin_maps pretty.

Local Open Scope Z_scope.

(** ** JavaScript values, truthiness and exceptions *)

Module JS.

#[local] Set Warnings "-register-all".
Inductive JsVal : Type :=
| JUndefined
| JNull
| JBool (b : bool)
| JNum (n : Z)
| JStr (s : string)
| JObj (props : list (string * JsVal)).

(** [ToBoolean]: what [!v], [v && _] and [v || _] test. *)
Definition truthy (v : JsVal) : bool :=
  match v with
  | JUndefined | JNull => false
  | JBool b => b
  | JNum n => negb (n =? 0)
  | JStr s => negb (String.eqb s "")
  | JObj _ => true
  end.

(** [v || d] on values. *)
Definition or_else (v d : JsVal) : JsVal := if truthy v then v else d.

(** [n || d] on numbers: [0] is falsy. *)
Definition num_or (n d : Z) : Z := if n =? 0 then d else n.

(** [v === s] and [v !== s] for a string [s]. *)
Definition strict_eq_str (v : JsVal) (s : string) : bool :=
  match v with
  | JStr s' => String.eqb s' s
  | _ => false
  end.

(** String conversion of a value inside a template literal. *)
Definition toString (v : JsVal) : string :=
  match v with
  | JUndefined => "undefined"
  | JNull => "null"
  | JBool true => "true"
  | JBool false => "false"
  | JNum n => pretty n
  | JStr s => s
  | JObj _ => "[object Object]"
  end.

(** The value of property [key] in a list of properties, [undefined] when
    the object has no such property. *)
Fixpoint assoc (key : string) (props : list (string * JsVal)) : JsVal :=
  match props with
  | [] => JUndefined
  | (k, v) :: rest => if String.eqb k key then v else assoc key rest
  end.

(** Thrown values: the error classes the code constructs. *)
Inductive Exn : Type :=
| Error (message : string)
| TypeError (message : string)
| AuthorizationError (message : string)
| TenantIsolationViolation (message : string)
| RateLimitExceeded (message : string).

Definition message_of (e : Exn) : string :=
  match e with
  | Error m | TypeError m | AuthorizationError m
  | TenantIsolationViolation m | RateLimitExceeded m => m
  end.

(** [RealtimeError.code] of the error classes of [models/types.ts]. *)
Definition code_of (e : Exn) : option string :=
  match e with
  | AuthorizationError _ => Some "AUTHZ_FAILED"
  | TenantIsolationViolation _ => Some "TENANT_VIOLATION"
  | RateLimitExceeded _ => Some "RATE_LIMIT"
  | Error _ | TypeError _ => None
  end.

(** A further property read of a value that a first read has shown to be
    neither [null] nor [undefined]. *)
Definition assoc_of (data : JsVal) (key : string) : JsVal :=
  match data with
  | JObj props => assoc key props
  | _ => JUndefined
  end.

(** [data.key] for [data : any]: a property of an object, [undefined] on
    a primitive, a [TypeError] on [null] and [undefined]. *)
Definition prop (data : JsVal) (key : string) : Exn + JsVal :=
  match data with
  | JUndefined | JNull => inl (TypeError "Cannot read properties of undefined")
  | JObj props => inr (assoc key props)
  | _ => inr JUndefined
  end.

(** The outcome of an awaited call: a value, a thrown exception, or a
    promise that is never settled. *)
Inductive outcome (A : Type) : Type :=
| Ok (a : A)
| Throw (e : Exn)
| Pending.
Arguments Ok {A} a.
Arguments Throw {A} e.
Arguments Pending {A}.

(** Stateful, fallible computations over a state [S]: the state reached is
    kept when an exception is thrown, as in the source. *)
Definition M (S A : Type) : Type := S -> outcome A * S.

Definition ret {S A} (a : A) : M S A := fun s => (Ok a, s).

Definition bind {S A B} (m : M S A) (k : A -> M S B) : M S B :=
  fun s =>
    match m s with
    | (Ok a, s') => k a s'
    | (Throw e, s') => (Throw e, s')
    | (Pending, s') => (Pending, s')
    end.

Definition throw {S A} (e : Exn) : M S A := fun s => (Throw e, s).

Definition modify {S} (f : S -> S) : M S unit := fun s => (Ok tt, f s).

Definition gets {S A} (f : S -> A) : M S A := fun s => (Ok (f s), s).

(** [try { body } catch (error) { handler(error) }]. *)
Definition try_catch {S A} (body : M S A) (handler : Exn -> M S A) : M S A :=
  fun s =>
    match body s with
    | (Throw e, s') => handler e s'
    | r => r
    end.

Definition of_sum {S A} (r : Exn + A) : M S A :=
  match r with
  | inl e => throw e
  | inr a => ret a
  end.

End JS.

Import JS.

#[global] Instance M_ret {S} : MRet (M S) := fun A a => ret a.
#[global] Instance M_bind {S} : MBind (M S) := fun A B k m => bind m k.

(** ** The offline layer (client side) *)

Module Offline.

(** *** [src/offline/db/schema.ts] *)

(** The [_meta] block of a stored value. *)
Record Meta : Type := mkMeta {
  createdAt : Z;
  updatedAt : Z;
  version : Z;
  deleted : bool
}.

(** A JavaScript object [T extends { id: string }], with the [_meta] block
    it may carry: what callers pass to the repository, what the server sends
    as a change and what the repository hands out. [fields] are the
    properties other than [id] and [_meta]. *)
Record Item : Type := mkItem {
  id : string;
  fields : gmap string JsVal;
  _meta : option Meta
}.

(** A value of the [documents] object store. The store has key path [id]:
    a value is kept under its own [id], so the model keeps the rest of the
    value under that key and [get] puts the [id] back. The schema gives
    every stored value a [_meta] block. *)
Record Stored : Type := mkStored {
  s_fields : gmap string JsVal;
  s_meta : Meta
}.

Inductive MutationType : Type := create | update | delete_.

(** A value of the [pendingMutations] store, kept under its [id]. *)
Record Mutation : Type := mkMutation {
  type : MutationType;
  collection : string;
  data : JsVal;
  timestamp : Z;
  retryCount : Z;
  error : option string
}.

Inductive SyncStatus : Type := success | error_ | in_progress.

Record SyncMetadata : Type := mkSyncMetadata {
  lastSyncTimestamp : Z;
  lastSyncStatus : SyncStatus;
  lastSyncError : option string
}.

Inductive ConsoleLine : Type :=
| console_log (text : string)
| console_warn (text : string) (arg : string)
| console_error (text : string) (arg : string) (message : string).

(** The state of one client: the three object stores of the
    [webwaka-offline] database that the sync code touches, the console, and
    the history of calls made to [conflictResolver.resolve]. *)
Record Client : Type := mkClient {
  documents : gmap string Stored;
  pendingMutations : gmap string Mutation;
  syncMetadata : gmap string SyncMetadata;
  console : list ConsoleLine;
  resolverCalls : list (Item * Item)
}.

Definition emptyClient : Client :=
  mkClient ∅ ∅ ∅ [] [].

Definition set_documents (f : gmap string Stored -> gmap string Stored)
    (c : Client) : Client :=
  mkClient (f (documents c)) (pendingMutations c) (syncMetadata c)
           (console c) (resolverCalls c).

Definition set_pendingMutations
    (f : gmap string Mutation -> gmap string Mutation) (c : Client) : Client :=
  mkClient (documents c) (f (pendingMutations c)) (syncMetadata c)
           (console c) (resolverCalls c).

Definition set_syncMetadata
    (f : gmap string SyncMetadata -> gmap string SyncMetadata)
    (c : Client) : Client :=
  mkClient (documents c) (pendingMutations c) (f (syncMetadata c))
           (console c) (resolverCalls c).

Definition print (l : ConsoleLine) (c : Client) : Client :=
  mkClient (documents c) (pendingMutations c) (syncMetadata c)
           (console c ++ [l]) (resolverCalls c).

Definition record_resolve (local remote : Item) (c : Client) : Client :=
  mkClient (documents c) (pendingMutations c) (syncMetadata c)
           (console c) (resolverCalls c ++ [(local, remote)]).

Definition item_of (key : string) (s : Stored) : Item :=
  mkItem key (s_fields s) (Some (s_meta s)).

(** *** [src/offline/db/repository.ts]: [OfflineRepository] over the
    [documents] store *)

Definition get (id0 : string) (c : Client) : option Item :=
  item_of id0 <$> documents c !! id0.

Definition getAll (c : Client) : list Item :=
  (fun kv => item_of kv.1 kv.2) <$> map_to_list (documents c).

(** [put(item)], with [now] the value of [Date.now()]. *)
Definition put (item : Item) (now : Z) (c : Client) : Client :=
  let existingItem := get (id item) c in
  let existingMeta := existingItem ≫= _meta in
  let itemWithMeta :=
    mkStored (fields item)
      {| createdAt :=
           match existingMeta with
           | Some m => num_or (createdAt m) now
           | None => now
           end;
         updatedAt := now;
         version :=
           match existingMeta with
           | Some m => num_or (version m) 0
           | None => 0
           end + 1;
         deleted := false |} in
  set_documents (insert (id item) itemWithMeta) c.

(** [delete(id)]: the soft delete. [item] is the stored value that
    [this.get(id)] returns. *)
Definition delete (id0 : string) (now : Z) (c : Client) : Client :=
  match documents c !! id0 with
  | Some item =>
      let deletedItem :=
        mkStored (s_fields item)
          {| createdAt := createdAt (s_meta item);
             updatedAt := now;
             version := version (s_meta item);
             deleted := true |} in
      set_documents (insert id0 deletedItem) c
  | None => c
  end.

Definition clear (c : Client) : Client :=
  set_documents (fun _ => ∅) c.

(** *** The network, as the sync code sees it *)

(** What [await fetch(...)] gives: a response with its [ok] flag and
    [statusText], or a rejection (the request itself failed). *)
Inductive FetchOutcome : Type :=
| Response (ok : bool) (statusText : string)
| NetworkError (message : string).

(** *** [public/sw.js]: [syncPendingMutations] *)

(** The [catch] block of the push loops: count the retry and record the
    error; [requeue] prints the error and puts the mutation back. *)
Definition retried (mutation : Mutation) (message : string) : Mutation :=
  mkMutation (type mutation) (collection mutation) (data mutation)
             (timestamp mutation) (retryCount mutation + 1) (Some message).

Definition requeue (text : string) (mid : string) (mutation : Mutation)
    (message : string) (c : Client) : Client :=
  let c := print (console_error text mid message) c in
  set_pendingMutations (insert mid (retried mutation message)) c.

(** The two handles on the [webwaka-offline] database. [getDB()] of
    [schema.ts] returns the wrapper of the [idb] library ([IDBPDatabase]),
    whose [getAll], [put] and [delete] take the name of a store.
    [openIndexedDB()] of the service worker resolves with [request.result]
    of [indexedDB.open]: the [IDBDatabase] of the browser, which has none
    of these methods. *)
Inductive Database : Type := IDBPDatabase | IDBDatabase.

(** [db.name(...)]: calling a property that is [undefined] throws. *)
Definition method (db : Database) (name : string) : M Client unit :=
  match db with
  | IDBPDatabase => mret tt
  | IDBDatabase => throw (TypeError ("db." +:+ name +:+ " is not a function"))
  end.

Definition db_getAll (db : Database) : M Client (list (string * Mutation)) :=
  method db "getAll";;
  gets (fun c => map_to_list (pendingMutations c)).

Definition db_delete (db : Database) (mid : string) : M Client unit :=
  method db "delete";;
  modify (set_pendingMutations (base.delete mid)).

Definition db_put (db : Database) (mid : string) (mutation : Mutation)
    : M Client unit :=
  method db "put";;
  modify (set_pendingMutations (insert mid mutation)).

(** [openIndexedDB()]: the promise resolves with [request.result] or is
    rejected with [request.error], the error of the open request if it
    fails. *)
Definition openIndexedDB (request_error : option Exn) : M Client Database :=
  match request_error with
  | None => mret IDBDatabase
  | Some e => throw e
  end.

(** [for (const x of l) { await f(x) }]. *)
Fixpoint for_each {S A} (f : A -> M S unit) (l : list A) : M S unit :=
  match l with
  | [] => mret tt
  | x :: rest => f x;; for_each f rest
  end.

Definition syncPendingMutations_step (db : Database)
    (fetch : string -> Mutation -> FetchOutcome) (entry : string * Mutation)
    : M Client unit :=
  let '(mid, mutation) := entry in
  try_catch
    (match fetch mid mutation with
     | Response _ _ => mret tt
     | NetworkError message => throw (TypeError message)
     end;;
     (* Remove from pending queue *)
     db_delete db mid)
    (fun error =>
       modify (print (console_error "Sync failed for mutation:" mid
                                    (message_of error)));;
       (* Increment retry count *)
       db_put db mid (retried mutation (message_of error))).

Definition syncPendingMutations (request_error : option Exn)
    (fetch : string -> Mutation -> FetchOutcome) : M Client unit :=
  (* Open IndexedDB and get pending mutations *)
  db ← openIndexedDB request_error;
  mutations ← db_getAll db;
  for_each (syncPendingMutations_step db fetch) mutations.

(** *** [src/offline/sync/conflict-resolver.ts]: [ConflictResolver] *)

Inductive ConflictResolutionStrategy : Type :=
| last_write_wins
| first_write_wins
| manual
| operational_transform.

(** [item._meta.field]: a [TypeError] when the item has no [_meta]. *)
Definition meta_of (item : Item) : Exn + Meta :=
  match _meta item with
  | Some m => inr m
  | None => inl (TypeError "Cannot read properties of undefined")
  end.

Definition lastWriteWins (local remote : Item) : Exn + Item :=
  match meta_of local with
  | inl e => inl e
  | inr lm =>
      match meta_of remote with
      | inl e => inl e
      | inr rm => inr (if updatedAt rm <? updatedAt lm then local else remote)
      end
  end.

Definition firstWriteWins (local remote : Item) : Exn + Item :=
  match meta_of local with
  | inl e => inl e
  | inr lm =>
      match meta_of remote with
      | inl e => inl e
      | inr rm => inr (if updatedAt lm <? updatedAt rm then local else remote)
      end
  end.

Definition newline : string := String (Ascii.ascii_of_nat 10) EmptyString.

Definition mergeText (local remote : string) : string :=
  if String.eqb local remote then local
  else "<<<<<<< LOCAL" +:+ newline +:+ local +:+ newline +:+ "=======" +:+
       newline +:+ remote +:+ newline +:+ ">>>>>>> REMOTE".

(** The loop of [operationalTransform] on the properties other than [id]:
    [merged] starts as a copy of [remote] and every key of [local] whose
    value is a string on both sides is overwritten with the merged text. *)
Definition mergeFields (local remote : gmap string JsVal) : gmap string JsVal :=
  map_imap
    (fun key r =>
       match local !! key, r with
       | Some (JStr l), JStr r' => Some (JStr (mergeText l r'))
       | _, _ => Some r
       end)
    remote.

Definition operationalTransform (local remote : Item) (now : Z) : Exn + Item :=
  match meta_of local with
  | inl e => inl e
  | inr lm =>
      match meta_of remote with
      | inl e => inl e
      | inr rm =>
          inr (mkItem (mergeText (id local) (id remote))
                      (mergeFields (fields local) (fields remote))
                      (Some {| createdAt := createdAt rm;
                               updatedAt := now;
                               version := Z.max (version lm) (version rm) + 1;
                               deleted := deleted rm |}))
      end
  end.

(** [manualResolve] hands both sides to the user interface, which calls
    [resolve] with an item of its choice, or never does: [ui] is that
    choice. *)
Definition manualResolve (ui : Item -> Item -> option Item)
    (local remote : Item) : outcome Item :=
  match ui local remote with
  | Some chosen => Ok chosen
  | None => Pending
  end.

Definition outcome_of {A} (r : Exn + A) : outcome A :=
  match r with
  | inl e => Throw e
  | inr a => Ok a
  end.

Definition resolve (strategy : ConflictResolutionStrategy)
    (ui : Item -> Item -> option Item) (now : Z)
    (local remote : Item) : outcome Item :=
  match strategy with
  | last_write_wins => outcome_of (lastWriteWins local remote)
  | first_write_wins => outcome_of (firstWriteWins local remote)
  | operational_transform => outcome_of (operationalTransform local remote now)
  | manual => manualResolve ui local remote
  end.

(** *** [src/offline/sync/sync-manager.ts]: [SyncManager] *)

Definition pushLocalChanges_step (fetch : string -> Mutation -> FetchOutcome)
    (c : Client) (entry : string * Mutation) : Client :=
  let '(mid, mutation) := entry in
  match fetch mid mutation with
  | Response true _ =>
      (* Remove from pending queue *)
      set_pendingMutations (base.delete mid) c
  | Response false statusText =>
      requeue "Failed to push mutation:" mid mutation
              ("Push failed: " +:+ statusText) c
  | NetworkError message =>
      requeue "Failed to push mutation:" mid mutation message c
  end.

Definition pushLocalChanges (fetch : string -> Mutation -> FetchOutcome)
    (c : Client) : Client :=
  let pending := map_to_list (pendingMutations c) in
  foldl (pushLocalChanges_step fetch) c pending.

(** [applyRemoteChange(change)]. [nowResolve] is the clock read by the
    resolver (only [operationalTransform] reads it), [nowPut] the clock
    read by [repository.put]. *)
Definition applyRemoteChange (strategy : ConflictResolutionStrategy)
    (ui : Item -> Item -> option Item) (nowResolve nowPut : Z)
    (change : Item) : M Client unit :=
  localItem ← gets (get (id change));
  match localItem with
  | None =>
      (* No local version, just apply remote change *)
      modify (put change nowPut)
  | Some localItem =>
      lm ← of_sum (meta_of localItem);
      cm ← of_sum (meta_of change);
      if negb (version lm =? version cm - 1) then
        (* Conflict detected *)
        modify (print (console_warn "Conflict detected for item:" (id change)));;
        modify (record_resolve localItem change);;
        resolved ← (fun c => (resolve strategy ui nowResolve localItem change, c));
        modify (put resolved nowPut)
      else
        (* No conflict, apply remote change *)
        modify (put change nowPut)
  end.

(** *** Observations and fixtures used by the statements below *)

(** The version of the record stored under [key], [0] when there is none. *)
Definition version_at (key : string) (c : Client) : Z :=
  from_option (fun s => version (s_meta s)) 0 (documents c !! key).

(** The writes that reach a record: [put], the soft delete, and the sync
    engine's [applyRemoteChange]. *)
Inductive Write : Type :=
| w_put (item : Item) (now : Z)
| w_delete (key : string) (now : Z)
| w_apply (strategy : ConflictResolutionStrategy)
          (ui : Item -> Item -> option Item) (nowResolve nowPut : Z)
          (change : Item).

Definition write (c : Client) (w : Write) : Client :=
  match w with
  | w_put item now => put item now c
  | w_delete key now => delete key now c
  | w_apply strategy ui nowResolve nowPut change =>
      (applyRemoteChange strategy ui nowResolve nowPut change c).2
  end.

(** The state in which the resolver runs: the conflict has been reported on
    the console and the call recorded. *)
Definition conflict_reported (change : Item) (s : Stored) (c : Client) : Client :=
  record_resolve (item_of (id change) s) change
    (print (console_warn "Conflict detected for item:" (id change)) c).

(** What one round of [pushLocalChanges] leaves in the log for a mutation:
    the mutation is gone ([None]) or is back with its retry counted. *)
Definition pushed (fetch : string -> Mutation -> FetchOutcome)
    (mid : string) (m : Mutation) : option Mutation :=
  match fetch mid m with
  | Response true _ => None
  | Response false statusText => Some (retried m ("Push failed: " +:+ statusText))
  | NetworkError message => Some (retried m message)
  end.

(** A user interface that never answers a manual conflict. *)
Definition silent_ui (local remote : Item) : option Item := None.

(** The document of the repository's test "should queue mutations when
    offline". *)
Definition offline_doc : Item :=
  mkItem "2"
    {[ "title" := JStr "Offline Doc"; "content" := JStr "Created offline" ]}
    None.

(** A store that holds one record of tenant [t2] at version 3. *)
Definition tenant2_client : Client :=
  mkClient
    {[ "d1" := mkStored {[ "tenantId" := JStr "t2"; "title" := JStr "secret" ]}
                        (mkMeta 100 200 3 false) ]}
    ∅ ∅ [] [].

(** An item that a session of tenant [t1] writes under the same id. *)
Definition tenant1_item : Item :=
  mkItem "d1" {[ "tenantId" := JStr "t1"; "title" := JStr "A" ]} None.

(** Scenario S2: the local record [d2] at version 3 with one update not yet
    pushed, and the incoming change at version 4. *)
Definition s2_mutation : Mutation :=
  mkMutation update "documents"
    (JObj [("id", JStr "d2"); ("title", JStr "L")]) 1000 0 None.

Definition s2_client : Client :=
  mkClient
    {[ "d2" := mkStored {[ "title" := JStr "L" ]} (mkMeta 900 1000 3 false) ]}
    {[ "m1" := s2_mutation ]}
    ∅ [] [].

Definition s2_change : Item :=
  mkItem "d2" {[ "title" := JStr "R" ]} (Some (mkMeta 900 2000 4 false)).

(** A change to [d2] whose version is not the successor of the local one. *)
Definition far_change : Item :=
  mkItem "d2" {[ "title" := JStr "R" ]} (Some (mkMeta 900 2000 7 false)).

(** A server that answers every push with status 500. *)
Definition failing_server (mid : string) (m : Mutation) : FetchOutcome :=
  Response false "Internal Server Error".

End Offline.

(** *** [src/offline/network/network-monitor.ts]: [NetworkMonitor] *)

Module Network.

Inductive Emitted : Type := emit_online | emit_offline.

Record NetworkMonitor : Type := mkNetworkMonitor {
  online : bool;
  emitted : list Emitted
}.

(** What happens to a monitor: the two window events it listens to, and a
    tick of the 30 second interval together with what the [fetch] of
    [/api/ping] gave. *)
Inductive Stimulus : Type :=
| window_online
| window_offline
| ping_tick (r : Offline.FetchOutcome).

(** [new NetworkMonitor()], with the value of [navigator.onLine]. *)
Definition new (navigator_onLine : bool) : NetworkMonitor :=
  mkNetworkMonitor navigator_onLine [].

Definition ping (r : Offline.FetchOutcome) : bool :=
  match r with
  | Offline.Response ok _ => ok
  | Offline.NetworkError _ => false
  end.

Definition setOnline (online' : bool) (nm : NetworkMonitor) : NetworkMonitor :=
  if negb (eqb (online nm) online') then
    mkNetworkMonitor online'
      (emitted nm ++ [if online' then emit_online else emit_offline])
  else nm.

Definition isOnline (nm : NetworkMonitor) : bool := online nm.

Definition step (nm : NetworkMonitor) (s : Stimulus) : NetworkMonitor :=
  match s with
  | window_online => setOnline true nm
  | window_offline => setOnline false nm
  | ping_tick r =>
      let actuallyOnline := ping r in
      if negb (eqb actuallyOnline (online nm)) then setOnline actuallyOnline nm
      else nm
  end.

Definition run (nm : NetworkMonitor) (ss : list Stimulus) : NetworkMonitor :=
  foldl step nm ss.

(** The host's advertised reachability, [navigator.onLine]: its value when
    the monitor was built, then that of the last window event. *)
Definition advertised (navigator_onLine : bool) (ss : list Stimulus) : bool :=
  foldl (fun b s =>
           match s with
           | window_online => true
           | window_offline => false
           | ping_tick _ => b
           end) navigator_onLine ss.

(** Whether the most recent probe succeeded ([false] before any probe). *)
Definition lastProbe (ss : list Stimulus) : bool :=
  foldl (fun b s =>
           match s with
           | ping_tick r => ping r
           | _ => b
           end) false ss.

(** The most recent signal of either kind. *)
Definition latestSignal (navigator_onLine : bool) (ss : list Stimulus) : bool :=
  foldl (fun b s =>
           match s with
           | window_online => true
           | window_offline => false
           | ping_tick r => ping r
           end) navigator_onLine ss.

End Network.

(** ** Reconciliation by vector clocks ([MockReconciliationService] of the
    PF-2 unit tests, over the types of [models/types.ts]) *)

Module Reconciliation.

Inductive OperationType : Type := CREATE | UPDATE | DELETE.

(** [VectorClock = Record<string, number>] is a [gmap string Z]. *)
Record Operation : Type := mkOperation {
  operationId : string;
  clientId : string;
  tenantId : string;
  entityType : string;
  entityId : string;
  operationType : OperationType;
  payload : JsVal;
  timestamp : Z;
  vectorClock : gmap string Z
}.

(** [clock[key] || 0]. *)
Definition clock_at (clock : gmap string Z) (key : string) : Z :=
  match clock !! key with
  | Some v => num_or v 0
  | None => 0
  end.

Definition areConcurrent_step (clock1 clock2 : gmap string Z)
    (flags : bool * bool) (key : string) : bool * bool :=
  let v1 := clock_at clock1 key in
  let v2 := clock_at clock2 key in
  let clock1Greater := if v2 <? v1 then true else flags.1 in
  let clock2Greater := if v1 <? v2 then true else flags.2 in
  (clock1Greater, clock2Greater).

Definition areConcurrent (clock1 clock2 : gmap string Z) : bool :=
  let allKeys := elements (dom clock1 ∪ dom clock2) in
  let flags := foldl (areConcurrent_step clock1 clock2) (false, false) allKeys in
  (* Concurrent if neither dominates *)
  flags.1 && flags.2.

Definition detectConflicts (operation : Operation)
    (existingOps : list Operation) : list Operation :=
  List.filter
    (fun existing =>
       areConcurrent (vectorClock operation) (vectorClock existing))
    existingOps.



End Reconciliation.

(** ** The realtime channel
    ([pf2-realtime-eventing-infrastructure/src/websocket/WebSocketService.ts]) *)

Module Realtime.

(** [enum InteractionClass] of [models/types.ts]; its members are the
    strings of the same name. *)
Inductive InteractionClass : Type := CLASS_A | CLASS_B | CLASS_C | CLASS_D.

Definition class_value (k : InteractionClass) : JsVal :=
  match k with
  | CLASS_A => JStr "CLASS_A"
  | CLASS_B => JStr "CLASS_B"
  | CLASS_C => JStr "CLASS_C"
  | CLASS_D => JStr "CLASS_D"
  end.

(** [socket.id] and the [socket.data] that the authentication middleware
    fills from the verified token. *)
Record Socket : Type := mkSocket {
  socket_id : string;
  socket_tenantId : string;
  socket_userId : string;
  socket_clientId : string
}.

Record ConnectionMetadata : Type := mkConnectionMetadata {
  conn_connectionId : string;
  conn_tenantId : string;
  conn_userId : string;
  conn_clientId : string
}.

Record WebSocketMessage : Type := mkWebSocketMessage {
  messageId : string;
  type : JsVal;
  interactionClass : JsVal;
  tenantId : string;
  senderId : string;
  recipientId : JsVal;
  roomId : JsVal;
  payload : JsVal;
  timestamp : Z;
  metadata : JsVal
}.

Record PresenceInfo : Type := mkPresenceInfo {
  presence_userId : string;
  presence_tenantId : string;
  status : JsVal;
  lastActive : Z;
  presence_metadata : JsVal
}.

(** Events the server emits on a socket. *)
Inductive ServerEvent : Type :=
| ev_message (message : WebSocketMessage)
| ev_message_ack (messageId : string)
| ev_room_joined (roomId : JsVal)
| ev_room_left (roomId : JsVal)
| ev_error (message : string).

Inductive LogEntry : Type :=
| log_info (text : string) (args : list string)
| log_debug (text : string) (args : list string)
| log_error (text : string) (error : Exn).

(** The state the service works on. Redis is one key space; its keys are
    grouped here by the kind of value the code keeps under them, each group
    with the full key as the code builds it:
    [rate_limit:*] counters, [presence:*] strings, [room_members:*] sets and
    [message_queue:*] lists. [published] is the sequence of
    [redis.publish(channel, JSON.stringify(message))] calls and [emitted]
    that of [socket.emit] calls with the id of the socket; a message is kept
    as it is rather than as its JSON text. *)
Record Service : Type := mkService {
  messageRateLimit : Z;
  connections : list ConnectionMetadata;
  sockets : gset string;
  rooms : gmap string (gset string);
  rate_limits : gmap string Z;
  presence : gmap string PresenceInfo;
  room_members : gmap string (gset string);
  message_queues : gmap string (list WebSocketMessage);
  published : list (string * WebSocketMessage);
  emitted : list (string * ServerEvent);
  logged : list LogEntry
}.

Definition set_rooms (f : gmap string (gset string) -> gmap string (gset string))
    (s : Service) : Service :=
  mkService (messageRateLimit s) (connections s) (sockets s) (f (rooms s))
    (rate_limits s) (presence s) (room_members s) (message_queues s)
    (published s) (emitted s) (logged s).

Definition set_rate_limits (f : gmap string Z -> gmap string Z)
    (s : Service) : Service :=
  mkService (messageRateLimit s) (connections s) (sockets s) (rooms s)
    (f (rate_limits s)) (presence s) (room_members s) (message_queues s)
    (published s) (emitted s) (logged s).

Definition set_presence
    (f : gmap string PresenceInfo -> gmap string PresenceInfo)
    (s : Service) : Service :=
  mkService (messageRateLimit s) (connections s) (sockets s) (rooms s)
    (rate_limits s) (f (presence s)) (room_members s) (message_queues s)
    (published s) (emitted s) (logged s).

Definition set_room_members
    (f : gmap string (gset string) -> gmap string (gset string))
    (s : Service) : Service :=
  mkService (messageRateLimit s) (connections s) (sockets s) (rooms s)
    (rate_limits s) (presence s) (f (room_members s)) (message_queues s)
    (published s) (emitted s) (logged s).

Definition set_message_queues
    (f : gmap string (list WebSocketMessage) -> gmap string (list WebSocketMessage))
    (s : Service) : Service :=
  mkService (messageRateLimit s) (connections s) (sockets s) (rooms s)
    (rate_limits s) (presence s) (room_members s) (f (message_queues s))
    (published s) (emitted s) (logged s).

Definition publish (channel : string) (message : WebSocketMessage)
    (s : Service) : Service :=
  mkService (messageRateLimit s) (connections s) (sockets s) (rooms s)
    (rate_limits s) (presence s) (room_members s) (message_queues s)
    (published s ++ [(channel, message)]) (emitted s) (logged s).

Definition emit (sid : string) (ev : ServerEvent) (s : Service) : Service :=
  mkService (messageRateLimit s) (connections s) (sockets s) (rooms s)
    (rate_limits s) (presence s) (room_members s) (message_queues s)
    (published s) (emitted s ++ [(sid, ev)]) (logged s).

Definition logger (l : LogEntry) (s : Service) : Service :=
  mkService (messageRateLimit s) (connections s) (sockets s) (rooms s)
    (rate_limits s) (presence s) (room_members s) (message_queues s)
    (published s) (emitted s) (logged s ++ [l]).

(** [checkRateLimit]: [redis.incr] creates the counter at 1. *)
Definition checkRateLimit (socket : Socket) : M Service unit :=
  let key := "rate_limit:" +:+ socket_id socket in
  count ← gets (fun s => default 0 (rate_limits s !! key) + 1);
  modify (set_rate_limits (insert key count));;
  limit ← gets messageRateLimit;
  if limit <? count then throw (RateLimitExceeded "Message rate limit exceeded")
  else mret tt.

(** [validateMessage(socket, data)], with the values read from [uuidv4()]
    and [new Date()]. *)
Definition validateMessage (socket : Socket) (uuid : string) (now : Z)
    (data : JsVal) : Exn + WebSocketMessage :=
  match prop data "type" with
  | inl e => inl e
  | inr data_type =>
      (* Validate required fields *)
      if negb (truthy data_type) || negb (truthy (assoc_of data "payload")) then
        inl (Error "Message must include type and payload")
      (* Validate tenant isolation *)
      else if truthy (assoc_of data "tenantId") &&
              negb (strict_eq_str (assoc_of data "tenantId") (socket_tenantId socket)) then
        inl (TenantIsolationViolation "Cannot send message for different tenant")
      else
        inr {| messageId := uuid;
               type := data_type;
               interactionClass :=
                 or_else (assoc_of data "interactionClass") (class_value CLASS_C);
               tenantId := socket_tenantId socket;
               senderId := socket_userId socket;
               recipientId := assoc_of data "recipientId";
               roomId := assoc_of data "roomId";
               payload := assoc_of data "payload";
               timestamp := now;
               metadata := assoc_of data "metadata" |}
  end.

(** [getUserTenant]: the source returns a placeholder. *)
Definition getUserTenant (userId : JsVal) : string := "tenant-id".

Definition sendDirectMessage (message : WebSocketMessage) : M Service unit :=
  (if negb (strict_eq_str (recipientId message) (tenantId message)) then
     (* Ensure sender and recipient are in same tenant *)
     let recipientTenant := getUserTenant (recipientId message) in
     if negb (String.eqb recipientTenant (tenantId message)) then
       throw (TenantIsolationViolation "Cross-tenant messaging not allowed")
     else mret tt
   else mret tt);;
  let channel :=
    "user:" +:+ tenantId message +:+ ":" +:+ toString (recipientId message) in
  modify (publish channel message).

Definition broadcastToRoom (message : WebSocketMessage) : M Service unit :=
  let channel :=
    "room:" +:+ tenantId message +:+ ":" +:+ toString (roomId message) in
  modify (publish channel message).

Definition handleMessage (socket : Socket) (uuid : string) (now : Z)
    (data : JsVal) : M Service unit :=
  try_catch
    ((* Rate limiting *)
     checkRateLimit socket;;
     (* Validate message *)
     message ← of_sum (validateMessage socket uuid now data);
     (* Route message based on type *)
     (if truthy (recipientId message) then sendDirectMessage message
      else if truthy (roomId message) then broadcastToRoom message
      else throw (Error "Message must specify recipientId or roomId"));;
     (* Acknowledge message *)
     modify (emit (socket_id socket) (ev_message_ack (messageId message))))
    (fun error =>
       modify (logger (log_error "Error handling message" error));;
       modify (emit (socket_id socket) (ev_error (message_of error)))).

(** [validateRoomAccess]: the source leaves the check empty. *)
Definition validateRoomAccess (tenantId0 userId0 : string) (roomId0 : JsVal)
    : M Service unit := mret tt.

Definition storeRoomMembership (tenantId0 userId0 : string) (roomId0 : JsVal)
    (s : Service) : Service :=
  let key := "room_members:" +:+ tenantId0 +:+ ":" +:+ toString roomId0 in
  set_room_members
    (fun m => <[key := {[userId0]} ∪ default ∅ (m !! key)]> m) s.

Definition removeRoomMembership (tenantId0 userId0 : string) (roomId0 : JsVal)
    (s : Service) : Service :=
  let key := "room_members:" +:+ tenantId0 +:+ ":" +:+ toString roomId0 in
  set_room_members
    (fun m =>
       match m !! key with
       | Some members =>
           let members' := members ∖ {[userId0]} in
           if decide (members' = ∅) then delete key m else <[key := members']> m
       | None => m
       end) s.

Definition socket_join (sid roomKey : string) (s : Service) : Service :=
  set_rooms (fun m => <[roomKey := {[sid]} ∪ default ∅ (m !! roomKey)]> m) s.

Definition socket_leave (sid roomKey : string) (s : Service) : Service :=
  set_rooms
    (fun m =>
       match m !! roomKey with
       | Some members =>
           let members' := members ∖ {[sid]} in
           if decide (members' = ∅) then delete roomKey m
           else <[roomKey := members']> m
       | None => m
       end) s.

Definition handleJoinRoom (socket : Socket) (data : JsVal) : M Service unit :=
  let tenantId0 := socket_tenantId socket in
  let userId0 := socket_userId socket in
  try_catch
    (roomId0 ← of_sum (prop data "roomId");
     validateRoomAccess tenantId0 userId0 roomId0;;
     modify (socket_join (socket_id socket)
                         (tenantId0 +:+ ":" +:+ toString roomId0));;
     modify (storeRoomMembership tenantId0 userId0 roomId0);;
     modify (emit (socket_id socket) (ev_room_joined roomId0));;
     modify (logger (log_info "User joined room"
                              [tenantId0; userId0; toString roomId0])))
    (fun error =>
       modify (logger (log_error "Error joining room" error));;
       modify (emit (socket_id socket) (ev_error (message_of error)))).

Definition handleLeaveRoom (socket : Socket) (data : JsVal) : M Service unit :=
  let tenantId0 := socket_tenantId socket in
  let userId0 := socket_userId socket in
  try_catch
    (roomId0 ← of_sum (prop data "roomId");
     modify (socket_leave (socket_id socket)
                          (tenantId0 +:+ ":" +:+ toString roomId0));;
     modify (removeRoomMembership tenantId0 userId0 roomId0);;
     modify (emit (socket_id socket) (ev_room_left roomId0));;
     modify (logger (log_info "User left room"
                              [tenantId0; userId0; toString roomId0])))
    (fun error =>
       modify (logger (log_error "Error leaving room" error));;
       modify (emit (socket_id socket) (ev_error (message_of error)))).

Definition updatePresence (tenantId0 userId0 : string) (status0 : JsVal)
    (now : Z) (metadata0 : JsVal) (s : Service) : Service :=
  let presence0 := mkPresenceInfo userId0 tenantId0 status0 now metadata0 in
  let key := "presence:" +:+ tenantId0 +:+ ":" +:+ userId0 in
  set_presence (insert key presence0) s.

Definition handlePresenceUpdate (socket : Socket) (now : Z) (data : JsVal)
    : M Service unit :=
  let tenantId0 := socket_tenantId socket in
  let userId0 := socket_userId socket in
  try_catch
    (status0 ← of_sum (prop data "status");
     modify (updatePresence tenantId0 userId0 status0 now
                            (assoc_of data "metadata"));;
     modify (logger (log_debug "Presence updated"
                               [tenantId0; userId0; toString status0])))
    (fun error => modify (logger (log_error "Error updating presence" error))).

Definition queueMessageForLater (message : WebSocketMessage) (s : Service)
    : Service :=
  let queueKey :=
    "message_queue:" +:+ tenantId message +:+ ":" +:+
    toString (recipientId message) in
  let s := set_message_queues
             (fun q => <[queueKey := message :: default [] (q !! queueKey)]> q) s in
  logger (log_info "Message queued for offline user"
                   [tenantId message; toString (recipientId message);
                    messageId message]) s.

(** The body of the delivery loop: [io.sockets.sockets.get(connectionId)]
    and, if there is such a socket, [socket.emit('message', message)]. *)
Definition emit_if_connected (message : WebSocketMessage) (s : Service)
    (conn : ConnectionMetadata) : Service :=
  if decide (conn_connectionId conn ∈ sockets s)
  then emit (conn_connectionId conn) (ev_message message) s
  else s.

Definition deliverDirectMessage (message : WebSocketMessage) (s : Service)
    : Service :=
  (* Find connections for recipient *)
  let found :=
    List.filter
      (fun conn =>
         strict_eq_str (recipientId message) (conn_userId conn) &&
         String.eqb (conn_tenantId conn) (tenantId message))
      (connections s) in
  (* Deliver to all user's connections *)
  let s := foldl (emit_if_connected message) s found in
  (* If no connections, queue for later delivery (Class B fallback) *)
  if (length found =? 0)%nat then queueMessageForLater message s else s.

(** [io.to(roomKey).emit('message', message)]: one emission per socket that
    joined the room. *)
Definition deliverRoomMessage (message : WebSocketMessage) (s : Service)
    : Service :=
  let roomKey := tenantId message +:+ ":" +:+ toString (roomId message) in
  foldl (fun s sid => emit sid (ev_message message) s) s
        (elements (default ∅ (rooms s !! roomKey))).

(** The [pmessage] handler of the Redis subscriptions. *)
Definition onRedisMessage (channel : string) (message : WebSocketMessage)
    (s : Service) : Service :=
  if String.prefix "user:" channel then deliverDirectMessage message s
  else if String.prefix "room:" channel then deliverRoomMessage message s
  else s.

(** *** Observations and fixtures used by the statements below *)

(** The state after [checkRateLimit] has counted the message. *)
Definition counted (socket : Socket) (s : Service) : Service :=
  let key := "rate_limit:" +:+ socket_id socket in
  set_rate_limits (insert key (default 0 (rate_limits s !! key) + 1)) s.

(** What the [catch] block of [handleMessage] does with an error: it logs
    it and reports it on the socket. *)
Definition refused (socket : Socket) (error : Exn) (s : Service) : Service :=
  emit (socket_id socket) (ev_error (message_of error))
       (logger (log_error "Error handling message" error) s).

(** What a routed message does: one publication and the acknowledgement. *)
Definition routed (socket : Socket) (channel : string)
    (message : WebSocketMessage) (s : Service) : Service :=
  emit (socket_id socket) (ev_message_ack (messageId message))
       (publish channel message s).

(** Presence, rooms, memberships, queues and publications are the same in
    both states. *)
Definition same_stores (s s' : Service) : Prop :=
  presence s' = presence s /\ rooms s' = rooms s /\
  room_members s' = room_members s /\ message_queues s' = message_queues s /\
  published s' = published s.

(** A tenant id without the separator [:] of the key templates. *)
Fixpoint no_colon (s : string) : bool :=
  match s with
  | EmptyString => true
  | String c rest => negb (Ascii.eqb c (Ascii.ascii_of_nat 58)) && no_colon rest
  end.

(** The final states of the room and presence handlers. *)
Definition joined (socket : Socket) (roomId0 : JsVal) (s : Service) : Service :=
  let tenantId0 := socket_tenantId socket in
  let userId0 := socket_userId socket in
  logger (log_info "User joined room" [tenantId0; userId0; toString roomId0])
    (emit (socket_id socket) (ev_room_joined roomId0)
       (storeRoomMembership tenantId0 userId0 roomId0
          (socket_join (socket_id socket)
             (tenantId0 +:+ ":" +:+ toString roomId0) s))).

Definition left_room (socket : Socket) (roomId0 : JsVal) (s : Service) : Service :=
  let tenantId0 := socket_tenantId socket in
  let userId0 := socket_userId socket in
  logger (log_info "User left room" [tenantId0; userId0; toString roomId0])
    (emit (socket_id socket) (ev_room_left roomId0)
       (removeRoomMembership tenantId0 userId0 roomId0
          (socket_leave (socket_id socket)
             (tenantId0 +:+ ":" +:+ toString roomId0) s))).

Definition failed (socket : Socket) (text : string) (error : Exn) (s : Service)
    : Service :=
  emit (socket_id socket) (ev_error (message_of error))
       (logger (log_error text error) s).

(** The keys of a payload that name the identity of a message. *)
Definition identity_keys : list string := ["tenantId"; "senderId"; "messageId"].

(** A service with no connection and nothing stored, and one in which
    socket [sock-2] of tenant [t1] has joined room [r1]. *)
Definition idle_service : Service :=
  mkService 100 [] ∅ ∅ ∅ ∅ ∅ ∅ [] [] [].

Definition room_service : Service :=
  mkService 100 [mkConnectionMetadata "sock-2" "t1" "u2" "c2"] {[ "sock-2" ]}
    {[ "t1:r1" := {[ "sock-2" ]} ]} ∅ ∅ {[ "room_members:t1:r1" := {[ "u2" ]} ]}
    ∅ [] [] [].

Definition alice : Socket := mkSocket "sock-1" "t1" "u1" "c1".

(** A payment sent as a Class D message to room [r1]. *)
Definition class_d_payload : JsVal :=
  JObj [("type", JStr "payment.processed");
        ("interactionClass", class_value CLASS_D);
        ("roomId", JStr "r1");
        ("payload", JObj [("paymentId", JStr "pay-001")])].

Definition class_d_message (socket : Socket) (uuid : string) (now : Z)
    : WebSocketMessage :=
  mkWebSocketMessage uuid (JStr "payment.processed") (class_value CLASS_D)
    (socket_tenantId socket) (socket_userId socket) JUndefined (JStr "r1")
    (JObj [("paymentId", JStr "pay-001")]) now JUndefined.

(** A message of scenario S7: declared for tenant [t2]. *)
Definition cross_tenant_payload : JsVal :=
  JObj [("type", JStr "chat.message");
        ("tenantId", JStr "t2");
        ("roomId", JStr "r1");
        ("payload", JObj [("text", JStr "hello")])].

End Realtime.

(** ** One pass of the sync manager ([SyncManager.sync] and
    [pullRemoteChanges] of [src/offline/sync/sync-manager.ts]) *)

Module SyncPass.

Import Offline.

(** What the [fetch] of [/api/sync/pull?since=...] gives: a response with
    its [ok] flag and [statusText] and, read only when [ok], the
    [{ changes, timestamp }] of its body; or a rejection. *)
Inductive PullOutcome : Type :=
| PullResponse (ok : bool) (statusText : string) (changes : list Item)
               (timestamp : Z)
| PullRejected (error : Exn).

(** [for (const change of changes) await this.applyRemoteChange(change)].
    [clock i] holds the two readings of [Date.now()] made while the change
    at position [i] is applied: the resolver's and [repository.put]'s. *)
Fixpoint applyChanges (strategy : ConflictResolutionStrategy)
    (ui : Item -> Item -> option Item) (clock : nat -> Z * Z) (i : nat)
    (changes : list Item) : M Client unit :=
  match changes with
  | [] => mret tt
  | change :: rest =>
      applyRemoteChange strategy ui (clock i).1 (clock i).2 change;;
      applyChanges strategy ui clock (S i) rest
  end.

(** [syncMetadata?.lastSyncTimestamp || 0] for the [documents] collection. *)
Definition lastSyncTimestampOf (c : Client) : Z :=
  match syncMetadata c !! "documents" with
  | Some m => num_or (lastSyncTimestamp m) 0
  | None => 0
  end.

Definition pullRemoteChanges (strategy : ConflictResolutionStrategy)
    (ui : Item -> Item -> option Item) (clock : nat -> Z * Z)
    (fetch : Z -> PullOutcome) : M Client unit :=
  since ← gets lastSyncTimestampOf;
  try_catch
    (match fetch since with
     | PullRejected error => throw error
     | PullResponse false statusText _ _ =>
         throw (Error ("Pull failed: " +:+ statusText))
     | PullResponse true _ changes timestamp =>
         applyChanges strategy ui clock 0 changes;;
         (* Update sync metadata *)
         modify (set_syncMetadata
                   (insert "documents" (mkSyncMetadata timestamp success None)))
     end)
    (fun error =>
       modify (print (console_error "Failed to pull changes:" ""
                                    (message_of error)));;
       modify (set_syncMetadata
                 (insert "documents"
                    (mkSyncMetadata since error_ (Some (message_of error)))));;
       throw error).

(** The sync manager: the client it works on and its [syncInProgress]
    flag. *)
Record SyncManager : Type := mkSyncManager {
  client : Client;
  syncInProgress : bool
}.

(** [sync()]. The [finally] block runs when the body settles; while a
    promise of the body is never settled it does not run. *)
Definition sync (strategy : ConflictResolutionStrategy)
    (ui : Item -> Item -> option Item) (clock : nat -> Z * Z)
    (push : string -> Mutation -> FetchOutcome) (pull : Z -> PullOutcome)
    : M SyncManager unit :=
  fun sm =>
    if syncInProgress sm then
      (Ok tt,
       mkSyncManager
         (print (console_log "Sync already in progress, skipping") (client sm))
         true)
    else
      (* 1. Push local changes to server *)
      let pushed := pushLocalChanges push (client sm) in
      (* 2. Pull remote changes from server *)
      match pullRemoteChanges strategy ui clock pull pushed with
      | (Ok _, c) =>
          (Ok tt,
           mkSyncManager (print (console_log "Sync completed successfully") c)
                         false)
      | (Throw error, c) =>
          (Throw error,
           mkSyncManager
             (print (console_error "Sync failed:" "" (message_of error)) c)
             false)
      | (Pending, c) => (Pending, mkSyncManager c true)
      end.

(** The writes that a list of changes amounts to when each is applied at
    its own clock readings. *)
Fixpoint applied (strategy : ConflictResolutionStrategy)
    (ui : Item -> Item -> option Item) (clock : nat -> Z * Z) (i : nat)
    (changes : list Item) : list Write :=
  match changes with
  | [] => []
  | change :: rest =>
      w_apply strategy ui (clock i).1 (clock i).2 change
      :: applied strategy ui clock (S i) rest
  end.

(** A clock that always reads the same two values, a server whose pull
    fails with status 503, and one that sends the change of scenario S2
    followed by a change without [_meta] for the same record. *)
Definition steady_clock (i : nat) : Z * Z := (5000, 5000).

Definition unavailable_server (since : Z) : PullOutcome :=
  PullResponse false "Service Unavailable" [] 0.



(** A server that accepts every push. *)
Definition accepting_server (mid : string) (m : Mutation) : FetchOutcome :=
  Response true "OK".

(** A server that cannot be reached. *)
Definition unreachable_server (mid : string) (m : Mutation) : FetchOutcome :=
  NetworkError "Failed to fetch".

(** A conflicting change under the [manual] strategy with a user interface
    that never answers. *)
Definition conflicting_server (since : Z) : PullOutcome :=
  PullResponse true "OK" [far_change] 9000.

End SyncPass.

(** ** Observations on the connectivity monitor *)

Module NetworkEvents.

Import Network.

(** What a listener that starts from [navigator.onLine] and follows the
    emitted events believes (the [isOnline] state of [OfflineProvider], set
    to true on every [online] event and to false on every [offline] one),
    provided every event is a genuine change: [None] as soon as an event
    repeats the state it finds. *)
Fixpoint follow (believed : bool) (events : list Emitted) : option bool :=
  match events with
  | [] => Some believed
  | emit_online :: rest => if believed then None else follow true rest
  | emit_offline :: rest => if believed then follow false rest else None
  end.

End NetworkEvents.

(** ** The reconciliation service of the PF-2 tests
    ([MockReconciliationService]: [submitOperation], [reconcile],
    [resolveConflict], [getWinningOperation], [getOperations]) *)

Module ReconciliationService.

Import Reconciliation.

Inductive ResolutionStrategy : Type :=
| LAST_WRITE_WINS
| CUSTOM_MERGE
| MANUAL
| FIELD_LEVEL_MERGE.

Record ConflictResolution : Type := mkConflictResolution {
  strategy : ResolutionStrategy;
  resolvedAt : Z;
  result : JsVal
}.

Record Conflict : Type := mkConflict {
  conflictId : string;
  conflict_entityType : string;
  conflict_entityId : string;
  operations : list Operation;
  detectedAt : Z;
  resolution : option ConflictResolution
}.

Record ReconciliationRequest : Type := mkReconciliationRequest {
  requestId : string;
  request_clientId : string;
  request_tenantId : string;
  request_operations : list Operation;
  requestedAt : Z
}.

Record ReconciliationResponse : Type := mkReconciliationResponse {
  response_requestId : string;
  conflicts : list Conflict;
  resolvedOperations : list Operation;
  currentVersion : string;
  completedAt : Z
}.

(** The key of the [operations] map:
    [`${tenantId}:${entityType}:${entityId}`]. *)
Definition key_of (tenantId0 entityType0 entityId0 : string) : string :=
  tenantId0 +:+ ":" +:+ entityType0 +:+ ":" +:+ entityId0.

(** The state of the service is its [operations] map (the two other maps of
    the class are never read or written). *)
Definition submitOperation (operation : Operation)
    (store : gmap string (list Operation)) : gmap string (list Operation) :=
  let key := key_of (tenantId operation) (entityType operation)
                    (entityId operation) in
  <[key := default [] (store !! key) ++ [operation]]> store.

Definition getOperations (tenantId0 entityType0 entityId0 : string)
    (store : gmap string (list Operation)) : list Operation :=
  default [] (store !! key_of tenantId0 entityType0 entityId0).

(** [operations.reduce((latest, op) =>
      op.timestamp > latest.timestamp ? op : latest)], on a list with first
    element [first]. *)
Definition latestOf (first : Operation) (rest : list Operation) : Operation :=
  foldl (fun latest op => if timestamp latest <? timestamp op then op else latest)
        first rest.

(** [resolveConflict(conflict, strategy)], with the value of [new Date()].
    [mergeFields] ([Object.assign] of the payloads in timestamp order) is
    taken as given. [reduce] without initial value throws on an empty
    array; [conflict.operations[0].payload] throws when there is no first
    operation. *)
Definition resolveConflict (mergeFields : list Operation -> JsVal)
    (conflict : Conflict) (strategy0 : ResolutionStrategy) (now : Z)
    : Exn + ConflictResolution :=
  match strategy0 with
  | LAST_WRITE_WINS =>
      match operations conflict with
      | first :: rest =>
          inr (mkConflictResolution strategy0 now (payload (latestOf first rest)))
      | [] => inl (TypeError "Reduce of empty array with no initial value")
      end
  | FIELD_LEVEL_MERGE =>
      inr (mkConflictResolution strategy0 now (mergeFields (operations conflict)))
  | _ =>
      match operations conflict with
      | first :: _ => inr (mkConflictResolution strategy0 now (payload first))
      | [] => inl (TypeError "Cannot read properties of undefined")
      end
  end.

(** [getWinningOperation(conflict)]: the first operation of the conflict,
    with the resolved result as its payload when the conflict is resolved.
    [None] when the conflict lists no operation (the source then returns a
    value that is not an operation). *)
Definition getWinningOperation (conflict : Conflict) : option Operation :=
  match operations conflict with
  | first :: _ =>
      match resolution conflict with
      | None => Some first
      | Some r =>
          Some (mkOperation (operationId first) (clientId first)
                  (tenantId first) (entityType first) (entityId first)
                  (operationType first) (result r) (timestamp first)
                  (vectorClock first))
      end
  | [] => None
  end.

(** The body of the loop of [reconcile] for the operation at position [i].
    [clock i] holds the three clock readings made when the operation is in
    conflict: [Date.now()] for the id of the conflict, [new Date()] for
    [detectedAt] and for [resolvedAt]. *)
Definition reconcile_operation (mergeFields : list Operation -> JsVal)
    (requestTenant : string) (readings : Z * Z * Z)
    (found : list Conflict * list Operation) (operation : Operation)
    : M (gmap string (list Operation)) (list Conflict * list Operation) :=
  let key := key_of requestTenant (entityType operation) (entityId operation) in
  existingOps ← gets (fun store => default [] (store !! key));
  (* Check for conflicts *)
  let conflictingOps := detectConflicts operation existingOps in
  found' ←
    (if (0 <? length conflictingOps)%nat then
       let conflict :=
         mkConflict ("conflict-" +:+ pretty readings.1.1)
           (entityType operation) (entityId operation)
           (operation :: conflictingOps) readings.1.2 None in
       (* Auto-resolve with last-write-wins *)
       resolution0 ← of_sum (resolveConflict mergeFields conflict
                               LAST_WRITE_WINS readings.2);
       let conflict :=
         mkConflict (conflictId conflict) (conflict_entityType conflict)
           (conflict_entityId conflict) (operations conflict)
           (detectedAt conflict) (Some resolution0) in
       (* Use resolved operation: the conflict lists [operation] first, so
          [getWinningOperation] gives an operation *)
       mret (found.1 ++ [conflict],
             found.2 ++ option_list (getWinningOperation conflict))
     else mret (found.1, found.2 ++ [operation]));
  (* Store operation *)
  modify (submitOperation operation);;
  mret found'.

Fixpoint reconcile_loop (mergeFields : list Operation -> JsVal)
    (requestTenant : string) (clock : nat -> Z * Z * Z) (i : nat)
    (found : list Conflict * list Operation) (ops : list Operation)
    : M (gmap string (list Operation)) (list Conflict * list Operation) :=
  match ops with
  | [] => mret found
  | operation :: rest =>
      found' ← reconcile_operation mergeFields requestTenant (clock i) found
                 operation;
      reconcile_loop mergeFields requestTenant clock (S i) found' rest
  end.

(** [reconcile(request)], with the final readings of [Date.now()] and
    [new Date()]. *)
Definition reconcile (mergeFields : list Operation -> JsVal)
    (clock : nat -> Z * Z * Z) (versionNow completedNow : Z)
    (request : ReconciliationRequest)
    : M (gmap string (list Operation)) ReconciliationResponse :=
  found ← reconcile_loop mergeFields (request_tenantId request) clock 0
            ([], []) (request_operations request);
  mret (mkReconciliationResponse (requestId request) found.1 found.2
          ("v-" +:+ pretty versionNow) completedNow).

(** *** Observations and fixtures *)

(** The identity of an operation: everything but its payload. *)
Definition same_identity (a b : Operation) : Prop :=
  operationId a = operationId b /\ clientId a = clientId b /\
  tenantId a = tenantId b /\ entityType a = entityType b /\
  entityId a = entityId b /\ operationType a = operationType b /\
  timestamp a = timestamp b /\ vectorClock a = vectorClock b.

Definition no_merge (ops : list Operation) : JsVal := JUndefined.

Definition still_clock (i : nat) : Z * Z * Z := (1000, 1000, 1000).

(** The two concurrent operations of the conflict-detection tests. *)
Definition op1 : Operation :=
  mkOperation "op-001" "client-001" "tenant-001" "order" "order-001" UPDATE
    (JObj [("status", JStr "shipped")]) 1000 {[ "client-001" := 1 ]}.

Definition op2 : Operation :=
  mkOperation "op-002" "client-002" "tenant-001" "order" "order-001" UPDATE
    (JObj [("status", JStr "cancelled")]) 1100 {[ "client-002" := 1 ]}.

Definition request1 : ReconciliationRequest :=
  mkReconciliationRequest "req-001" "client-002" "tenant-001" [op2] 1200.

End ReconciliationService.

(** ** The fallback manager of the PF-2 degradation tests
    ([MockFallbackManager]) *)

Module Fallback.

Import Realtime.

Inductive FallbackMode : Type :=
| NONE
| EVENT_QUEUE
| POLLING
| DELAYED_RECONCILIATION
| SNAPSHOT_REFRESH
| ASYNC_CONFIRMATION.

Inductive HealthStatus : Type := HEALTHY | DEGRADED | UNHEALTHY.

Record RetryPolicy : Type := mkRetryPolicy {
  maxRetries : Z;
  initialDelay : Z;
  maxDelay : Z;
  backoffMultiplier : Z
}.

Record FallbackConfig : Type := mkFallbackConfig {
  config_interactionClass : InteractionClass;
  mode : FallbackMode;
  pollingInterval : option Z;
  queueSize : option Z;
  retryPolicy : option RetryPolicy
}.

Record Event : Type := mkEvent {
  eventId : string;
  eventType : string;
  event_tenantId : string;
  event_timestamp : Z;
  event_payload : JsVal;
  event_metadata : JsVal;
  schemaVersion : string
}.

Record EventQueue : Type := mkEventQueue {
  queueId : string;
  queue_clientId : string;
  queue_tenantId : string;
  events : list Event;
  createdAt : Z;
  lastAccessedAt : Z
}.

Record ServiceHealth : Type := mkServiceHealth {
  service : string;
  health_status : HealthStatus;
  lastCheck : Z
}.

(** The manager: its event queues and the health of the realtime service.
    Its map of fallback configurations is filled by the constructor and
    never changed; [getFallbackConfig] reads it. *)
Record Manager : Type := mkManager {
  eventQueues : gmap string EventQueue;
  serviceHealth : ServiceHealth
}.

Definition getFallbackConfig (k : InteractionClass) : FallbackConfig :=
  match k with
  | CLASS_A => mkFallbackConfig CLASS_A NONE None None None
  | CLASS_B =>
      mkFallbackConfig CLASS_B EVENT_QUEUE None (Some 1000)
        (Some (mkRetryPolicy 3 1000 30000 2))
  | CLASS_C => mkFallbackConfig CLASS_C POLLING (Some 5000) None None
  | CLASS_D => mkFallbackConfig CLASS_D ASYNC_CONFIRMATION None None None
  end.

(** [new MockFallbackManager()], with the value of [new Date()]. *)
Definition new (now : Z) : Manager :=
  mkManager ∅ (mkServiceHealth "realtime" HEALTHY now).

Definition setServiceHealth (status0 : HealthStatus) (now : Z) (m : Manager)
    : Manager :=
  mkManager (eventQueues m)
    (mkServiceHealth (service (serviceHealth m)) status0 now).

Definition isRealtimeAvailable (m : Manager) : bool :=
  match health_status (serviceHealth m) with
  | HEALTHY => true
  | _ => false
  end.

(** [queueEvent(event)]. [readings] are the successive values of
    [new Date()]: two when the queue is created, one when the event is
    pushed. *)
Definition queueEvent (readings : Z * Z * Z) (event : Event) (m : Manager)
    : Manager :=
  let queueKey := event_tenantId event +:+ ":queue" in
  let queue :=
    match eventQueues m !! queueKey with
    | Some queue => queue
    | None =>
        mkEventQueue queueKey "system" (event_tenantId event) []
                     readings.1.1 readings.1.2
    end in
  let queue' :=
    mkEventQueue (queueId queue) (queue_clientId queue) (queue_tenantId queue)
                 (events queue ++ [event]) (createdAt queue) readings.2 in
  mkManager (<[queueKey := queue']> (eventQueues m)) (serviceHealth m).

Definition storeForPolling (readings : Z * Z * Z) (event : Event) (m : Manager)
    : Manager := queueEvent readings event m.

Record HandleResult : Type := mkHandleResult {
  delivered : bool;
  fallbackUsed : bool;
  fallbackMode : option FallbackMode
}.

Definition handleEvent (readings : Z * Z * Z) (event : Event)
    (interactionClass0 : InteractionClass) (m : Manager)
    : HandleResult * Manager :=
  let config := getFallbackConfig interactionClass0 in
  (* If realtime is available, deliver directly *)
  if isRealtimeAvailable m then (mkHandleResult true false None, m)
  else
    (* Apply fallback based on interaction class *)
    match mode config with
    | NONE => (mkHandleResult false false None, m)
    | EVENT_QUEUE =>
        (mkHandleResult false true (Some EVENT_QUEUE),
         queueEvent readings event m)
    | POLLING =>
        (mkHandleResult false true (Some POLLING),
         storeForPolling readings event m)
    | ASYNC_CONFIRMATION =>
        (mkHandleResult false true (Some ASYNC_CONFIRMATION), m)
    | _ => (mkHandleResult false false None, m)
    end.

Definition getQueuedEvents (tenantId0 : string) (m : Manager) : list Event :=
  match eventQueues m !! (tenantId0 +:+ ":queue") with
  | Some queue => events queue
  | None => []
  end.

Definition drainQueue (tenantId0 : string) (m : Manager)
    : list Event * Manager :=
  let queueKey := tenantId0 +:+ ":queue" in
  match eventQueues m !! queueKey with
  | None => ([], m)
  | Some queue =>
      (events queue,
       mkManager
         (<[queueKey := mkEventQueue (queueId queue) (queue_clientId queue)
                          (queue_tenantId queue) [] (createdAt queue)
                          (lastAccessedAt queue)]> (eventQueues m))
         (serviceHealth m))
  end.

(** *** Observations and fixtures *)

(** Handling a sequence of events, each with its class and clock readings,
    one after the other. *)
Definition handleAll (m : Manager)
    (arrivals : list (Z * Z * Z * Event * InteractionClass)) : Manager :=
  foldl (fun m a => (handleEvent a.1.1 a.1.2 a.2 m).2) m arrivals.

(** Whether an event of that class is queued when realtime is not
    available. *)
Definition queued_class (k : InteractionClass) : bool :=
  match k with
  | CLASS_B | CLASS_C => true
  | CLASS_A | CLASS_D => false
  end.

Definition order_event (n : string) (tenant : string) : Event :=
  mkEvent ("event-" +:+ n) "order.created" tenant 0 (JObj [])
          (JObj [("source", JStr "test")]) "1.0.0".

End Fallback.

(** ** Runs of the message handler *)

Module RealtimeRuns.

Import Realtime.

(** The messages one socket sends, one after the other: each arrival is
    the identifier and the time the server draws for it and the payload
    received. *)
Definition handleMessages (socket : Socket)
    (arrivals : list (string * Z * JsVal)) (s : Service) : Service :=
  foldl (fun s a => (handleMessage socket a.1.1 a.1.2 a.2 s).2) s arrivals.

(** The connections [deliverDirectMessage] selects for a message. *)
Definition recipients (message : WebSocketMessage) (s : Service)
    : list ConnectionMetadata :=
  List.filter
    (fun conn =>
       strict_eq_str (recipientId message) (conn_userId conn) &&
       String.eqb (conn_tenantId conn) (tenantId message))
    (connections s).

(** A service in which user [u2] of tenant [t1] has a connection whose
    socket is gone. *)
Definition stale_service : Service :=
  mkService 100 [mkConnectionMetadata "sock-2" "t1" "u2" "c2"] ∅ ∅ ∅ ∅ ∅ ∅
    [] [] [].

Definition direct_payload (recipient : string) : JsVal :=
  JObj [("type", JStr "chat.message");
        ("recipientId", JStr recipient);
        ("payload", JObj [("text", JStr "hello")])].

Definition direct_message (socket : Socket) (recipient uuid : string) (now : Z)
    : WebSocketMessage :=
  mkWebSocketMessage uuid (JStr "chat.message") (class_value CLASS_C)
    (socket_tenantId socket) (socket_userId socket) (JStr recipient) JUndefined
    (JObj [("text", JStr "hello")]) now JUndefined.

(** A payload that declares the empty string as its tenant. *)
Definition empty_tenant_payload : JsVal :=
  JObj [("type", JStr "chat.message");
        ("tenantId", JStr "");
        ("roomId", JStr "r1");
        ("payload", JObj [("text", JStr "hello")])].

Definition room_message (socket : Socket) (room uuid : string) (now : Z)
    : WebSocketMessage :=
  mkWebSocketMessage uuid (JStr "chat.message") (class_value CLASS_C)
    (socket_tenantId socket) (socket_userId socket) JUndefined (JStr room)
    (JObj [("text", JStr "hello")]) now JUndefined.

(** Two tenants whose ids are [a] and [a:b]: a socket of the first, which
    joins the room [b:x], and a socket of the second, which writes to its
    room [x]. *)
Definition socket_a : Socket := mkSocket "sock-a" "a" "u1" "c1".

Definition socket_ab : Socket := mkSocket "sock-ab" "a:b" "u2" "c2".

Definition join_payload (room : string) : JsVal :=
  JObj [("roomId", JStr room)].

Definition room_payload (room : string) : JsVal :=
  JObj [("type", JStr "chat.message");
        ("roomId", JStr room);
        ("payload", JObj [("text", JStr "hello")])].

End RealtimeRuns.

(** * Properties *)

(** ** JavaScript idioms *)

Lemma num_or_zero (n : Z) : num_or n 0 = n.
Proof. unfold num_or. destruct (Z.eqb_spec n 0); congruence. Qed.

Lemma num_or_nonzero (n d : Z) : n <> 0 -> num_or n d = n.
Proof. unfold num_or. destruct (Z.eqb_spec n 0); congruence. Qed.

(** ** The repository *)

Section Repository.

Import Offline.

Lemma put_documents (item : Item) (now : Z) (c : Client) :
  documents (put item now c) !! id item =
    Some (mkStored (fields item)
            {| createdAt :=
                 match documents c !! id item with
                 | Some s => num_or (createdAt (s_meta s)) now
                 | None => now
                 end;
               updatedAt := now;
               version := version_at (id item) c + 1;
               deleted := false |}).
Proof.
  unfold put, get, version_at. simpl. rewrite lookup_insert_eq.
  destruct (documents c !! id item) as [s|]; simpl;
    rewrite ?num_or_zero; reflexivity.
Qed.

Lemma put_documents_ne (item : Item) (now : Z) (c : Client) (key : string) :
  key <> id item -> documents (put item now c) !! key = documents c !! key.
Proof. intros Hne. unfold put. simpl. by rewrite lookup_insert_ne. Qed.

Lemma put_pendingMutations (item : Item) (now : Z) (c : Client) :
  pendingMutations (put item now c) = pendingMutations c.
Proof. reflexivity. Qed.

Lemma put_version_at (item : Item) (now : Z) (c : Client) :
  version_at (id item) (put item now c) = version_at (id item) c + 1.
Proof. unfold version_at at 1. by rewrite put_documents. Qed.

Lemma get_put (item : Item) (now : Z) (c : Client) :
  exists created,
    get (id item) (put item now c) =
      Some (mkItem (id item) (fields item)
              (Some (mkMeta created now (version_at (id item) c + 1) false))).
Proof.
  unfold get. rewrite put_documents. simpl. eexists. reflexivity.
Qed.

Lemma delete_documents (key : string) (now : Z) (c : Client) (s : Stored) :
  documents c !! key = Some s ->
  documents (delete key now c) !! key =
    Some (mkStored (s_fields s)
            (mkMeta (createdAt (s_meta s)) now (version (s_meta s)) true)).
Proof.
  intros Hs. unfold delete. rewrite Hs. simpl. by rewrite lookup_insert_eq.
Qed.

Lemma delete_documents_ne (key key' : string) (now : Z) (c : Client) :
  key' <> key -> documents (delete key now c) !! key' = documents c !! key'.
Proof.
  intros Hne. unfold delete. destruct (documents c !! key); [|done].
  simpl. by rewrite lookup_insert_ne.
Qed.


End Repository.

(** ** The conflict resolver and the apply path of the sync manager *)

Section Apply.

Import Offline.

Variable strategy : ConflictResolutionStrategy.
Variable ui : Item -> Item -> option Item.
Variables nowResolve nowPut : Z.

Lemma mergeText_same (text : string) : mergeText text text = text.
Proof. unfold mergeText. by rewrite String.eqb_refl. Qed.

(** Every strategy other than [manual] answers at once, with an item that
    carries the id of the incoming change. *)
Lemma resolve_automatic (local remote : Item) (lm rm : Meta) :
  strategy <> manual ->
  _meta local = Some lm -> _meta remote = Some rm -> id local = id remote ->
  exists resolved,
    resolve strategy ui nowResolve local remote = Ok resolved /\
    id resolved = id remote.
Proof.
  intros Hs Hl Hr Hid. unfold resolve.
  destruct strategy; try congruence;
    unfold lastWriteWins, firstWriteWins, operationalTransform, meta_of;
    rewrite Hl, Hr; simpl.
  - destruct (updatedAt rm <? updatedAt lm); eauto.
  - destruct (updatedAt lm <? updatedAt rm); eauto.
  - eexists; split; [reflexivity|]. simpl. rewrite Hid. apply mergeText_same.
Qed.

(** [last-write-wins] returns one of its two arguments: the local one
    exactly when its [updatedAt] is the greater. *)
Lemma lastWriteWins_spec (local remote : Item) (lm rm : Meta) :
  _meta local = Some lm -> _meta remote = Some rm ->
  lastWriteWins local remote =
    inr (if updatedAt rm <? updatedAt lm then local else remote).
Proof. intros Hl Hr. unfold lastWriteWins, meta_of. by rewrite Hl, Hr. Qed.

Lemma apply_no_local (change : Item) (c : Client) :
  documents c !! id change = None ->
  applyRemoteChange strategy ui nowResolve nowPut change c =
    (Ok tt, put change nowPut c).
Proof.
  intros Hn. unfold applyRemoteChange, mbind, M_bind, bind, gets, get.
  rewrite Hn. reflexivity.
Qed.

Lemma apply_no_meta (change : Item) (c : Client) (s : Stored) :
  documents c !! id change = Some s -> _meta change = None ->
  applyRemoteChange strategy ui nowResolve nowPut change c =
    (Throw (TypeError "Cannot read properties of undefined"), c).
Proof.
  intros Hs Hm. unfold applyRemoteChange, mbind, M_bind, bind, gets, get.
  rewrite Hs. simpl. unfold meta_of. rewrite Hm. reflexivity.
Qed.

Lemma apply_fast_forward (change : Item) (cm : Meta) (c : Client) (s : Stored) :
  documents c !! id change = Some s -> _meta change = Some cm ->
  version (s_meta s) = version cm - 1 ->
  applyRemoteChange strategy ui nowResolve nowPut change c =
    (Ok tt, put change nowPut c).
Proof.
  intros Hs Hm Hv. unfold applyRemoteChange, mbind, M_bind, bind, gets, get.
  rewrite Hs. simpl. unfold meta_of. rewrite Hm. simpl.
  rewrite Hv, Z.eqb_refl. reflexivity.
Qed.

Lemma apply_conflict (change : Item) (cm : Meta) (c : Client) (s : Stored) :
  documents c !! id change = Some s -> _meta change = Some cm ->
  version (s_meta s) <> version cm - 1 ->
  applyRemoteChange strategy ui nowResolve nowPut change c =
    match resolve strategy ui nowResolve (item_of (id change) s) change with
    | Ok resolved => (Ok tt, put resolved nowPut (conflict_reported change s c))
    | Throw e => (Throw e, conflict_reported change s c)
    | Pending => (Pending, conflict_reported change s c)
    end.
Proof.
  intros Hs Hm Hv. unfold applyRemoteChange, mbind, M_bind, bind, gets, get.
  rewrite Hs. simpl. unfold meta_of. rewrite Hm. simpl.
  destruct (Z.eqb_spec (version (s_meta s)) (version cm - 1)) as [|_];
    [congruence|]. simpl.
  by destruct (resolve strategy ui nowResolve (item_of (id change) s) change).
Qed.

(** Whatever the branch, the documents left by [applyRemoteChange] are those
    of the state before or those left by one [put]. *)
Lemma apply_documents (change : Item) (c : Client) :
  let c' := (applyRemoteChange strategy ui nowResolve nowPut change c).2 in
  documents c' = documents c \/
  exists item, documents c' = documents (put item nowPut c).
Proof.
  simpl. destruct (documents c !! id change) as [s|] eqn:Hs.
  - destruct (_meta change) as [cm|] eqn:Hm.
    + destruct (decide (version (s_meta s) = version cm - 1)) as [Hv|Hv].
      * rewrite (apply_fast_forward _ _ _ _ Hs Hm Hv). eauto.
      * rewrite (apply_conflict _ _ _ _ Hs Hm Hv).
        destruct (resolve _ _ _ _ _) as [resolved| |]; simpl; eauto.
    + rewrite (apply_no_meta _ _ _ Hs Hm). eauto.
  - rewrite (apply_no_local _ _ Hs). eauto.
Qed.

Lemma apply_pendingMutations (change : Item) (c : Client) :
  pendingMutations (applyRemoteChange strategy ui nowResolve nowPut change c).2
  = pendingMutations c.
Proof.
  destruct (documents c !! id change) as [s|] eqn:Hs.
  - destruct (_meta change) as [cm|] eqn:Hm.
    + destruct (decide (version (s_meta s) = version cm - 1)) as [Hv|Hv].
      * by rewrite (apply_fast_forward _ _ _ _ Hs Hm Hv).
      * rewrite (apply_conflict _ _ _ _ Hs Hm Hv).
        by destruct (resolve _ _ _ _ _).
    + by rewrite (apply_no_meta _ _ _ Hs Hm).
  - by rewrite (apply_no_local _ _ Hs).
Qed.

(** With a strategy other than [manual] and a change that carries its
    [_meta], [applyRemoteChange] completes and what it does to the record of
    the change is one [put]: the version goes up by one. *)
Lemma apply_writes (change : Item) (cm : Meta) (c : Client) :
  strategy <> manual -> _meta change = Some cm ->
  exists item,
    id item = id change /\
    applyRemoteChange strategy ui nowResolve nowPut change c =
      (Ok tt, put item nowPut
                (if decide (documents c !! id change = None) then c
                 else if decide (version_at (id change) c = version cm - 1) then c
                 else conflict_reported change
                        (default (mkStored ∅ cm) (documents c !! id change)) c)).
Proof.
  intros Hstrat Hm. destruct (documents c !! id change) as [s|] eqn:Hs.
  - rewrite decide_False by done. unfold version_at. rewrite Hs. simpl.
    destruct (decide (version (s_meta s) = version cm - 1)) as [Hv|Hv].
    + exists change. split; [done|]. apply (apply_fast_forward _ _ _ _ Hs Hm Hv).
    + rewrite (apply_conflict _ _ _ _ Hs Hm Hv).
      destruct (resolve_automatic (item_of (id change) s) change (s_meta s) cm)
        as (resolved & -> & Hid); try done.
      exists resolved. split; done.
  - rewrite decide_True by done. exists change. split; [done|].
    by apply apply_no_local.
Qed.

Lemma apply_stored (change : Item) (cm : Meta) (c : Client) :
  strategy <> manual -> _meta change = Some cm ->
  (applyRemoteChange strategy ui nowResolve nowPut change c).1 = Ok tt /\
  exists s,
    documents (applyRemoteChange strategy ui nowResolve nowPut change c).2
      !! id change = Some s /\
    version (s_meta s) = version_at (id change) c + 1 /\
    updatedAt (s_meta s) = nowPut /\
    deleted (s_meta s) = false.
Proof.
  intros Hs Hm.
  destruct (apply_writes change cm c Hs Hm) as (item & Hid & ->).
  split; [done|]. cbn [snd]. rewrite <- Hid, put_documents.
  eexists; split; [reflexivity|]. cbn [s_meta version updatedAt deleted].
  split; [|done]. f_equal. unfold version_at.
  repeat case_decide; reflexivity.
Qed.

Lemma apply_version_at (change : Item) (cm : Meta) (c : Client) :
  strategy <> manual -> _meta change = Some cm ->
  version_at (id change)
    (applyRemoteChange strategy ui nowResolve nowPut change c).2
  = version_at (id change) c + 1.
Proof.
  intros Hs Hm. destruct (apply_stored change cm c Hs Hm) as (_ & s & H & Hv & _).
  unfold version_at at 1. by rewrite H.
Qed.

End Apply.

(** ** Writes through the repository and the sync manager *)

Section Writes.

Import Offline.

Lemma write_documents (w : Write) (c : Client) :
  documents (write c w) = documents c \/
  (exists item now, documents (write c w) = documents (put item now c)) \/
  (exists key now, documents (write c w) = documents (delete key now c)).
Proof.
  destruct w as [item now|key now|strategy ui nowResolve nowPut change]; simpl.
  - right; left; eauto.
  - right; right; eauto.
  - destruct (apply_documents strategy ui nowResolve nowPut change c)
      as [H|[item H]]; [by left|right; left; exists item, nowPut; exact H].
Qed.








(** C2 (what the code does at the input of the repository's own test
    "should queue mutations when offline"): [put] stamps the record as the
    claim says, created and updated now, version 1, not deleted, but it
    appends nothing to the mutation log. No [put] ever does: the store of
    pending mutations is the same before and after. *)
Theorem C2_put_appends_no_mutation :
  (forall (item : Item) (now : Z) (c : Client),
     pendingMutations (put item now c) = pendingMutations c) /\
  get "2" (put offline_doc 1769904000000 (clear emptyClient)) =
    Some (mkItem "2" (fields offline_doc)
            (Some (mkMeta 1769904000000 1769904000000 1 false))) /\
  length (map_to_list
            (pendingMutations
               (put offline_doc 1769904000000 (clear emptyClient)))) = 0%nat.
Proof. split; [|split]; reflexivity. Qed.




End Writes.

(** ** Applying remote changes *)

Section ApplyClaims.

Import Offline.

(** C4, the claim as stated fails: in scenario S2 the first application of
    the incoming change (version 4) brings the local record to version 4;
    applying the same change again is not short-circuited although the local
    version now equals the incoming one: the record is rewritten at version 5
    with a new [updatedAt]. *)
Lemma C4_counterexample :
  version_at "d2"
    (applyRemoteChange last_write_wins silent_ui 5000 5000 s2_change s2_client).2
  = 4 /\
  get "d2"
    (applyRemoteChange last_write_wins silent_ui 6000 6000 s2_change
       (applyRemoteChange last_write_wins silent_ui 5000 5000 s2_change
          s2_client).2).2
  = Some (mkItem "d2" {[ "title" := JStr "R" ]} (Some (mkMeta 900 6000 5 false))) /\
  get "d2"
    (applyRemoteChange last_write_wins silent_ui 5000 5000 s2_change s2_client).2
  = Some (mkItem "d2" {[ "title" := JStr "R" ]} (Some (mkMeta 900 5000 4 false))).
Proof. repeat split; reflexivity. Qed.

(** C4 as amended: applying the same remote change a second time is not a
    no-op. With a strategy other than [manual] and a change that carries its
    [_meta], each application completes and writes the record of the change
    through [put]: the second application raises the stored version by one
    again and sets [updatedAt] to the time of that application, whatever the
    local and incoming versions are. *)
Theorem C4_reapplication_writes_again
    (strategy : ConflictResolutionStrategy) (ui : Item -> Item -> option Item)
    (r1 p1 r2 p2 : Z) (change : Item) (cm : Meta) (c : Client) :
  strategy <> manual -> _meta change = Some cm ->
  let once := (applyRemoteChange strategy ui r1 p1 change c).2 in
  let again := applyRemoteChange strategy ui r2 p2 change once in
  again.1 = Ok tt /\
  version_at (id change) once = version_at (id change) c + 1 /\
  exists s,
    documents again.2 !! id change = Some s /\
    version (s_meta s) = version_at (id change) once + 1 /\
    updatedAt (s_meta s) = p2.
Proof.
  intros Hs Hm once again.
  destruct (apply_stored strategy ui r2 p2 change cm once Hs Hm)
    as (Hok & s & Hdoc & Hv & Hu & _).
  split; [exact Hok|]. split.
  - by apply apply_version_at with (cm := cm).
  - exists s. by repeat split.
Qed.

Lemma C4_witness :
  (applyRemoteChange last_write_wins silent_ui 6000 6000 s2_change
     (applyRemoteChange last_write_wins silent_ui 5000 5000 s2_change
        s2_client).2).1 = Ok tt /\
  version_at "d2"
    (applyRemoteChange last_write_wins silent_ui 5000 5000 s2_change s2_client).2
  = version_at "d2" s2_client + 1 /\
  exists s,
    documents
      (applyRemoteChange last_write_wins silent_ui 6000 6000 s2_change
         (applyRemoteChange last_write_wins silent_ui 5000 5000 s2_change
            s2_client).2).2 !! "d2" = Some s /\
    version (s_meta s) =
      version_at "d2"
        (applyRemoteChange last_write_wins silent_ui 5000 5000 s2_change
           s2_client).2 + 1 /\
    updatedAt (s_meta s) = 6000.
Proof.
  apply (C4_reapplication_writes_again last_write_wins silent_ui
           5000 5000 6000 6000 s2_change (mkMeta 900 2000 4 false) s2_client);
    [discriminate|reflexivity].
Defined.

(** C5, the claim as stated fails on its own scenario S2: the local version
    3 is the parent of the incoming version 4, so no conflict is declared
    and the resolver is not called; the incoming record is written with
    title "R" at version 4, not at [max 3 4 + 1 = 5], and the pending local
    mutation stays in the log. *)
Lemma C5_counterexample :
  (applyRemoteChange last_write_wins silent_ui 5000 5000 s2_change s2_client).1
  = Ok tt /\
  get "d2"
    (applyRemoteChange last_write_wins silent_ui 5000 5000 s2_change s2_client).2
  = Some (mkItem "d2" {[ "title" := JStr "R" ]} (Some (mkMeta 900 5000 4 false))) /\
  Z.max 3 4 + 1 = 5 /\
  resolverCalls
    (applyRemoteChange last_write_wins silent_ui 5000 5000 s2_change s2_client).2
  = [] /\
  pendingMutations
    (applyRemoteChange last_write_wins silent_ui 5000 5000 s2_change s2_client).2
    !! "m1" = Some s2_mutation.
Proof. repeat split; reflexivity. Qed.

(** C5 as amended: when [applyRemoteChange] declares a conflict (the local
    record exists and its version is not the incoming version minus one) and
    the resolver answers, the resolver's single output is written through
    [put], which stamps it: [updatedAt] is now, [deleted] is false and the
    version is the stored version of that record plus one, that is the local
    version plus one for every strategy other than [manual], not
    [max local incoming + 1]; the mutation log is left as it was. In
    scenario S2 no conflict is declared: the incoming record is written with
    title "R" at version 4, the resolver is not called and the pending
    mutation remains. *)
Theorem C5_conflict_output_stamped_by_put :
  (forall strategy ui nowResolve nowPut (change : Item) (cm : Meta)
          (c : Client) (s : Stored) (resolved : Item),
     documents c !! id change = Some s -> _meta change = Some cm ->
     version (s_meta s) <> version cm - 1 ->
     resolve strategy ui nowResolve (item_of (id change) s) change = Ok resolved ->
     let r := applyRemoteChange strategy ui nowResolve nowPut change c in
     r.1 = Ok tt /\
     resolverCalls r.2 = resolverCalls c ++ [(item_of (id change) s, change)] /\
     (exists created,
        get (id resolved) r.2 =
          Some (mkItem (id resolved) (fields resolved)
                  (Some (mkMeta created nowPut
                           (version_at (id resolved) c + 1) false)))) /\
     (strategy <> manual ->
      id resolved = id change /\
      version_at (id change) r.2 = version (s_meta s) + 1) /\
     pendingMutations r.2 = pendingMutations c) /\
  (get "d2"
     (applyRemoteChange last_write_wins silent_ui 5000 5000 s2_change s2_client).2
   = Some (mkItem "d2" {[ "title" := JStr "R" ]}
             (Some (mkMeta 900 5000 4 false))) /\
   resolverCalls
     (applyRemoteChange last_write_wins silent_ui 5000 5000 s2_change s2_client).2
   = [] /\
   pendingMutations
     (applyRemoteChange last_write_wins silent_ui 5000 5000 s2_change s2_client).2
   = pendingMutations s2_client).
Proof.
  split; [|repeat split; reflexivity].
  intros strategy ui nowResolve nowPut change cm c s resolved Hs Hm Hv Hr r.
  subst r. rewrite (apply_conflict _ _ _ _ _ _ _ _ Hs Hm Hv), Hr. simpl.
  split; [done|]. split; [done|]. split; [|split; [|done]].
  - destruct (get_put resolved nowPut (conflict_reported change s c))
      as [created ->]. by exists created.
  - intros Hstrat.
    destruct (resolve_automatic strategy ui nowResolve
                (item_of (id change) s) change (s_meta s) cm Hstrat)
      as (resolved' & Hr' & Hid); try done.
    rewrite Hr in Hr'. injection Hr' as <-. split; [done|].
    rewrite <- Hid, put_version_at, Hid. unfold version_at. simpl.
    by rewrite Hs.
Qed.

(** The amended C5 on a conflict: local version 3, incoming version 7,
    [last-write-wins] elects the incoming side, stored at version 4. *)
Lemma C5_witness :
  (applyRemoteChange last_write_wins silent_ui 5000 5000 far_change s2_client).1
  = Ok tt /\
  version_at "d2"
    (applyRemoteChange last_write_wins silent_ui 5000 5000 far_change s2_client).2
  = 3 + 1.
Proof.
  pose proof (proj1 C5_conflict_output_stamped_by_put
                last_write_wins silent_ui 5000 5000 far_change
                (mkMeta 900 2000 7 false) s2_client
                (mkStored {[ "title" := JStr "L" ]} (mkMeta 900 1000 3 false))
                far_change) as H.
  simpl in H.
  destruct H as (Hok & _ & _ & Hv & _);
    [reflexivity|reflexivity|discriminate|reflexivity|].
  split; [exact Hok|]. apply Hv. discriminate.
Defined.

End ApplyClaims.

(** ** The push loops *)

Section Push.

Import Offline.

(** A loop over the entries of the log that, for each entry, either removes
    it or puts a new value back under the same key, leaves for every key
    what its own entry decided. *)
Lemma fold_pending (step : Client -> string * Mutation -> Client)
    (f : string -> Mutation -> option Mutation) :
  (forall c k m,
     pendingMutations (step c (k, m)) =
       match f k m with
       | Some m' => <[k := m']> (pendingMutations c)
       | None => base.delete k (pendingMutations c)
       end) ->
  forall (l : list (string * Mutation)) (c : Client),
    NoDup l.*1 ->
    forall k,
      pendingMutations (foldl step c l) !! k =
        match (list_to_map l : gmap string Mutation) !! k with
        | Some m => f k m
        | None => pendingMutations c !! k
        end.
Proof.
  intros Hstep l. induction l as [|[k' m'] l IH]; intros c Hnd k; [done|].
  simpl in *. apply NoDup_cons in Hnd as [Hk' Hnd].
  rewrite (IH _ Hnd). destruct (decide (k = k')) as [->|Hne].
  - rewrite lookup_insert_eq.
    rewrite (not_elem_of_list_to_map_1 l k' Hk'), Hstep.
    destruct (f k' m'); [apply lookup_insert_eq|apply lookup_delete_eq].
  - rewrite lookup_insert_ne by done.
    destruct (list_to_map l !! k); [done|]. rewrite Hstep.
    destruct (f k' m'); [by rewrite lookup_insert_ne|by rewrite lookup_delete_ne].
Qed.

Lemma pushLocalChanges_pending (fetch : string -> Mutation -> FetchOutcome)
    (c : Client) (mid : string) :
  pendingMutations (pushLocalChanges fetch c) !! mid =
    pendingMutations c !! mid ≫= pushed fetch mid.
Proof.
  unfold pushLocalChanges.
  rewrite (fold_pending (pushLocalChanges_step fetch) (pushed fetch)).
  - rewrite list_to_map_to_list. by destruct (pendingMutations c !! mid).
  - intros c' k m. unfold pushLocalChanges_step, pushed.
    by destruct (fetch k m) as [[|] ?|?].
  - apply NoDup_fst_map_to_list.
Qed.

Lemma syncPendingMutations_throws (request_error : option Exn)
    (fetch : string -> Mutation -> FetchOutcome) (c : Client) :
  syncPendingMutations request_error fetch c =
    (Throw (match request_error with
            | Some e => e
            | None => TypeError "db.getAll is not a function"
            end), c).
Proof. by destruct request_error. Qed.

(** C7: a pending mutation leaves the log only when the server has
    acknowledged it. In a round of [pushLocalChanges] the mutation is gone
    afterwards exactly when the server answered its push with an [ok]
    response; answered with another status it is still in the log with
    [retryCount] incremented and [Push failed: ] and the status text as its
    error, and when the request fails it is still in the log with
    [retryCount] incremented and the message of the failure as its error;
    its type, collection, data and timestamp are kept. The service
    worker's [syncPendingMutations] removes nothing: it stops on the first
    call on the database handle, before any request is made, and leaves
    the client as it was. *)
Theorem C7_mutation_leaves_only_when_acknowledged
    (fetch : string -> Mutation -> FetchOutcome) (c : Client)
    (mid : string) (m : Mutation) :
  pendingMutations c !! mid = Some m ->
  (pendingMutations (pushLocalChanges fetch c) !! mid = None <->
   exists statusText, fetch mid m = Response true statusText) /\
  (forall statusText,
     fetch mid m = Response false statusText ->
     pendingMutations (pushLocalChanges fetch c) !! mid =
       Some (mkMutation (type m) (collection m) (data m) (timestamp m)
               (retryCount m + 1) (Some ("Push failed: " +:+ statusText)))) /\
  (forall message,
     fetch mid m = NetworkError message ->
     pendingMutations (pushLocalChanges fetch c) !! mid =
       Some (mkMutation (type m) (collection m) (data m) (timestamp m)
               (retryCount m + 1) (Some message))) /\
  (forall request_error,
     exists e,
       syncPendingMutations request_error fetch c = (Throw e, c) /\
       (request_error = None -> exists text, e = TypeError text)).
Proof.
  intros Hm. rewrite pushLocalChanges_pending, Hm. simpl. unfold pushed.
  split; [|split; [|split]].
  - destruct (fetch mid m) as [[|] statusText|message].
    + split; [eauto|done].
    + split; [done|]. by intros [? ?].
    + split; [done|]. by intros [? ?].
  - by intros statusText ->.
  - by intros message ->.
  - intros request_error. eexists. split; [apply syncPendingMutations_throws|].
    intros ->. eauto.
Qed.

(** C7 on the mutation of scenario S2 and a server that answers every push
    with status 500. *)
Lemma C7_witness :
  pendingMutations (pushLocalChanges failing_server s2_client) !! "m1" =
    Some (mkMutation update "documents"
            (JObj [("id", JStr "d2"); ("title", JStr "L")]) 1000 1
            (Some "Push failed: Internal Server Error")) /\
  exists text,
    syncPendingMutations None failing_server s2_client =
      (Throw (TypeError text), s2_client).
Proof.
  pose proof (C7_mutation_leaves_only_when_acknowledged failing_server
                s2_client "m1" s2_mutation eq_refl) as (_ & H2 & _ & H4).
  split; [exact (H2 "Internal Server Error" eq_refl)|].
  destruct (H4 None) as (e & He & Ht). destruct (Ht eq_refl) as [text ->].
  exists text. exact He.
Defined.

End Push.

(** ** The connectivity monitor *)

Section Connectivity.

Import Network.

Lemma setOnline_online (b : bool) (nm : NetworkMonitor) :
  online (setOnline b nm) = b.
Proof. unfold setOnline. by destruct (online nm) eqn:H, b; simpl. Qed.

Lemma step_online (nm : NetworkMonitor) (s : Stimulus) :
  online (step nm s) =
    match s with
    | window_online => true
    | window_offline => false
    | ping_tick r => ping r
    end.
Proof.
  destruct s as [| |r]; simpl; try apply setOnline_online.
  destruct (ping r) eqn:Hp, (online nm) eqn:Ho; simpl;
    rewrite ?setOnline_online; done.
Qed.

Lemma step_emitted (nm : NetworkMonitor) (s : Stimulus) :
  emitted (step nm s) =
    emitted nm ++
      (if eqb (online (step nm s)) (online nm) then []
       else [if online (step nm s) then emit_online else emit_offline]).
Proof.
  rewrite step_online.
  destruct s as [| |r]; simpl; unfold setOnline;
    try destruct (ping r); destruct (online nm) eqn:Ho; simpl;
    rewrite ?Ho; simpl; by rewrite ?app_nil_r.
Qed.

Lemma run_snoc (nm : NetworkMonitor) (ss : list Stimulus) (s : Stimulus) :
  run nm (ss ++ [s]) = step (run nm ss) s.
Proof. unfold run. by rewrite foldl_app. Qed.

Lemma run_online (init : bool) (ss : list Stimulus) :
  isOnline (run (new init) ss) = latestSignal init ss.
Proof.
  induction ss as [|s ss IH] using rev_ind; [done|].
  rewrite run_snoc. unfold isOnline, latestSignal in *.
  rewrite step_online, foldl_app. by destruct s.
Qed.

(** C9, the claim as stated fails: the browser advertises reachability and
    one probe is answered with status 503; the monitor reports offline,
    where the logical OR of the two signals is true. *)
Lemma C9_counterexample :
  isOnline (run (new true) [ping_tick (Offline.Response false "Service Unavailable")])
  = false /\
  advertised true [ping_tick (Offline.Response false "Service Unavailable")]
  || lastProbe [ping_tick (Offline.Response false "Service Unavailable")]
  = true.
Proof. split; reflexivity. Qed.

(** C9 as amended: the effective-online boolean is the most recent signal.
    It starts as [navigator.onLine]; a window [online] or [offline] event
    sets it to true or false and a probe sets it to the probe's result, so a
    failed probe leaves it false even while the host advertises
    reachability, and a successful probe leaves it true even after an
    [offline] event. A transition is emitted exactly when the boolean
    changes. *)
Theorem C9_latest_signal_wins :
  (forall (init : bool) (ss : list Stimulus),
     isOnline (run (new init) ss) = latestSignal init ss) /\
  (forall (init : bool) (ss : list Stimulus) (r : Offline.FetchOutcome),
     isOnline (run (new init) (ss ++ [ping_tick r])) = ping r) /\
  (forall (nm : NetworkMonitor) (s : Stimulus),
     emitted (step nm s) =
       emitted nm ++
         (if eqb (online (step nm s)) (online nm) then []
          else [if online (step nm s) then emit_online else emit_offline])).
Proof.
  split; [apply run_online|]. split; [|apply step_emitted].
  intros init ss r. rewrite run_snoc. apply (step_online _ (ping_tick r)).
Qed.

End Connectivity.

(** ** Concurrency of vector clocks and the conflict rule *)

Section Concurrency.

Import Reconciliation.






End Concurrency.

Section ConflictRule.

Import Offline.

Variable strategy : ConflictResolutionStrategy.
Variable ui : Item -> Item -> option Item.
Variables nowResolve nowPut : Z.


Lemma get_Some (key : string) (c : Client) (local : Item) :
  get key c = Some local <->
  exists s, documents c !! key = Some s /\ local = item_of key s.
Proof.
  unfold get. destruct (documents c !! key) as [s|]; simpl.
  - split; [intros [= <-]; eauto|]. by intros (s' & [= <-] & ->).
  - split; [done|]. by intros (s' & ? & _).
Qed.

Lemma get_None (key : string) (c : Client) :
  get key c = None <-> documents c !! key = None.
Proof. unfold get. by destruct (documents c !! key). Qed.


End ConflictRule.

(** ** The realtime channel *)

Section Channel.

Import Realtime.

Lemma validateMessage_identity (socket : Socket) (uuid : string) (now : Z)
    (data : JsVal) (message : WebSocketMessage) :
  validateMessage socket uuid now data = inr message ->
  messageId message = uuid /\
  tenantId message = socket_tenantId socket /\
  senderId message = socket_userId socket.
Proof.
  unfold validateMessage. destruct (prop data "type") as [e|ty]; [done|].
  destruct (_ || _); [done|]. destruct (_ && _); [done|].
  by intros [= <-].
Qed.

(** A payload whose [tenantId] is truthy and is not the tenant of the
    socket is never accepted. *)
Lemma validateMessage_refuses (socket : Socket) (uuid : string) (now : Z)
    (data : JsVal) :
  truthy (assoc_of data "tenantId") = true ->
  strict_eq_str (assoc_of data "tenantId") (socket_tenantId socket) = false ->
  exists error, validateMessage socket uuid now data = inl error.
Proof.
  intros Ht Hne. unfold validateMessage.
  destruct (prop data "type") as [e|ty]; [eauto|].
  destruct (_ || _); [eauto|]. rewrite Ht, Hne. simpl. eauto.
Qed.

Lemma validateMessage_tenant_violation (socket : Socket) (uuid : string)
    (now : Z) (props : list (string * JsVal)) :
  truthy (assoc "type" props) = true -> truthy (assoc "payload" props) = true ->
  truthy (assoc "tenantId" props) = true ->
  strict_eq_str (assoc "tenantId" props) (socket_tenantId socket) = false ->
  validateMessage socket uuid now (JObj props) =
    inl (TenantIsolationViolation "Cannot send message for different tenant").
Proof.
  intros Hty Hp Ht Hne. unfold validateMessage. simpl.
  by rewrite Hty, Hp, Ht, Hne.
Qed.

(** The run of [handleMessage], branch by branch. *)
Lemma handleMessage_run (socket : Socket) (uuid : string) (now : Z)
    (data : JsVal) (s : Service) :
  handleMessage socket uuid now data s =
    (Ok tt,
     let s0 := counted socket s in
     if messageRateLimit s <?
          default 0 (rate_limits s !! ("rate_limit:" +:+ socket_id socket)) + 1
     then refused socket (RateLimitExceeded "Message rate limit exceeded") s0
     else
       match validateMessage socket uuid now data with
       | inl error => refused socket error s0
       | inr message =>
           if truthy (recipientId message) then
             if negb (strict_eq_str (recipientId message) (tenantId message)) &&
                negb (String.eqb (getUserTenant (recipientId message))
                                 (tenantId message))
             then refused socket
                    (TenantIsolationViolation
                       "Cross-tenant messaging not allowed") s0
             else routed socket
                    ("user:" +:+ tenantId message +:+ ":" +:+
                     toString (recipientId message)) message s0
           else if truthy (roomId message) then
             routed socket
               ("room:" +:+ tenantId message +:+ ":" +:+
                toString (roomId message)) message s0
           else refused socket
                  (Error "Message must specify recipientId or roomId") s0
       end).
Proof.
  unfold handleMessage, try_catch, checkRateLimit, sendDirectMessage,
    broadcastToRoom, mbind, mret, M_bind, M_ret, bind, gets, modify,
    of_sum, counted.
  cbv beta iota zeta.
  change (messageRateLimit (set_rate_limits _ s)) with (messageRateLimit s).
  destruct (messageRateLimit s <? _) eqn:Hlimit;
    cbv beta iota zeta delta [throw ret]; [done|].
  destruct (validateMessage socket uuid now data) as [error|message];
    cbv beta iota zeta; [done|].
  destruct (truthy (recipientId message)); cbv beta iota zeta.
  - destruct (strict_eq_str (recipientId message) (tenantId message));
      cbn [negb andb]; cbv beta iota zeta; [done|].
    destruct (String.eqb (getUserTenant (recipientId message))
                         (tenantId message)); cbn [negb]; done.
  - destruct (truthy (roomId message)); done.
Qed.

Lemma refused_same_stores (socket : Socket) (error : Exn) (s : Service) :
  same_stores s (refused socket error (counted socket s)).
Proof. by repeat split. Qed.

End Channel.

Section Routing.

Import Realtime.

Lemma published_refused (socket : Socket) (error : Exn) (s : Service) :
  published (refused socket error (counted socket s)) = published s.
Proof. reflexivity. Qed.

Lemma published_routed (socket : Socket) (channel : string)
    (message : WebSocketMessage) (s : Service) :
  published (routed socket channel message (counted socket s)) =
    published s ++ [(channel, message)].
Proof. reflexivity. Qed.

(** [handleMessage] publishes nothing, or one message, and that message is
    the one [validateMessage] built. *)
Lemma handleMessage_published (socket : Socket) (uuid : string) (now : Z)
    (data : JsVal) (s : Service) :
  published (handleMessage socket uuid now data s).2 = published s \/
  exists message,
    validateMessage socket uuid now data = inr message /\
    (published (handleMessage socket uuid now data s).2 =
       published s ++ [("user:" +:+ tenantId message +:+ ":" +:+
                        toString (recipientId message), message)] \/
     published (handleMessage socket uuid now data s).2 =
       published s ++ [("room:" +:+ tenantId message +:+ ":" +:+
                        toString (roomId message), message)]).
Proof.
  rewrite handleMessage_run. cbn [snd]. cbv zeta.
  destruct (messageRateLimit s <? _); [by left|].
  destruct (validateMessage socket uuid now data) as [error|message];
    [by left|].
  destruct (truthy (recipientId message)).
  - destruct (_ && _); [by left|]. right. exists message. split; [done|].
    left. apply published_routed.
  - destruct (truthy (roomId message)); [|by left].
    right. exists message. split; [done|]. right. apply published_routed.
Qed.

Lemma prefix_room (rest : string) : String.prefix "room:" ("room:" +:+ rest) = true.
Proof. simpl. by destruct rest. Qed.

Lemma emitted_foldl_emit (ev : ServerEvent) (sids : list string) (s : Service) :
  emitted (foldl (fun s sid => emit sid ev s) s sids) =
    emitted s ++ ((fun sid => (sid, ev)) <$> sids).
Proof.
  revert s. induction sids as [|sid sids IH]; intros s; simpl.
  - by rewrite app_nil_r.
  - rewrite IH. simpl. by rewrite <- app_assoc.
Qed.

(** C8 (what the code does with a Class D message): [validateMessage] does
    not look at the interaction class. A payload marked [CLASS_D] and
    addressed to a room is accepted as long as the rate limit allows it: the
    message is published on the room's channel with its class kept,
    acknowledged to the sender, nothing is logged, and the subscription then
    emits it to every socket of the room. *)
Theorem C8_class_d_message_is_routed
    (socket : Socket) (uuid : string) (now : Z) (s : Service) :
  default 0 (rate_limits s !! ("rate_limit:" +:+ socket_id socket)) + 1
    <= messageRateLimit s ->
  let channel := "room:" +:+ socket_tenantId socket +:+ ":r1" in
  let message := class_d_message socket uuid now in
  let r := handleMessage socket uuid now class_d_payload s in
  interactionClass message = class_value CLASS_D /\
  r.1 = Ok tt /\
  published r.2 = published s ++ [(channel, message)] /\
  emitted r.2 = emitted s ++ [(socket_id socket, ev_message_ack uuid)] /\
  logged r.2 = logged s /\
  emitted (onRedisMessage channel message r.2) =
    emitted r.2 ++
      ((fun sid => (sid, ev_message message)) <$>
       elements (default ∅ (rooms s !! (socket_tenantId socket +:+ ":r1")))).
Proof.
  intros Hlimit channel message r. subst r.
  rewrite handleMessage_run.
  apply Z.ltb_ge in Hlimit. rewrite Hlimit.
  change (validateMessage socket uuid now class_d_payload) with
    (@inr Exn _ message).
  cbn [fst snd]. cbv zeta.
  change (truthy (recipientId message)) with false.
  change (truthy (roomId message)) with true. cbv iota.
  change ("room:" +:+ tenantId message +:+ ":" +:+ toString (roomId message))
    with channel.
  repeat split.
  unfold onRedisMessage.
  change (String.prefix "user:" channel) with false. cbv iota.
  subst channel. rewrite prefix_room.
  unfold deliverRoomMessage. rewrite emitted_foldl_emit.
  reflexivity.
Qed.

(** The failing input of C8: a socket of tenant [t1] sends the payment to
    room [r1], which socket [sock-2] has joined. *)
Lemma C8_witness :
  interactionClass (class_d_message alice "m-1" 7000) = class_value CLASS_D /\
  (handleMessage alice "m-1" 7000 class_d_payload room_service).1 = Ok tt /\
  published (handleMessage alice "m-1" 7000 class_d_payload room_service).2 =
    published room_service ++ [("room:t1:r1", class_d_message alice "m-1" 7000)] /\
  emitted (handleMessage alice "m-1" 7000 class_d_payload room_service).2 =
    emitted room_service ++ [("sock-1", ev_message_ack "m-1")] /\
  logged (handleMessage alice "m-1" 7000 class_d_payload room_service).2 =
    logged room_service /\
  emitted (onRedisMessage "room:t1:r1" (class_d_message alice "m-1" 7000)
             (handleMessage alice "m-1" 7000 class_d_payload room_service).2) =
    emitted (handleMessage alice "m-1" 7000 class_d_payload room_service).2 ++
      ((fun sid => (sid, ev_message (class_d_message alice "m-1" 7000))) <$>
       elements (default ∅ (rooms room_service !! "t1:r1"))).
Proof.
  apply (C8_class_d_message_is_routed alice "m-1" 7000 room_service).
  vm_compute. discriminate.
Defined.

End Routing.

Section Identity.

Import Realtime.

Lemma identity_keys_other (key : string) :
  key <> "tenantId" -> key <> "senderId" -> key <> "messageId" ->
  key ∉ identity_keys.
Proof.
  intros H1 H2 H3 Hin. unfold identity_keys in Hin.
  repeat (apply elem_of_cons in Hin as [Hin|Hin]; [done|]).
  by apply elem_of_nil in Hin.
Qed.

(** Two payloads that differ at most in their [tenantId], [senderId] and
    [messageId] properties give the same message when both are accepted. *)
Lemma validateMessage_noninterference (socket : Socket) (uuid : string)
    (now : Z) (props props' : list (string * JsVal))
    (message message' : WebSocketMessage) :
  (forall key, key ∉ identity_keys -> assoc key props = assoc key props') ->
  validateMessage socket uuid now (JObj props) = inr message ->
  validateMessage socket uuid now (JObj props') = inr message' ->
  message = message'.
Proof.
  intros Hsame. unfold validateMessage. simpl.
  rewrite <- (Hsame "type"), <- (Hsame "payload"),
    <- (Hsame "interactionClass"), <- (Hsame "recipientId"),
    <- (Hsame "roomId"), <- (Hsame "metadata")
    by (by apply identity_keys_other).
  destruct (_ || _); [done|].
  destruct (truthy (assoc "tenantId" props) && _); [done|].
  destruct (truthy (assoc "tenantId" props') && _); [done|].
  by intros [= <-] [= <-].
Qed.

Lemma handleMessage_published_identity (socket : Socket) (uuid : string)
    (now : Z) (data : JsVal) (s : Service) (channel : string)
    (message : WebSocketMessage) :
  (channel, message) ∈ published (handleMessage socket uuid now data s).2 ->
  (channel, message) ∈ published s \/
  (messageId message = uuid /\
   tenantId message = socket_tenantId socket /\
   senderId message = socket_userId socket).
Proof.
  intros Hin.
  destruct (handleMessage_published socket uuid now data s)
    as [H|(message' & Hv & [H|H])]; rewrite H in Hin; [by left|..];
    (apply elem_of_app in Hin as [Hin|Hin]; [by left|]);
    apply list_elem_of_singleton in Hin as [= -> ->];
    right; by apply validateMessage_identity with (now := now) (data := data).
Qed.

End Identity.

(** ** Tenants on the realtime channel *)

Section Tenants.

Import Realtime.

(** Keys built as [tenant:rest] from tenant ids without [:] belong to one
    tenant only. *)
Lemma namespace_inj (t t' rest rest' : string) :
  no_colon t = true -> no_colon t' = true ->
  t +:+ ":" +:+ rest = t' +:+ ":" +:+ rest' -> t = t'.
Proof.
  revert t'. induction t as [|c t IH]; intros [|c' t']; simpl; try done.
  - intros _ Hc [= <- _]. by rewrite Ascii.eqb_refl in Hc.
  - intros Hc _ [= -> _]. by rewrite Ascii.eqb_refl in Hc.
  - intros [_ Ht]%andb_true_iff [_ Ht']%andb_true_iff [= -> Heq].
    f_equal. by apply IH.
Qed.

Lemma handleJoinRoom_run (socket : Socket) (data : JsVal) (s : Service) :
  handleJoinRoom socket data s =
    (Ok tt,
     match prop data "roomId" with
     | inl error => failed socket "Error joining room" error s
     | inr roomId0 => joined socket roomId0 s
     end).
Proof.
  unfold handleJoinRoom, try_catch, validateRoomAccess, mbind, mret, M_bind,
    M_ret, bind, ret, modify, of_sum, throw.
  cbv beta iota zeta. by destruct (prop data "roomId").
Qed.

Lemma handleLeaveRoom_run (socket : Socket) (data : JsVal) (s : Service) :
  handleLeaveRoom socket data s =
    (Ok tt,
     match prop data "roomId" with
     | inl error => failed socket "Error leaving room" error s
     | inr roomId0 => left_room socket roomId0 s
     end).
Proof.
  unfold handleLeaveRoom, try_catch, mbind, mret, M_bind, M_ret, bind, ret,
    modify, of_sum, throw.
  cbv beta iota zeta. by destruct (prop data "roomId").
Qed.

Lemma handlePresenceUpdate_run (socket : Socket) (now : Z) (data : JsVal)
    (s : Service) :
  handlePresenceUpdate socket now data s =
    (Ok tt,
     match prop data "status" with
     | inl error => logger (log_error "Error updating presence" error) s
     | inr status0 =>
         logger (log_debug "Presence updated"
                   [socket_tenantId socket; socket_userId socket;
                    toString status0])
           (updatePresence (socket_tenantId socket) (socket_userId socket)
              status0 now (assoc_of data "metadata") s)
     end).
Proof.
  unfold handlePresenceUpdate, try_catch, mbind, mret, M_bind, M_ret, bind,
    ret, modify, of_sum, throw.
  cbv beta iota zeta. by destruct (prop data "status").
Qed.

Lemma socket_join_ne (sid roomKey key : string) (s : Service) :
  key <> roomKey -> rooms (socket_join sid roomKey s) !! key = rooms s !! key.
Proof. intros Hne. unfold socket_join. simpl. by rewrite lookup_insert_ne. Qed.

Lemma socket_leave_ne (sid roomKey key : string) (s : Service) :
  key <> roomKey -> rooms (socket_leave sid roomKey s) !! key = rooms s !! key.
Proof.
  intros Hne. unfold socket_leave. simpl.
  destruct (rooms s !! roomKey); [|done].
  case_decide; [by rewrite lookup_delete_ne|by rewrite lookup_insert_ne].
Qed.

Lemma storeRoomMembership_ne (t u : string) (r : JsVal) (key : string)
    (s : Service) :
  key <> "room_members:" +:+ t +:+ ":" +:+ toString r ->
  room_members (storeRoomMembership t u r s) !! key = room_members s !! key.
Proof.
  intros Hne. unfold storeRoomMembership. simpl. by rewrite lookup_insert_ne.
Qed.

Lemma removeRoomMembership_ne (t u : string) (r : JsVal) (key : string)
    (s : Service) :
  key <> "room_members:" +:+ t +:+ ":" +:+ toString r ->
  room_members (removeRoomMembership t u r s) !! key = room_members s !! key.
Proof.
  intros Hne. unfold removeRoomMembership. simpl.
  destruct (room_members s !! _); [|done].
  case_decide; [by rewrite lookup_delete_ne|by rewrite lookup_insert_ne].
Qed.

End Tenants.

Section Delivery.

Import Realtime.

Variable message : WebSocketMessage.

Lemma emit_if_connected_emitted (conns : list ConnectionMetadata) (s : Service)
    (sid : string) (ev : ServerEvent) :
  (sid, ev) ∈ emitted (foldl (emit_if_connected message) s conns) ->
  (sid, ev) ∈ emitted s \/
  exists conn, In conn conns /\ conn_connectionId conn = sid.
Proof.
  revert s. induction conns as [|conn conns IH]; intros s Hin; [by left|].
  simpl in Hin. apply IH in Hin as [Hin|(conn' & Hc & Hid)].
  - unfold emit_if_connected in Hin. case_decide; [|by left].
    simpl in Hin. apply elem_of_app in Hin as [Hin|Hin]; [by left|].
    apply list_elem_of_singleton in Hin as [= -> ->].
    right. exists conn. split; [by left|done].
  - right. exists conn'. split; [by right|done].
Qed.

Lemma emit_if_connected_queues (conns : list ConnectionMetadata) (s : Service) :
  message_queues (foldl (emit_if_connected message) s conns) = message_queues s.
Proof.
  revert s. induction conns as [|conn conns IH]; intros s; [done|].
  simpl. rewrite IH. unfold emit_if_connected. by case_decide.
Qed.

(** A direct message reaches only connections of the user and tenant it
    names. *)
Lemma deliverDirectMessage_emitted (s : Service) (sid : string)
    (ev : ServerEvent) :
  (sid, ev) ∈ emitted (deliverDirectMessage message s) ->
  (sid, ev) ∈ emitted s \/
  exists conn,
    conn ∈ connections s /\ conn_connectionId conn = sid /\
    conn_tenantId conn = tenantId message /\
    recipientId message = JStr (conn_userId conn).
Proof.
  unfold deliverDirectMessage. intros Hin.
  assert (Hin' : (sid, ev) ∈ emitted
            (foldl (emit_if_connected message) s
               (List.filter
                  (fun conn =>
                     strict_eq_str (recipientId message) (conn_userId conn) &&
                     String.eqb (conn_tenantId conn) (tenantId message))
                  (connections s)))).
  { by destruct (length _ =? 0)%nat. }
  apply emit_if_connected_emitted in Hin' as [?|(conn & Hc & Hid)]; [by left|].
  right. exists conn. apply filter_In in Hc as [Hc Hp].
  apply andb_true_iff in Hp as [Hu Ht].
  split; [by apply list_elem_of_In|]. split; [done|].
  split; [by apply String.eqb_eq|].
  unfold strict_eq_str in Hu. destruct (recipientId message); try done.
  by apply String.eqb_eq in Hu as ->.
Qed.

Lemma deliverDirectMessage_queues (s : Service) (key : string) :
  key <> "message_queue:" +:+ tenantId message +:+ ":" +:+
         toString (recipientId message) ->
  message_queues (deliverDirectMessage message s) !! key =
    message_queues s !! key.
Proof.
  intros Hne. unfold deliverDirectMessage.
  destruct (length _ =? 0)%nat.
  - unfold queueMessageForLater. simpl.
    by rewrite lookup_insert_ne, emit_if_connected_queues.
  - by rewrite emit_if_connected_queues.
Qed.

(** A room message reaches only the sockets that joined the room of the
    tenant it names. *)
Lemma deliverRoomMessage_emitted (s : Service) (sid : string) (ev : ServerEvent) :
  (sid, ev) ∈ emitted (deliverRoomMessage message s) ->
  (sid, ev) ∈ emitted s \/
  exists members,
    rooms s !! (tenantId message +:+ ":" +:+ toString (roomId message))
      = Some members /\ sid ∈ members.
Proof.
  unfold deliverRoomMessage. rewrite emitted_foldl_emit.
  intros [Hin|Hin]%elem_of_app; [by left|]. right.
  apply list_elem_of_fmap in Hin as (sid' & [= -> _] & Hin).
  destruct (rooms s !! _) as [members|]; simpl in Hin.
  - exists members. split; [done|]. by apply elem_of_elements.
  - by apply elem_of_elements in Hin.
Qed.

End Delivery.

Section TenantClaim.

Import Realtime RealtimeRuns.

Lemma other_room_key (t other room : string) (r : JsVal) :
  no_colon t = true -> no_colon other = true -> other <> t ->
  other +:+ ":" +:+ room <> t +:+ ":" +:+ toString r.
Proof. intros Ht Ho Hne Heq. by apply namespace_inj in Heq. Qed.

Lemma other_members_key (t other room : string) (r : JsVal) :
  no_colon t = true -> no_colon other = true -> other <> t ->
  "room_members:" +:+ other +:+ ":" +:+ room <>
  "room_members:" +:+ t +:+ ":" +:+ toString r.
Proof.
  intros Ht Ho Hne Heq. simpl in Heq. injection Heq as Heq.
  by apply namespace_inj in Heq.
Qed.

Lemma other_presence_key (t other user u : string) :
  no_colon t = true -> no_colon other = true -> other <> t ->
  "presence:" +:+ other +:+ ":" +:+ user <> "presence:" +:+ t +:+ ":" +:+ u.
Proof.
  intros Ht Ho Hne Heq. simpl in Heq. injection Heq as Heq.
  by apply namespace_inj in Heq.
Qed.

Lemma other_queue_key (t other recipient : string) (r : JsVal) :
  no_colon t = true -> no_colon other = true -> other <> t ->
  "message_queue:" +:+ other +:+ ":" +:+ recipient <>
  "message_queue:" +:+ t +:+ ":" +:+ toString r.
Proof.
  intros Ht Ho Hne Heq. simpl in Heq. injection Heq as Heq.
  by apply namespace_inj in Heq.
Qed.

(** C1, the claim as stated fails in three ways. The repository is keyed
    by [id] alone and no operation takes a tenant: the record [d1] belongs
    to tenant [t2], [getAll] hands it to any caller, and a [put] of an item
    of tenant [t1] with the same id reads its [createdAt] and [version] and
    replaces it. On the realtime channel a declared [tenantId] that is
    falsy is not compared with the tenant of the socket: the message of a
    socket of tenant [t1] that declares the empty string as its tenant is
    published and nothing is logged. And the keys of rooms are built as
    [tenant:room], so tenants whose ids contain [:] share keys: the socket
    of tenant [a] that joined its room [b:x] is sent the message that a
    socket of tenant [a:b] wrote to its room [x]. *)
Lemma C1_counterexample :
  (Offline.getAll Offline.tenant2_client =
     [Offline.mkItem "d1"
        {[ "tenantId" := JStr "t2"; "title" := JStr "secret" ]}
        (Some (Offline.mkMeta 100 200 3 false))] /\
   Offline.fields Offline.tenant1_item !! "tenantId" = Some (JStr "t1") /\
   Offline.get "d1" (Offline.put Offline.tenant1_item 5000 Offline.tenant2_client) =
     Some (Offline.mkItem "d1" {[ "tenantId" := JStr "t1"; "title" := JStr "A" ]}
             (Some (Offline.mkMeta 100 5000 4 false)))) /\
  (assoc_of empty_tenant_payload "tenantId" = JStr "" /\
   socket_tenantId alice = "t1" /\
   published (handleMessage alice "m-1" 7000 empty_tenant_payload
                room_service).2 =
     [("room:t1:r1", room_message alice "r1" "m-1" 7000)] /\
   logged (handleMessage alice "m-1" 7000 empty_tenant_payload
             room_service).2 = []) /\
  (socket_tenantId socket_a = "a" /\
   tenantId (room_message socket_ab "x" "m-1" 7000) = "a:b" /\
   published
     (handleMessage socket_ab "m-1" 7000 (room_payload "x")
        (handleJoinRoom socket_a (join_payload "b:x") idle_service).2).2 =
     [("room:a:b:x", room_message socket_ab "x" "m-1" 7000)] /\
   emitted
     (onRedisMessage "room:a:b:x" (room_message socket_ab "x" "m-1" 7000)
        (handleMessage socket_ab "m-1" 7000 (room_payload "x")
           (handleJoinRoom socket_a (join_payload "b:x") idle_service).2).2) =
     [("sock-a", ev_room_joined (JStr "b:x"));
      ("sock-ab", ev_message_ack "m-1");
      ("sock-a", ev_message (room_message socket_ab "x" "m-1" 7000))]).
Proof.
  split; [repeat split; reflexivity|]. split; [repeat split; reflexivity|].
  repeat split; vm_compute; reflexivity.
Qed.

(** C1 as amended: tenant isolation on the realtime channel, for a socket
    authenticated for tenant [t] and any other tenant (tenant ids without
    [:]). A message whose declared [tenantId] is set and is not [t] is
    refused: nothing is published, presence, rooms, memberships and queues
    stay as they were, and the error is logged and reported on the socket
    (within the rate limit and with type and payload present, the error is
    the tenant isolation violation). Every message that [handleMessage]
    publishes carries tenant [t]. Joining and leaving a room and updating
    presence leave the rooms, memberships and presence entries of the other
    tenant as they were. A direct message of tenant [t] is emitted only to
    connections of tenant [t] and is queued only under [t]; a room message
    is emitted only to sockets joined to a room of tenant [t]. *)
Theorem C1_realtime_tenant_scoping (socket : Socket) (other : string) :
  no_colon (socket_tenantId socket) = true -> no_colon other = true ->
  other <> socket_tenantId socket ->
  (forall uuid now data s,
     truthy (assoc_of data "tenantId") = true ->
     strict_eq_str (assoc_of data "tenantId") (socket_tenantId socket) = false ->
     same_stores s (handleMessage socket uuid now data s).2 /\
     exists error,
       logged (handleMessage socket uuid now data s).2 =
         logged s ++ [log_error "Error handling message" error] /\
       emitted (handleMessage socket uuid now data s).2 =
         emitted s ++ [(socket_id socket, ev_error (message_of error))] /\
       (default 0 (rate_limits s !! ("rate_limit:" +:+ socket_id socket)) + 1
          <= messageRateLimit s ->
        truthy (assoc_of data "type") = true ->
        truthy (assoc_of data "payload") = true ->
        error = TenantIsolationViolation
                  "Cannot send message for different tenant")) /\
  (forall uuid now data s channel message,
     (channel, message) ∈ published (handleMessage socket uuid now data s).2 ->
     (channel, message) ∈ published s \/
     tenantId message = socket_tenantId socket) /\
  (forall data s room,
     rooms (handleJoinRoom socket data s).2 !! (other +:+ ":" +:+ room) =
       rooms s !! (other +:+ ":" +:+ room) /\
     room_members (handleJoinRoom socket data s).2
       !! ("room_members:" +:+ other +:+ ":" +:+ room) =
       room_members s !! ("room_members:" +:+ other +:+ ":" +:+ room) /\
     rooms (handleLeaveRoom socket data s).2 !! (other +:+ ":" +:+ room) =
       rooms s !! (other +:+ ":" +:+ room) /\
     room_members (handleLeaveRoom socket data s).2
       !! ("room_members:" +:+ other +:+ ":" +:+ room) =
       room_members s !! ("room_members:" +:+ other +:+ ":" +:+ room)) /\
  (forall now data s user,
     presence (handlePresenceUpdate socket now data s).2
       !! ("presence:" +:+ other +:+ ":" +:+ user) =
       presence s !! ("presence:" +:+ other +:+ ":" +:+ user)) /\
  (forall message s,
     tenantId message = socket_tenantId socket ->
     (forall sid ev,
        (sid, ev) ∈ emitted (deliverDirectMessage message s) ->
        (sid, ev) ∈ emitted s \/
        exists conn,
          conn ∈ connections s /\ conn_connectionId conn = sid /\
          conn_tenantId conn = socket_tenantId socket) /\
     (forall recipient,
        message_queues (deliverDirectMessage message s)
          !! ("message_queue:" +:+ other +:+ ":" +:+ recipient) =
          message_queues s
          !! ("message_queue:" +:+ other +:+ ":" +:+ recipient)) /\
     (forall sid ev,
        (sid, ev) ∈ emitted (deliverRoomMessage message s) ->
        (sid, ev) ∈ emitted s \/
        exists members,
          rooms s !! (socket_tenantId socket +:+ ":" +:+
                      toString (roomId message)) = Some members /\
          sid ∈ members)).
Proof.
  intros Ht Ho Hne. split; [|split; [|split; [|split]]].
  - intros uuid now data s Htruthy Hdiff.
    destruct (validateMessage_refuses socket uuid now data Htruthy Hdiff)
      as [error Hv].
    rewrite handleMessage_run, Hv. cbn [snd]. cbv zeta.
    destruct (messageRateLimit s <? _) eqn:Hlimit.
    + split; [apply refused_same_stores|]. eexists. split; [done|].
      split; [done|]. intros Hle. apply Z.ltb_lt in Hlimit. lia.
    + split; [apply refused_same_stores|]. exists error. split; [done|].
      split; [done|]. intros _ Hty Hp.
      destruct data as [| | | | |props]; try done. simpl in *.
      rewrite (validateMessage_tenant_violation socket uuid now props
                 Hty Hp Htruthy Hdiff) in Hv.
      by injection Hv as <-.
  - intros uuid now data s channel message Hin.
    destruct (handleMessage_published_identity
                socket uuid now data s channel message Hin) as [?|(_ & ? & _)];
      [by left|by right].
  - intros data s room.
    rewrite handleJoinRoom_run, handleLeaveRoom_run. cbn [snd].
    destruct (prop data "roomId") as [error|roomId0]; [done|].
    unfold joined, left_room. cbn [rooms room_members logger emit].
    repeat split.
    + unfold storeRoomMembership. cbn [rooms set_room_members].
      apply socket_join_ne. by apply other_room_key.
    + rewrite storeRoomMembership_ne by (by apply other_members_key).
      reflexivity.
    + unfold removeRoomMembership. cbn [rooms set_room_members].
      apply socket_leave_ne. by apply other_room_key.
    + rewrite removeRoomMembership_ne by (by apply other_members_key).
      reflexivity.
  - intros now data s user. rewrite handlePresenceUpdate_run. cbn [snd].
    destruct (prop data "status") as [error|status0]; [done|].
    unfold updatePresence. simpl.
    rewrite lookup_insert_ne; [done|].
    intros Heq. symmetry in Heq. revert Heq. by apply other_presence_key.
  - intros message s Hm. split; [|split].
    + intros sid ev Hin.
      apply deliverDirectMessage_emitted in Hin
        as [?|(conn & Hc & Hid & Htc & _)]; [by left|].
      right. exists conn. by rewrite <- Hm.
    + intros recipient. apply deliverDirectMessage_queues. rewrite Hm.
      by apply other_queue_key.
    + intros sid ev Hin. rewrite <- Hm.
      by apply deliverRoomMessage_emitted.
Qed.

(** The refusal of the amended C1 on scenario S7: authenticated as [t1], a
    message declared for [t2]. *)
Lemma C1_witness :
  same_stores room_service
    (handleMessage alice "m-1" 7000 cross_tenant_payload room_service).2 /\
  logged (handleMessage alice "m-1" 7000 cross_tenant_payload room_service).2 =
    logged room_service ++
    [log_error "Error handling message"
       (TenantIsolationViolation "Cannot send message for different tenant")] /\
  emitted (handleMessage alice "m-1" 7000 cross_tenant_payload room_service).2 =
    emitted room_service ++
    [("sock-1", ev_error "Cannot send message for different tenant")].
Proof.
  destruct (proj1 (C1_realtime_tenant_scoping alice "t2"
                     eq_refl eq_refl ltac:(discriminate))
              "m-1" 7000 cross_tenant_payload room_service
              eq_refl eq_refl)
    as (Hsame & error & Hlog & Hemit & Herror).
  rewrite (Herror ltac:(vm_compute; discriminate) eq_refl eq_refl)
    in Hlog, Hemit.
  split; [exact Hsame|]. split; [exact Hlog|exact Hemit].
Defined.

End TenantClaim.

(** * Further properties of the offline layer *)

Section RepositoryMore.

Import Offline.

Lemma get_put_ne (key : string) (item : Item) (now : Z) (c : Client) :
  key <> id item -> get key (put item now c) = get key c.
Proof. intros Hne. unfold get. by rewrite put_documents_ne. Qed.

(** X1: reading back what [put] wrote. [get] returns the item's id and
    fields with the metadata stamped by the repository, whatever [_meta]
    block the caller passed in: [updatedAt] is now, [deleted] is false, the
    version is the stored one plus one, and [createdAt] is the stored one
    unless there is none or it is 0. Every other id reads as before and the
    number of stored records grows by at most one. *)
Theorem X1_put_then_get (item : Item) (now : Z) (c : Client) :
  get (id item) (put item now c) =
    Some (mkItem (id item) (fields item)
            (Some (mkMeta
                     (match get (id item) c ≫= _meta with
                      | Some m => if createdAt m =? 0 then now else createdAt m
                      | None => now
                      end)
                     now (version_at (id item) c + 1) false))) /\
  (forall key, key <> id item -> get key (put item now c) = get key c) /\
  (forall forged : option Meta,
     put (mkItem (id item) (fields item) forged) now c = put item now c) /\
  dom (documents (put item now c)) = {[ id item ]} ∪ dom (documents c).
Proof.
  split; [|split; [|split]].
  - unfold get at 1. rewrite put_documents. unfold get.
    by destruct (documents c !! id item).
  - intros key Hne. by apply get_put_ne.
  - done.
  - unfold put. simpl. by rewrite dom_insert_L.
Qed.

Lemma delete_missing (key : string) (now : Z) (c : Client) :
  documents c !! key = None -> delete key now c = c.
Proof. intros Hn. unfold delete. rewrite Hn. done. Qed.

Lemma delete_dom (key : string) (now : Z) (c : Client) :
  dom (documents (delete key now c)) = dom (documents c).
Proof.
  unfold delete. destruct (documents c !! key) as [s|] eqn:Hs; [|done].
  simpl. apply dom_insert_lookup_L. eauto.
Qed.

(** X2: the soft delete. Deleting an id that is not stored changes nothing.
    Deleting a stored record keeps it readable, with the same fields,
    [createdAt] and version, [deleted = true] and [updatedAt = now]; no
    record leaves the store, no other record changes, and nothing is added
    to the mutation log. A later [put] of the same id brings the record back
    with [deleted = false] at the next version. *)
Theorem X2_soft_delete_keeps_the_record (key : string) (now : Z) (c : Client) :
  (get key c = None -> delete key now c = c) /\
  (forall local m,
     get key c = Some local -> _meta local = Some m ->
     get key (delete key now c) =
       Some (mkItem key (fields local)
               (Some (mkMeta (createdAt m) now (version m) true))) /\
     forall item later,
       id item = key ->
       get key (put item later (delete key now c)) ≫= _meta =
         Some (mkMeta (if createdAt m =? 0 then later else createdAt m)
                      later (version m + 1) false)) /\
  (forall key', key' <> key -> get key' (delete key now c) = get key' c) /\
  dom (documents (delete key now c)) = dom (documents c) /\
  pendingMutations (delete key now c) = pendingMutations c.
Proof.
  split; [|split; [|split; [|split]]].
  - intros Hn. apply delete_missing. by apply get_None.
  - intros local m Hg Hm. apply get_Some in Hg as (s & Hs & ->).
    simpl in Hm. injection Hm as <-. split.
    + unfold get. by rewrite (delete_documents _ _ _ _ Hs).
    + intros item later <-. unfold get. rewrite put_documents. simpl.
      rewrite (delete_documents _ _ _ _ Hs). unfold version_at.
      by rewrite (delete_documents _ _ _ _ Hs).
  - intros key' Hne. unfold get. by rewrite delete_documents_ne.
  - apply delete_dom.
  - unfold delete. by destruct (documents c !! key).
Qed.

Lemma X2_witness :
  get "d2" (delete "d2" 5000 s2_client) =
    Some (mkItem "d2" {[ "title" := JStr "L" ]}
            (Some (mkMeta 900 5000 3 true))) /\
  forall item later,
    id item = "d2" ->
    get "d2" (put item later (delete "d2" 5000 s2_client)) ≫= _meta =
      Some (mkMeta (if 900 =? 0 then later else 900) later (3 + 1) false).
Proof.
  exact (proj1 (proj2 (X2_soft_delete_keeps_the_record "d2" 5000 s2_client))
           (mkItem "d2" {[ "title" := JStr "L" ]}
              (Some (mkMeta 900 1000 3 false)))
           (mkMeta 900 1000 3 false) eq_refl eq_refl).
Defined.

(** The creation time stored under [key], if any. *)
Lemma put_createdAt (key : string) (item : Item) (now : Z) (c : Client)
    (s : Stored) :
  documents c !! key = Some s -> createdAt (s_meta s) <> 0 ->
  exists s', documents (put item now c) !! key = Some s' /\
             createdAt (s_meta s') = createdAt (s_meta s).
Proof.
  intros Hs Hnz. destruct (decide (key = id item)) as [->|Hne].
  - rewrite put_documents, Hs. eexists; split; [done|]. simpl.
    by apply num_or_nonzero.
  - rewrite put_documents_ne by done. eauto.
Qed.

Lemma delete_createdAt (key key' : string) (now : Z) (c : Client) (s : Stored) :
  documents c !! key = Some s ->
  exists s', documents (delete key' now c) !! key = Some s' /\
             createdAt (s_meta s') = createdAt (s_meta s).
Proof.
  intros Hs. destruct (decide (key = key')) as [<-|Hne].
  - rewrite (delete_documents _ _ _ _ Hs). eauto.
  - rewrite delete_documents_ne by done. eauto.
Qed.

(** X3: the creation time of a record is fixed once it is not 0: no
    sequence of writes ([put], soft delete, [applyRemoteChange] with any
    strategy and any incoming change) changes the [createdAt] stored under
    its id. *)
Theorem X3_createdAt_is_kept (ws : list Write) (c : Client) (key : string)
    (s : Stored) :
  documents c !! key = Some s -> createdAt (s_meta s) <> 0 ->
  exists s',
    documents (foldl write c ws) !! key = Some s' /\
    createdAt (s_meta s') = createdAt (s_meta s).
Proof.
  revert c s. induction ws as [|w ws IH]; intros c s Hs Hnz; simpl; [eauto|].
  assert (exists s1, documents (write c w) !! key = Some s1 /\
                     createdAt (s_meta s1) = createdAt (s_meta s))
    as (s1 & Hs1 & Hc1).
  { destruct (write_documents w c) as [H|[(item & now & H)|(key' & now & H)]];
      rewrite H; eauto using put_createdAt, delete_createdAt. }
  destruct (IH (write c w) s1 Hs1) as (s' & Hs' & Hc'); [congruence|].
  exists s'. split; [done|congruence].
Qed.

Lemma X3_witness :
  exists s',
    documents
      (foldl write s2_client
         [w_delete "d2" 5000;
          w_apply last_write_wins silent_ui 6000 6000 far_change;
          w_put (mkItem "d2" ∅ None) 7000]) !! "d2" = Some s' /\
    createdAt (s_meta s') =
      createdAt (s_meta (mkStored {[ "title" := JStr "L" ]}
                           (mkMeta 900 1000 3 false))).
Proof.
  apply (X3_createdAt_is_kept
           [w_delete "d2" 5000;
            w_apply last_write_wins silent_ui 6000 6000 far_change;
            w_put (mkItem "d2" ∅ None) 7000]
           s2_client "d2"
           (mkStored {[ "title" := JStr "L" ]} (mkMeta 900 1000 3 false)));
    [reflexivity|discriminate].
Defined.

(** X4: [getAll] and [get] agree. An item is in the result of [getAll]
    exactly when [get] of its id returns it; the result lists every stored
    record once (tombstones included) and no id twice. *)
Theorem X4_getAll_agrees_with_get (c : Client) :
  (forall item, item ∈ getAll c <-> get (id item) c = Some item) /\
  NoDup (id <$> getAll c) /\
  length (getAll c) = size (documents c).
Proof.
  split; [|split].
  - intros item. unfold getAll. rewrite list_elem_of_fmap, get_Some. split.
    + intros ([k s] & -> & Hin). apply elem_of_map_to_list in Hin.
      exists s. by split.
    + intros (s & Hs & Heq). exists (id item, s). split; [done|].
      by apply elem_of_map_to_list.
  - unfold getAll. rewrite <- list_fmap_compose.
    apply (NoDup_fst_map_to_list (documents c)).
  - unfold getAll. rewrite length_fmap. apply length_map_to_list.
Qed.

(** X5: [clear] forgets the versions. After [clear] no record can be read
    and [getAll] is empty, while the mutation log is left as it was; a [put]
    that follows stores the item at version 1 with [createdAt] set to now,
    whatever version the store held for that id before. *)
Theorem X5_clear_restarts_versions (c : Client) :
  getAll (clear c) = [] /\
  (forall key, get key (clear c) = None) /\
  pendingMutations (clear c) = pendingMutations c /\
  (forall item now,
     get (id item) (put item now (clear c)) =
       Some (mkItem (id item) (fields item) (Some (mkMeta now now 1 false)))).
Proof.
  split; [|split; [|split]]; try done.
  intros item now. unfold get. rewrite put_documents. done.
Qed.

End RepositoryMore.

Section ResolverMore.

Import Offline.

(** X6: what [last-write-wins] and [first-write-wins] elect. Each returns
    one of its two arguments unchanged. When the two [updatedAt] differ they
    elect opposite sides (the later one for last-write-wins, the earlier one
    for first-write-wins); when they are equal both elect the remote side. A
    side without [_meta] makes either of them throw a [TypeError]. *)
Theorem X6_write_wins_election (local remote : Item) (lm rm : Meta) :
  _meta local = Some lm -> _meta remote = Some rm ->
  (updatedAt rm < updatedAt lm ->
   lastWriteWins local remote = inr local /\
   firstWriteWins local remote = inr remote) /\
  (updatedAt lm < updatedAt rm ->
   lastWriteWins local remote = inr remote /\
   firstWriteWins local remote = inr local) /\
  (updatedAt lm = updatedAt rm ->
   lastWriteWins local remote = inr remote /\
   firstWriteWins local remote = inr remote) /\
  (forall other : Item,
     _meta other = None ->
     lastWriteWins other remote = inl (TypeError "Cannot read properties of undefined") /\
     lastWriteWins local other = inl (TypeError "Cannot read properties of undefined") /\
     firstWriteWins other remote = inl (TypeError "Cannot read properties of undefined") /\
     firstWriteWins local other = inl (TypeError "Cannot read properties of undefined")).
Proof.
  intros Hl Hr. unfold lastWriteWins, firstWriteWins, meta_of.
  rewrite Hl, Hr. split; [|split; [|split]].
  - intros H. destruct (Z.ltb_spec (updatedAt rm) (updatedAt lm));
      destruct (Z.ltb_spec (updatedAt lm) (updatedAt rm)); try lia. done.
  - intros H. destruct (Z.ltb_spec (updatedAt rm) (updatedAt lm));
      destruct (Z.ltb_spec (updatedAt lm) (updatedAt rm)); try lia. done.
  - intros H. destruct (Z.ltb_spec (updatedAt rm) (updatedAt lm));
      destruct (Z.ltb_spec (updatedAt lm) (updatedAt rm)); try lia. done.
  - intros other ->. done.
Qed.

(** X6 on the two sides of the conflict-resolution tests: the local side
    updated at 1000, the remote one at 2000. *)
Lemma X6_witness :
  lastWriteWins (mkItem "1" {[ "title" := JStr "Local" ]}
                        (Some (mkMeta 0 1000 1 false)))
                (mkItem "1" {[ "title" := JStr "Remote" ]}
                        (Some (mkMeta 0 2000 2 false)))
  = inr (mkItem "1" {[ "title" := JStr "Remote" ]}
                (Some (mkMeta 0 2000 2 false))) /\
  firstWriteWins (mkItem "1" {[ "title" := JStr "Local" ]}
                         (Some (mkMeta 0 1000 1 false)))
                 (mkItem "1" {[ "title" := JStr "Remote" ]}
                         (Some (mkMeta 0 2000 2 false)))
  = inr (mkItem "1" {[ "title" := JStr "Local" ]}
                (Some (mkMeta 0 1000 1 false))).
Proof.
  apply (proj1 (proj2 (X6_write_wins_election
                         (mkItem "1" {[ "title" := JStr "Local" ]}
                                 (Some (mkMeta 0 1000 1 false)))
                         (mkItem "1" {[ "title" := JStr "Remote" ]}
                                 (Some (mkMeta 0 2000 2 false)))
                         (mkMeta 0 1000 1 false) (mkMeta 0 2000 2 false)
                         eq_refl eq_refl))).
  reflexivity.
Defined.

Lemma mergeFields_lookup (local remote : gmap string JsVal) (key : string) :
  mergeFields local remote !! key =
    match remote !! key with
    | Some (JStr r) =>
        match local !! key with
        | Some (JStr l) => Some (JStr (mergeText l r))
        | _ => Some (JStr r)
        end
    | other => other
    end.
Proof.
  unfold mergeFields. rewrite map_lookup_imap.
  destruct (remote !! key) as [r|]; [|done]. simpl.
  destruct (local !! key) as [[]|], r; done.
Qed.

(** X7: the merge of [operational-transform]. The merged item has exactly
    the properties of the remote side: a property that only the local side
    has is dropped, a property that is not a string on both sides keeps its
    remote value, and a string property present on both sides keeps its
    value when the two agree and otherwise becomes the text with conflict
    markers around both values. Merging two sides with equal fields gives
    those fields back. The merged [_meta] takes [updatedAt] from the clock
    and a version above both sides. *)
Theorem X7_operational_transform_merge (local remote : Item) (lm rm : Meta)
    (now : Z) :
  _meta local = Some lm -> _meta remote = Some rm ->
  exists merged,
    operationalTransform local remote now = inr merged /\
    dom (fields merged) = dom (fields remote) /\
    (forall key l r,
       fields local !! key = Some (JStr l) ->
       fields remote !! key = Some (JStr r) ->
       fields merged !! key =
         Some (JStr (if String.eqb l r then l
                     else "<<<<<<< LOCAL" +:+ newline +:+ l +:+ newline +:+
                          "=======" +:+ newline +:+ r +:+ newline +:+
                          ">>>>>>> REMOTE"))) /\
    (forall key,
       (forall l, fields local !! key <> Some (JStr l)) ->
       fields merged !! key = fields remote !! key) /\
    (fields local = fields remote -> fields merged = fields remote) /\
    (id local = id remote -> id merged = id remote) /\
    _meta merged =
      Some (mkMeta (createdAt rm) now (Z.max (version lm) (version rm) + 1)
                   (deleted rm)) /\
    version lm < Z.max (version lm) (version rm) + 1 /\
    version rm < Z.max (version lm) (version rm) + 1.
Proof.
  intros Hl Hr. unfold operationalTransform, meta_of. rewrite Hl, Hr.
  eexists. split; [reflexivity|]. simpl.
  split; [|split; [|split; [|split; [|split; [|split; [|split]]]]]].
  - apply set_eq. intros key. rewrite !elem_of_dom, mergeFields_lookup.
    destruct (fields remote !! key) as [[]|]; try done.
    destruct (fields local !! key) as [[]|]; done.
  - intros key l r Hkl Hkr. by rewrite mergeFields_lookup, Hkr, Hkl.
  - intros key Hnot. rewrite mergeFields_lookup.
    destruct (fields remote !! key) as [[]|]; try done.
    destruct (fields local !! key) as [[]|] eqn:Hk; try done.
    by destruct (Hnot s0).
  - intros Heq. apply map_eq. intros key. rewrite mergeFields_lookup, Heq.
    destruct (fields remote !! key) as [[]|]; try done.
    by rewrite mergeText_same.
  - intros ->. apply mergeText_same.
  - done.
  - lia.
  - lia.
Qed.

Lemma X7_witness :
  exists merged,
    operationalTransform
      (mkItem "d2" {[ "title" := JStr "L"; "draft" := JBool true ]}
              (Some (mkMeta 900 1000 3 false)))
      far_change 5000 = inr merged /\
    fields merged = {[ "title" := JStr (mergeText "L" "R") ]} /\
    _meta merged = Some (mkMeta 900 5000 8 false).
Proof.
  destruct (X7_operational_transform_merge
              (mkItem "d2" {[ "title" := JStr "L"; "draft" := JBool true ]}
                      (Some (mkMeta 900 1000 3 false)))
              far_change (mkMeta 900 1000 3 false) (mkMeta 900 2000 7 false)
              5000 eq_refl eq_refl) as (merged & Hm & _).
  exists merged. split; [exact Hm|]. injection Hm as <-. split; reflexivity.
Defined.

End ResolverMore.

Section PushMore.

Import Offline SyncPass.

Lemma pushLocalChanges_step_frame (fetch : string -> Mutation -> FetchOutcome)
    (c : Client) (entry : string * Mutation) :
  documents (pushLocalChanges_step fetch c entry) = documents c /\
  syncMetadata (pushLocalChanges_step fetch c entry) = syncMetadata c.
Proof.
  destruct entry as [mid m]. unfold pushLocalChanges_step.
  by destruct (fetch mid m) as [[|] ?|?].
Qed.

Lemma pushLocalChanges_frame (fetch : string -> Mutation -> FetchOutcome)
    (c : Client) :
  documents (pushLocalChanges fetch c) = documents c /\
  syncMetadata (pushLocalChanges fetch c) = syncMetadata c.
Proof.
  unfold pushLocalChanges. generalize (map_to_list (pendingMutations c)).
  intros l. revert c. induction l as [|entry l IH]; intros c; [done|].
  simpl. destruct (IH (pushLocalChanges_step fetch c entry)) as [-> ->].
  apply pushLocalChanges_step_frame.
Qed.

(** X8: one round of [pushLocalChanges]. A mutation leaves the log exactly
    when the server answered its own push with an [ok] response; every
    other mutation of the log is still there afterwards, and no mutation
    appears that was not there before. If the server accepts every push the
    log is empty afterwards. The round never touches the stored documents
    or the sync metadata. *)
Theorem X8_push_removes_only_acknowledged
    (fetch : string -> Mutation -> FetchOutcome) (c : Client) :
  (forall mid m,
     pendingMutations c !! mid = Some m ->
     (pendingMutations (pushLocalChanges fetch c) !! mid = None <->
      exists statusText, fetch mid m = Response true statusText)) /\
  (forall mid,
     pendingMutations c !! mid = None ->
     pendingMutations (pushLocalChanges fetch c) !! mid = None) /\
  ((forall mid m,
      pendingMutations c !! mid = Some m ->
      exists statusText, fetch mid m = Response true statusText) ->
   pendingMutations (pushLocalChanges fetch c) = ∅) /\
  documents (pushLocalChanges fetch c) = documents c /\
  syncMetadata (pushLocalChanges fetch c) = syncMetadata c.
Proof.
  split; [|split; [|split]].
  - intros mid m Hm. rewrite pushLocalChanges_pending, Hm. simpl.
    unfold pushed. destruct (fetch mid m) as [[|] st|msg]; split;
      try done; eauto; by intros [? ?].
  - intros mid Hm. by rewrite pushLocalChanges_pending, Hm.
  - intros Hall. apply map_eq. intros mid.
    rewrite pushLocalChanges_pending, lookup_empty.
    destruct (pendingMutations c !! mid) as [m|] eqn:Hm; [|done]. simpl.
    destruct (Hall mid m Hm) as [st Hf]. unfold pushed. by rewrite Hf.
  - apply pushLocalChanges_frame.
Qed.

Lemma X8_witness :
  pendingMutations (pushLocalChanges accepting_server s2_client) = ∅.
Proof.
  apply (proj1 (proj2 (proj2 (X8_push_removes_only_acknowledged
                                accepting_server s2_client)))).
  intros mid m _. by exists "OK".
Defined.

(** X9: retries are not bounded. While the server cannot be reached, every
    further round of [pushLocalChanges] keeps the mutation in the log, with
    its type, collection, data and timestamp as they were, and adds one to
    [retryCount]: after [k] rounds the count is the initial one plus [k]. *)
Theorem X9_retries_are_unbounded
    (fetch : string -> Mutation -> FetchOutcome) (message : string)
    (mid : string) (k : nat) (c : Client) (m : Mutation) :
  (forall m', fetch mid m' = NetworkError message) ->
  pendingMutations c !! mid = Some m ->
  pendingMutations (Nat.iter k (pushLocalChanges fetch) c) !! mid =
    Some (mkMutation (type m) (collection m) (data m) (timestamp m)
            (retryCount m + Z.of_nat k)
            (match k with O => error m | S _ => Some message end)).
Proof.
  intros Hfail Hm. induction k as [|k IH].
  - simpl. rewrite Hm. destruct m. simpl. f_equal. f_equal. lia.
  - rewrite Nat.iter_succ, pushLocalChanges_pending, IH. simpl.
    unfold pushed. rewrite Hfail. unfold retried. simpl.
    f_equal. f_equal. lia.
Qed.

Lemma X9_witness :
  pendingMutations (Nat.iter 3 (pushLocalChanges unreachable_server) s2_client)
    !! "m1" =
    Some (mkMutation update "documents"
            (JObj [("id", JStr "d2"); ("title", JStr "L")]) 1000
            (0 + Z.of_nat 3) (Some "Failed to fetch")).
Proof.
  apply (X9_retries_are_unbounded unreachable_server "Failed to fetch" "m1" 3
           s2_client s2_mutation); reflexivity.
Defined.

End PushMore.

Section PullMore.

Import Offline SyncPass.

Variable strategy : ConflictResolutionStrategy.
Variable ui : Item -> Item -> option Item.
Variable clock : nat -> Z * Z.

Lemma apply_syncMetadata (nowResolve nowPut : Z) (change : Item) (c : Client) :
  syncMetadata (applyRemoteChange strategy ui nowResolve nowPut change c).2
  = syncMetadata c.
Proof.
  destruct (documents c !! id change) as [s|] eqn:Hs.
  - destruct (_meta change) as [cm|] eqn:Hm.
    + destruct (decide (version (s_meta s) = version cm - 1)) as [Hv|Hv].
      * by rewrite (apply_fast_forward _ _ _ _ _ _ _ _ Hs Hm Hv).
      * rewrite (apply_conflict _ _ _ _ _ _ _ _ Hs Hm Hv).
        by destruct (resolve _ _ _ _ _).
    + by rewrite (apply_no_meta _ _ _ _ _ _ _ Hs Hm).
  - by rewrite (apply_no_local _ _ _ _ _ _ Hs).
Qed.

Lemma applyChanges_cons (i : nat) (change : Item) (rest : list Item)
    (c : Client) :
  applyChanges strategy ui clock i (change :: rest) c =
    match applyRemoteChange strategy ui (clock i).1 (clock i).2 change c with
    | (Ok _, c') => applyChanges strategy ui clock (S i) rest c'
    | (Throw e, c') => (Throw e, c')
    | (Pending, c') => (Pending, c')
    end.
Proof. reflexivity. Qed.

Lemma applyChanges_frame (changes : list Item) (i : nat) (c : Client) :
  pendingMutations (applyChanges strategy ui clock i changes c).2
    = pendingMutations c /\
  syncMetadata (applyChanges strategy ui clock i changes c).2 = syncMetadata c.
Proof.
  revert i c. induction changes as [|change rest IH]; intros i c; [done|].
  rewrite applyChanges_cons.
  pose proof (apply_pendingMutations strategy ui (clock i).1 (clock i).2
                change c) as Hp.
  pose proof (apply_syncMetadata (clock i).1 (clock i).2 change c) as Hs.
  destruct (applyRemoteChange _ _ _ _ change c) as [[[]|e|] c']; simpl in *;
    [|done..].
  destruct (IH (S i) c') as [-> ->]. done.
Qed.

(** The run of [pullRemoteChanges], branch by branch. *)
Lemma pullRemoteChanges_run (fetch : Z -> PullOutcome) (c : Client) :
  pullRemoteChanges strategy ui clock fetch c =
    let since := lastSyncTimestampOf c in
    let failed := fun (error : Exn) (c' : Client) =>
      (@Throw unit error,
       set_syncMetadata
         (insert "documents"
            (mkSyncMetadata since error_ (Some (message_of error))))
         (print (console_error "Failed to pull changes:" ""
                               (message_of error)) c')) in
    match fetch since with
    | PullRejected error => failed error c
    | PullResponse false statusText _ _ =>
        failed (Error ("Pull failed: " +:+ statusText)) c
    | PullResponse true _ changes timestamp =>
        match applyChanges strategy ui clock 0 changes c with
        | (Ok _, c') =>
            (Ok tt,
             set_syncMetadata
               (insert "documents" (mkSyncMetadata timestamp success None)) c')
        | (Throw error, c') => failed error c'
        | (Pending, c') => (Pending, c')
        end
    end.
Proof.
  unfold pullRemoteChanges, try_catch, mbind, M_bind, bind, gets, modify, throw.
  cbv beta iota zeta.
  destruct (fetch (lastSyncTimestampOf c)) as [[|] st changes ts|error];
    cbv beta iota zeta; try done.
  by destruct (applyChanges strategy ui clock 0 changes c) as [[[]|e|] c'].
Qed.

Lemma lastSyncTimestampOf_insert (t : Z) (status : SyncStatus)
    (err : option string) (c : Client) :
  lastSyncTimestampOf
    (set_syncMetadata (insert "documents" (mkSyncMetadata t status err)) c)
  = num_or t 0.
Proof.
  unfold lastSyncTimestampOf, set_syncMetadata. simpl.
  by rewrite lookup_insert_eq.
Qed.

Lemma lastSyncTimestampOf_num_or (c : Client) :
  num_or (lastSyncTimestampOf c) 0 = lastSyncTimestampOf c.
Proof. apply num_or_zero. Qed.

(** X10: the sync cursor after [pullRemoteChanges]. When the pull completes,
    the server answered [ok] and the metadata of [documents] holds the
    server's timestamp with status [success] and no error. When it throws,
    the metadata holds the timestamp the pull started from, status [error]
    and the message of the error thrown: the cursor is not advanced. A pull
    answered with a non-[ok] status or rejected throws without touching any
    document. While it waits for a manual resolution the metadata is as
    before. In every case the mutation log is untouched. *)
Theorem X10_pull_cursor (fetch : Z -> PullOutcome) (c : Client) :
  pendingMutations (pullRemoteChanges strategy ui clock fetch c).2
    = pendingMutations c /\
  match (pullRemoteChanges strategy ui clock fetch c).1 with
  | Ok _ =>
      exists statusText changes timestamp,
        fetch (lastSyncTimestampOf c) =
          PullResponse true statusText changes timestamp /\
        syncMetadata (pullRemoteChanges strategy ui clock fetch c).2
          !! "documents" = Some (mkSyncMetadata timestamp success None)
  | Throw error =>
      syncMetadata (pullRemoteChanges strategy ui clock fetch c).2
        !! "documents" =
        Some (mkSyncMetadata (lastSyncTimestampOf c) error_
                (Some (message_of error))) /\
      lastSyncTimestampOf (pullRemoteChanges strategy ui clock fetch c).2
        = lastSyncTimestampOf c
  | Pending =>
      syncMetadata (pullRemoteChanges strategy ui clock fetch c).2
        = syncMetadata c
  end /\
  (forall statusText changes timestamp,
     fetch (lastSyncTimestampOf c) =
       PullResponse false statusText changes timestamp ->
     (pullRemoteChanges strategy ui clock fetch c).1 =
       Throw (Error ("Pull failed: " +:+ statusText)) /\
     documents (pullRemoteChanges strategy ui clock fetch c).2 = documents c) /\
  (forall error,
     fetch (lastSyncTimestampOf c) = PullRejected error ->
     (pullRemoteChanges strategy ui clock fetch c).1 = Throw error /\
     documents (pullRemoteChanges strategy ui clock fetch c).2 = documents c).
Proof.
  rewrite pullRemoteChanges_run. cbv zeta.
  destruct (applyChanges_frame
              match fetch (lastSyncTimestampOf c) with
              | PullResponse _ _ changes _ => changes
              | PullRejected _ => []
              end 0 c) as [Hp Hs].
  destruct (fetch (lastSyncTimestampOf c)) as [[|] st changes ts|error] eqn:Hf.
  - destruct (applyChanges strategy ui clock 0 changes c) as [[[]|e|] c'];
      simpl in *.
    + split; [done|]. split; [|split; [done|done]].
      exists st, changes, ts. split; [done|]. apply lookup_insert_eq.
    + split; [done|]. split; [|split; [done|done]].
      split; [apply lookup_insert_eq|].
      rewrite lastSyncTimestampOf_insert. apply lastSyncTimestampOf_num_or.
    + split; [done|]. split; [done|]. split; done.
  - simpl. split; [done|]. split; [|split].
    + split; [apply lookup_insert_eq|].
      rewrite lastSyncTimestampOf_insert. apply lastSyncTimestampOf_num_or.
    + intros st' ch' ts' [= <- _ _]. done.
    + done.
  - simpl. split; [done|]. split; [|split].
    + split; [apply lookup_insert_eq|].
      rewrite lastSyncTimestampOf_insert. apply lastSyncTimestampOf_num_or.
    + done.
    + intros e' [= <-]. done.
Qed.

End PullMore.

Section PullApplies.

Import Offline SyncPass.

Variable strategy : ConflictResolutionStrategy.
Variable ui : Item -> Item -> option Item.
Variable clock : nat -> Z * Z.
Hypothesis automatic : strategy <> manual.

Lemma applyChanges_ok (changes : list Item) (i : nat) (c : Client) :
  Forall (fun change => is_Some (_meta change)) changes ->
  applyChanges strategy ui clock i changes c =
    (Ok tt, foldl write c (applied strategy ui clock i changes)).
Proof.
  revert i c. induction changes as [|change rest IH]; intros i c Hall; [done|].
  apply Forall_cons in Hall as [[cm Hm] Hall].
  rewrite applyChanges_cons. simpl.
  destruct (apply_stored strategy ui (clock i).1 (clock i).2 change cm c
              automatic Hm) as [Hok _].
  destruct (applyRemoteChange _ _ _ _ change c) as [r c'] eqn:Ha.
  simpl in *. subst r. by apply IH.
Qed.


Lemma apply_version_at_ne (nowResolve nowPut : Z) (change : Item) (cm : Meta)
    (c : Client) (key : string) :
  _meta change = Some cm -> key <> id change ->
  version_at key (applyRemoteChange strategy ui nowResolve nowPut change c).2
  = version_at key c.
Proof.
  intros Hm Hne.
  destruct (apply_writes strategy ui nowResolve nowPut change cm c
              automatic Hm) as (item & Hid & ->).
  simpl. unfold version_at. rewrite put_documents_ne by congruence.
  repeat case_decide; reflexivity.
Qed.

Lemma applied_version_at (changes : list Item) (i : nat) (c : Client)
    (key : string) :
  Forall (fun change => is_Some (_meta change)) changes ->
  version_at key (foldl write c (applied strategy ui clock i changes)) =
    version_at key c +
    Z.of_nat (length (filter (fun change => id change = key) changes)).
Proof.
  revert i c. induction changes as [|change rest IH]; intros i c Hall; simpl.
  - lia.
  - apply Forall_cons in Hall as [[cm Hm] Hall]. rewrite (IH _ _ Hall).
    rewrite filter_cons. case_decide as Hk.
    + subst key. rewrite (apply_version_at strategy ui _ _ change cm c)
        by done. simpl. lia.
    + rewrite (apply_version_at_ne _ _ change cm c) by done. lia.
Qed.

(** X11: a pull that the server answers with changes which all carry their
    [_meta], under a strategy other than [manual], completes and applies
    the changes in order. Afterwards the stored version of every id is its
    version before the pull plus the number of incoming changes for that
    id: the local version counts the applications and does not follow the
    version numbers sent by the server. *)
Theorem X11_pull_counts_applications (fetch : Z -> PullOutcome) (c : Client)
    (statusText : string) (changes : list Item) (timestamp : Z) :
  fetch (lastSyncTimestampOf c) = PullResponse true statusText changes timestamp ->
  Forall (fun change => is_Some (_meta change)) changes ->
  (pullRemoteChanges strategy ui clock fetch c).1 = Ok tt /\
  documents (pullRemoteChanges strategy ui clock fetch c).2 =
    documents (foldl write c (applied strategy ui clock 0 changes)) /\
  forall key,
    version_at key (pullRemoteChanges strategy ui clock fetch c).2 =
      version_at key c +
      Z.of_nat (length (filter (fun change => id change = key) changes)).
Proof.
  intros Hf Hall. rewrite pullRemoteChanges_run. cbv zeta. rewrite Hf.
  rewrite (applyChanges_ok changes 0 c Hall). simpl.
  split; [done|]. split; [done|]. intros key.
  rewrite <- (applied_version_at changes 0 c key Hall). reflexivity.
Qed.


End PullApplies.

Section PullWitnesses.

Import Offline SyncPass.

Lemma X11_witness :
  (pullRemoteChanges last_write_wins silent_ui steady_clock
     (fun _ => PullResponse true "OK" [s2_change; far_change] 9000)
     s2_client).1 = Ok tt /\
  documents
    (pullRemoteChanges last_write_wins silent_ui steady_clock
       (fun _ => PullResponse true "OK" [s2_change; far_change] 9000)
       s2_client).2 =
    documents
      (foldl write s2_client
         (applied last_write_wins silent_ui steady_clock 0
            [s2_change; far_change])) /\
  forall key,
    version_at key
      (pullRemoteChanges last_write_wins silent_ui steady_clock
         (fun _ => PullResponse true "OK" [s2_change; far_change] 9000)
         s2_client).2 =
      version_at key s2_client +
      Z.of_nat (length (filter (fun change => id change = key)
                          [s2_change; far_change])).
Proof.
  apply (X11_pull_counts_applications last_write_wins silent_ui steady_clock
           ltac:(discriminate)
           (fun _ => PullResponse true "OK" [s2_change; far_change] 9000)
           s2_client "OK" [s2_change; far_change] 9000 eq_refl).
  repeat constructor; eexists; reflexivity.
Defined.


End PullWitnesses.

Section DocumentsOnly.

Import Offline.

Lemma put_documents_congruence (item : Item) (now : Z) (c1 c2 : Client) :
  documents c1 = documents c2 ->
  documents (put item now c1) = documents (put item now c2).
Proof. intros H. unfold put, get, set_documents. simpl. by rewrite H. Qed.

Lemma delete_documents_congruence (key : string) (now : Z) (c1 c2 : Client) :
  documents c1 = documents c2 ->
  documents (delete key now c1) = documents (delete key now c2).
Proof.
  intros H. unfold delete. rewrite H.
  destruct (documents c2 !! key); [|done]. simpl. by rewrite H.
Qed.

Lemma apply_documents_congruence (strategy : ConflictResolutionStrategy)
    (ui : Item -> Item -> option Item) (nowResolve nowPut : Z) (change : Item)
    (c1 c2 : Client) :
  documents c1 = documents c2 ->
  documents (applyRemoteChange strategy ui nowResolve nowPut change c1).2 =
  documents (applyRemoteChange strategy ui nowResolve nowPut change c2).2.
Proof.
  intros H. destruct (documents c2 !! id change) as [s|] eqn:Hs.
  - assert (Hs1 : documents c1 !! id change = Some s) by (by rewrite H).
    destruct (_meta change) as [cm|] eqn:Hm.
    + destruct (decide (version (s_meta s) = version cm - 1)) as [Hv|Hv].
      * rewrite (apply_fast_forward _ _ _ _ _ _ _ _ Hs Hm Hv),
          (apply_fast_forward _ _ _ _ _ _ _ _ Hs1 Hm Hv).
        by apply put_documents_congruence.
      * rewrite (apply_conflict _ _ _ _ _ _ _ _ Hs Hm Hv),
          (apply_conflict _ _ _ _ _ _ _ _ Hs1 Hm Hv).
        destruct (resolve _ _ _ _ _); cbn [snd]; try done.
        apply put_documents_congruence. exact H.
    + by rewrite (apply_no_meta _ _ _ _ _ _ _ Hs Hm),
        (apply_no_meta _ _ _ _ _ _ _ Hs1 Hm).
  - assert (Hs1 : documents c1 !! id change = None) by (by rewrite H).
    rewrite (apply_no_local _ _ _ _ _ _ Hs), (apply_no_local _ _ _ _ _ _ Hs1).
    by apply put_documents_congruence.
Qed.

Lemma writes_documents_congruence (ws : list Write) (c1 c2 : Client) :
  documents c1 = documents c2 ->
  documents (foldl write c1 ws) = documents (foldl write c2 ws).
Proof.
  revert c1 c2. induction ws as [|w ws IH]; intros c1 c2 H; [done|].
  simpl. apply IH.
  destruct w as [item now|key now|strategy ui nowResolve nowPut change]; simpl.
  - by apply put_documents_congruence.
  - by apply delete_documents_congruence.
  - by apply apply_documents_congruence.
Qed.

End DocumentsOnly.

Section SyncMore.

Import Offline SyncPass.

(** X13: a whole sync pass against a server that accepts every push and
    answers the pull with changes that all carry their [_meta] (strategy
    other than [manual], no pass in progress). The pass completes, the
    mutation log is empty, the sync metadata holds the server's timestamp
    with status [success], the documents are those left by applying the
    changes in order, and [syncInProgress] is cleared. *)
Theorem X13_sync_pass_completes
    (strategy : ConflictResolutionStrategy) (ui : Item -> Item -> option Item)
    (clock : nat -> Z * Z) (push : string -> Mutation -> FetchOutcome)
    (pull : Z -> PullOutcome) (sm : SyncManager) (statusText : string)
    (changes : list Item) (timestamp : Z) :
  syncInProgress sm = false -> strategy <> manual ->
  (forall mid m,
     pendingMutations (client sm) !! mid = Some m ->
     exists st, push mid m = Response true st) ->
  pull (lastSyncTimestampOf (client sm)) =
    PullResponse true statusText changes timestamp ->
  Forall (fun change => is_Some (_meta change)) changes ->
  (sync strategy ui clock push pull sm).1 = Ok tt /\
  syncInProgress (sync strategy ui clock push pull sm).2 = false /\
  pendingMutations (client (sync strategy ui clock push pull sm).2) = ∅ /\
  syncMetadata (client (sync strategy ui clock push pull sm).2) !! "documents"
    = Some (mkSyncMetadata timestamp success None) /\
  documents (client (sync strategy ui clock push pull sm).2) =
    documents (foldl write (client sm) (applied strategy ui clock 0 changes)).
Proof.
  intros Hflag Hauto Hpush Hpull Hall. unfold sync. rewrite Hflag.
  destruct (pushLocalChanges_frame push (client sm)) as [Hdocs Hmeta].
  assert (Hsince : lastSyncTimestampOf (pushLocalChanges push (client sm)) =
                   lastSyncTimestampOf (client sm)).
  { unfold lastSyncTimestampOf. by rewrite Hmeta. }
  assert (Hempty : pendingMutations (pushLocalChanges push (client sm)) = ∅).
  { apply map_eq. intros mid.
    rewrite pushLocalChanges_pending, lookup_empty.
    destruct (pendingMutations (client sm) !! mid) as [m|] eqn:Hm; [|done].
    simpl. destruct (Hpush mid m Hm) as [st Hf]. unfold pushed.
    by rewrite Hf. }
  rewrite <- Hsince in Hpull.
  pose proof (pullRemoteChanges_run strategy ui clock pull
                (pushLocalChanges push (client sm))) as Hrun.
  cbv zeta in Hrun. rewrite Hpull in Hrun.
  rewrite (applyChanges_ok strategy ui clock Hauto changes 0 _ Hall) in Hrun.
  rewrite Hrun. cbn [fst snd client syncInProgress].
  split; [done|]. split; [done|]. split; [|split].
  - cbn [print set_syncMetadata pendingMutations].
    pose proof (applyChanges_frame strategy ui clock changes 0
                  (pushLocalChanges push (client sm))) as [Hp _].
    rewrite (applyChanges_ok strategy ui clock Hauto changes 0 _ Hall) in Hp.
    cbn [snd] in Hp. by rewrite Hp.
  - cbn [print set_syncMetadata syncMetadata]. apply lookup_insert_eq.
  - cbn [print set_syncMetadata documents].
    by apply writes_documents_congruence.
Qed.

End SyncMore.

Section SyncFlag.

Import Offline SyncPass.

Lemma X13_witness :
  (sync last_write_wins silent_ui steady_clock accepting_server
     (fun _ => PullResponse true "OK" [s2_change] 9000)
     (mkSyncManager s2_client false)).1 = Ok tt /\
  syncInProgress
    (sync last_write_wins silent_ui steady_clock accepting_server
       (fun _ => PullResponse true "OK" [s2_change] 9000)
       (mkSyncManager s2_client false)).2 = false /\
  pendingMutations
    (client (sync last_write_wins silent_ui steady_clock accepting_server
               (fun _ => PullResponse true "OK" [s2_change] 9000)
               (mkSyncManager s2_client false)).2) = ∅ /\
  syncMetadata
    (client (sync last_write_wins silent_ui steady_clock accepting_server
               (fun _ => PullResponse true "OK" [s2_change] 9000)
               (mkSyncManager s2_client false)).2) !! "documents"
    = Some (mkSyncMetadata 9000 success None) /\
  documents
    (client (sync last_write_wins silent_ui steady_clock accepting_server
               (fun _ => PullResponse true "OK" [s2_change] 9000)
               (mkSyncManager s2_client false)).2) =
    documents (foldl write s2_client
                 (applied last_write_wins silent_ui steady_clock 0 [s2_change])).
Proof.
  apply (X13_sync_pass_completes last_write_wins silent_ui steady_clock
           accepting_server (fun _ => PullResponse true "OK" [s2_change] 9000)
           (mkSyncManager s2_client false) "OK" [s2_change] 9000).
  - reflexivity.
  - discriminate.
  - intros mid m _. by exists "OK".
  - reflexivity.
  - repeat constructor; eexists; reflexivity.
Defined.

(** X14: the [syncInProgress] flag. A call to [sync] made while a pass is in
    progress returns at once and leaves the client as it is, apart from a
    line on the console. A pass that settles, completed or failed, clears
    the flag. A pass that waits for a manual resolution that never comes
    leaves the flag set, so every later call to [sync], whatever the
    servers answer, is skipped: nothing is pushed or pulled any more. *)
Theorem X14_unanswered_conflict_blocks_sync
    (strategy : ConflictResolutionStrategy) (ui : Item -> Item -> option Item)
    (clock : nat -> Z * Z) (push : string -> Mutation -> FetchOutcome)
    (pull : Z -> PullOutcome) (sm : SyncManager) :
  (syncInProgress sm = true ->
   sync strategy ui clock push pull sm =
     (Ok tt,
      mkSyncManager
        (print (console_log "Sync already in progress, skipping") (client sm))
        true)) /\
  (syncInProgress sm = false ->
   match (sync strategy ui clock push pull sm).1 with
   | Pending =>
       syncInProgress (sync strategy ui clock push pull sm).2 = true /\
       forall strategy' ui' clock' push' pull',
         let later :=
           sync strategy' ui' clock' push' pull'
                (sync strategy ui clock push pull sm).2 in
         later.1 = Ok tt /\
         documents (client later.2) =
           documents (client (sync strategy ui clock push pull sm).2) /\
         pendingMutations (client later.2) =
           pendingMutations (client (sync strategy ui clock push pull sm).2) /\
         syncMetadata (client later.2) =
           syncMetadata (client (sync strategy ui clock push pull sm).2) /\
         syncInProgress later.2 = true
   | _ => syncInProgress (sync strategy ui clock push pull sm).2 = false
   end).
Proof.
  split; intros Hflag; [unfold sync; by rewrite Hflag|].
  assert (Hr : sync strategy ui clock push pull sm =
               match pullRemoteChanges strategy ui clock pull
                       (pushLocalChanges push (client sm)) with
               | (Ok _, c) =>
                   (Ok tt,
                    mkSyncManager
                      (print (console_log "Sync completed successfully") c)
                      false)
               | (Throw error, c) =>
                   (Throw error,
                    mkSyncManager
                      (print (console_error "Sync failed:" ""
                                            (message_of error)) c) false)
               | (Pending, c) => (Pending, mkSyncManager c true)
               end).
  { unfold sync. by rewrite Hflag. }
  rewrite Hr. clear Hr.
  destruct (pullRemoteChanges strategy ui clock pull
              (pushLocalChanges push (client sm))) as [[[]|e|] c'];
    cbn [fst snd syncInProgress client]; done.
Qed.

(** X14 on scenario S2 with the [manual] strategy: the incoming change
    conflicts and the user interface never answers. *)
Lemma X14_witness :
  syncInProgress
    (sync manual silent_ui steady_clock accepting_server conflicting_server
       (mkSyncManager s2_client false)).2 = true /\
  forall strategy' ui' clock' push' pull',
    (sync strategy' ui' clock' push' pull'
       (sync manual silent_ui steady_clock accepting_server conflicting_server
          (mkSyncManager s2_client false)).2).1 = Ok tt /\
    documents
      (client (sync strategy' ui' clock' push' pull'
                 (sync manual silent_ui steady_clock accepting_server
                    conflicting_server (mkSyncManager s2_client false)).2).2) =
      documents
        (client (sync manual silent_ui steady_clock accepting_server
                   conflicting_server (mkSyncManager s2_client false)).2) /\
    pendingMutations
      (client (sync strategy' ui' clock' push' pull'
                 (sync manual silent_ui steady_clock accepting_server
                    conflicting_server (mkSyncManager s2_client false)).2).2) =
      pendingMutations
        (client (sync manual silent_ui steady_clock accepting_server
                   conflicting_server (mkSyncManager s2_client false)).2) /\
    syncMetadata
      (client (sync strategy' ui' clock' push' pull'
                 (sync manual silent_ui steady_clock accepting_server
                    conflicting_server (mkSyncManager s2_client false)).2).2) =
      syncMetadata
        (client (sync manual silent_ui steady_clock accepting_server
                   conflicting_server (mkSyncManager s2_client false)).2) /\
    syncInProgress
      (sync strategy' ui' clock' push' pull'
         (sync manual silent_ui steady_clock accepting_server
            conflicting_server (mkSyncManager s2_client false)).2).2 = true.
Proof.
  exact (proj2 (X14_unanswered_conflict_blocks_sync manual silent_ui
                  steady_clock accepting_server conflicting_server
                  (mkSyncManager s2_client false)) eq_refl).
Defined.

End SyncFlag.

Section NetworkMore.

Import Network NetworkEvents.

Lemma follow_snoc (believed : bool) (events : list Emitted) (e : Emitted) :
  follow believed (events ++ [e]) =
    match follow believed events with
    | Some b =>
        match e with
        | emit_online => if b then None else Some true
        | emit_offline => if b then Some false else None
        end
    | None => None
    end.
Proof.
  revert believed. induction events as [|e' events IH]; intros believed; simpl.
  - by destruct e, believed.
  - destruct e', believed; simpl; by rewrite ?IH.
Qed.

Lemma step_follow (init : bool) (nm : NetworkMonitor) (s : Stimulus) :
  follow init (emitted nm) = Some (online nm) ->
  follow init (emitted (step nm s)) = Some (online (step nm s)).
Proof.
  intros H. rewrite step_emitted.
  destruct (eqb (online (step nm s)) (online nm)) eqn:He.
  - rewrite app_nil_r, H. f_equal. symmetry. by apply eqb_prop.
  - rewrite follow_snoc, H.
    destruct (online (step nm s)), (online nm); done.
Qed.

(** X15: the events emitted by the monitor are a chain of genuine changes.
    Starting from [navigator.onLine], the first event contradicts it, every
    later event contradicts the one before, and a listener that follows the
    events (as [OfflineProvider] does) holds the value of [isOnline] after
    every sequence of window events and probes. *)
Theorem X15_listeners_track_isOnline (init : bool) (ss : list Stimulus) :
  follow init (emitted (run (new init) ss)) = Some (isOnline (run (new init) ss)).
Proof.
  induction ss as [|s ss IH] using rev_ind; [done|].
  rewrite run_snoc. by apply step_follow.
Qed.

End NetworkMore.

(** * Further properties of the reconciliation service *)

Section ClockOrder.

Import Reconciliation.





End ClockOrder.

Section Reconcile.

Import Reconciliation ReconciliationService.

Variable mergeFields : list Operation -> JsVal.


(** The conflict that [reconcile] reports for an operation and the stored
    operations concurrent with it. *)
Lemma reconcile_operation_run (requestTenant : string) (readings : Z * Z * Z)
    (found : list Conflict * list Operation) (operation : Operation)
    (store : gmap string (list Operation)) :
  reconcile_operation mergeFields requestTenant readings found operation store =
    (Ok (let conflictingOps :=
           detectConflicts operation
             (getOperations requestTenant (entityType operation)
                            (entityId operation) store) in
         let winner := latestOf operation conflictingOps in
         match conflictingOps with
         | [] => (found.1, found.2 ++ [operation])
         | _ :: _ =>
             (found.1 ++
              [mkConflict ("conflict-" +:+ pretty readings.1.1)
                 (entityType operation) (entityId operation)
                 (operation :: conflictingOps) readings.1.2
                 (Some (mkConflictResolution LAST_WRITE_WINS readings.2
                          (payload winner)))],
              found.2 ++
              [mkOperation (operationId operation) (clientId operation)
                 (tenantId operation) (entityType operation)
                 (entityId operation) (operationType operation)
                 (payload winner) (timestamp operation)
                 (vectorClock operation)])
         end),
     submitOperation operation store).
Proof.
  unfold reconcile_operation, getOperations, mbind, mret, M_bind, M_ret, bind,
    ret, gets, modify, of_sum.
  cbv beta iota zeta.
  by destruct (detectConflicts operation _) as [|c cs].
Qed.

Lemma reconcile_loop_run (requestTenant : string) (clock : nat -> Z * Z * Z)
    (ops : list Operation) (i : nat) (found : list Conflict * list Operation)
    (store : gmap string (list Operation)) :
  exists cs rs,
    reconcile_loop mergeFields requestTenant clock i found ops store =
      (Ok (found.1 ++ cs, found.2 ++ rs),
       foldl (fun st op => submitOperation op st) store ops) /\
    Forall2 same_identity rs ops /\
    Forall (fun c => exists r, resolution c = Some r /\
                               strategy r = LAST_WRITE_WINS) cs /\
    (length cs <= length ops)%nat.
Proof.
  revert i found store.
  induction ops as [|op ops IH]; intros i found store.
  - exists [], []. simpl. rewrite !app_nil_r. destruct found.
    repeat split; try constructor.
  - cbn [reconcile_loop foldl]. unfold mbind, M_bind, bind.
    rewrite reconcile_operation_run. cbv zeta.
    destruct (detectConflicts op _) as [|e es]; cbv beta iota.
    + destruct (IH (S i) (found.1, found.2 ++ [op]) (submitOperation op store))
        as (cs & rs & -> & Hid & Hres & Hlen).
      exists cs, (op :: rs). cbn [fst snd]. rewrite <- app_assoc.
      split; [done|]. split; [|split; [done|simpl; lia]].
      constructor; [by repeat split|done].
    + match goal with
      | |- context [reconcile_loop _ _ _ _ (found.1 ++ [?c], found.2 ++ [?o])] =>
          destruct (IH (S i) (found.1 ++ [c], found.2 ++ [o])
                       (submitOperation op store))
            as (cs & rs & -> & Hid & Hres & Hlen);
          exists (c :: cs), (o :: rs)
      end.
      cbn [fst snd]. rewrite <- !app_assoc.
      split; [done|]. split; [|split; [|simpl; lia]].
      * constructor; [by repeat split|done].
      * constructor; [|done]. eexists. by split.
Qed.

Lemma reconcile_run (clock : nat -> Z * Z * Z) (versionNow completedNow : Z)
    (request : ReconciliationRequest) (store : gmap string (list Operation)) :
  exists cs rs,
    reconcile mergeFields clock versionNow completedNow request store =
      (Ok (mkReconciliationResponse (requestId request) cs rs
             ("v-" +:+ pretty versionNow) completedNow),
       foldl (fun st op => submitOperation op st) store
             (request_operations request)) /\
    Forall2 same_identity rs (request_operations request) /\
    Forall (fun c => exists r, resolution c = Some r /\
                               strategy r = LAST_WRITE_WINS) cs /\
    (length cs <= length (request_operations request))%nat.
Proof.
  destruct (reconcile_loop_run (request_tenantId request) clock
              (request_operations request) 0 ([], []) store)
    as (cs & rs & Hrun & H).
  exists cs, rs. split; [|done].
  unfold reconcile, mbind, mret, M_bind, M_ret, bind, ret. by rewrite Hrun.
Qed.

(** X17: [reconcile] answers every operation. It never throws; the response
    carries the id of the request and one resolved operation per submitted
    operation, in the same order and with the same identity (operation id,
    client, tenant, entity, type, timestamp and vector clock: only the
    payload can differ); it reports at most one conflict per operation and
    every reported conflict is resolved with last-write-wins. *)
Theorem X17_reconcile_answers_every_operation
    (clock : nat -> Z * Z * Z) (versionNow completedNow : Z)
    (request : ReconciliationRequest) (store : gmap string (list Operation)) :
  exists response,
    (reconcile mergeFields clock versionNow completedNow request store).1 =
      Ok response /\
    response_requestId response = requestId request /\
    Forall2 same_identity (resolvedOperations response)
            (request_operations request) /\
    Forall (fun c => exists r, resolution c = Some r /\
                               strategy r = LAST_WRITE_WINS)
           (conflicts response) /\
    (length (conflicts response) <= length (request_operations request))%nat.
Proof.
  destruct (reconcile_run clock versionNow completedNow request store)
    as (cs & rs & -> & H). eexists. split; [reflexivity|]. by split.
Qed.

Lemma submitOperation_lookup (operation : Operation)
    (store : gmap string (list Operation)) (key : string) :
  default [] (submitOperation operation store !! key) =
    default [] (store !! key) ++
    filter (fun op => key_of (tenantId op) (entityType op) (entityId op) = key)
           [operation].
Proof.
  unfold submitOperation. rewrite filter_cons, filter_nil.
  case_decide as Hk.
  - subst key. by rewrite lookup_insert_eq.
  - rewrite lookup_insert_ne by done. by rewrite app_nil_r.
Qed.

Lemma submitOperations_lookup (ops : list Operation)
    (store : gmap string (list Operation)) (key : string) :
  default [] (foldl (fun st op => submitOperation op st) store ops !! key) =
    default [] (store !! key) ++
    filter (fun op => key_of (tenantId op) (entityType op) (entityId op) = key)
           ops.
Proof.
  revert store. induction ops as [|op ops IH]; intros store; simpl.
  - by rewrite filter_nil, app_nil_r.
  - rewrite IH, submitOperation_lookup, <- app_assoc. f_equal.
    rewrite !filter_cons, filter_nil. by case_decide.
Qed.

(** X18: [reconcile] records every operation of the request, conflicting or
    not, once and in order, after the operations already recorded under the
    same key; the key is built from the tenant named in the operation
    itself, not from the tenant of the request. For tenant ids without [:],
    recording an operation of one tenant leaves what [getOperations] returns
    for every other tenant unchanged. *)
Theorem X18_reconcile_records_every_operation
    (clock : nat -> Z * Z * Z) (versionNow completedNow : Z)
    (request : ReconciliationRequest) (store : gmap string (list Operation)) :
  (forall t e i,
     getOperations t e i
       (reconcile mergeFields clock versionNow completedNow request store).2 =
       getOperations t e i store ++
       filter (fun op => key_of (tenantId op) (entityType op) (entityId op)
                         = key_of t e i)
              (request_operations request)) /\
  (forall operation t e i,
     Realtime.no_colon t = true ->
     Realtime.no_colon (tenantId operation) = true ->
     tenantId operation <> t ->
     getOperations t e i (submitOperation operation store) =
       getOperations t e i store).
Proof.
  split.
  - intros t e i.
    destruct (reconcile_run clock versionNow completedNow request store)
      as (cs & rs & -> & _). apply submitOperations_lookup.
  - intros operation t e i Ht Ho Hne. unfold getOperations.
    rewrite submitOperation_lookup, filter_cons, filter_nil.
    case_decide as Hk; [|by rewrite app_nil_r].
    unfold key_of in Hk. by apply namespace_inj in Hk.
Qed.


End Reconcile.

Section ReconcileWitnesses.

Import Reconciliation ReconciliationService.

Lemma X18_witness :
  getOperations "tenant-002" "order" "order-001" (submitOperation op1 ∅) =
    getOperations "tenant-002" "order" "order-001" ∅.
Proof.
  apply (proj2 (X18_reconcile_records_every_operation no_merge still_clock
                  2000 2000 request1 ∅)
           op1 "tenant-002" "order" "order-001");
    [reflexivity|reflexivity|discriminate].
Defined.


End ReconcileWitnesses.

(** ** The fallback manager *)

Section FallbackQueues.

Import Realtime Fallback.

Lemma length_append (a b : string) :
  String.length (a +:+ b) = (String.length a + String.length b)%nat.
Proof. induction a as [|c a IH]; simpl; [done|by rewrite IH]. Qed.

Lemma append_inj_r (a b suffix : string) :
  a +:+ suffix = b +:+ suffix -> a = b.
Proof.
  revert b. induction a as [|c a IH]; intros [|c' b] Heq; simpl in Heq.
  - done.
  - apply (f_equal String.length) in Heq.
    rewrite !length_append in Heq. simpl in Heq. lia.
  - apply (f_equal String.length) in Heq.
    rewrite !length_append in Heq. simpl in Heq. lia.
  - injection Heq as -> Heq. f_equal. by apply IH.
Qed.

Lemma queueEvent_queued (readings : Z * Z * Z) (event : Event) (m : Manager)
    (t : string) :
  getQueuedEvents t (queueEvent readings event m) =
    getQueuedEvents t m ++
    (if decide (event_tenantId event = t) then [event] else []).
Proof.
  unfold getQueuedEvents, queueEvent. cbn [eventQueues].
  case_decide as Ht.
  - subst t. rewrite lookup_insert_eq. cbn [events].
    by destruct (eventQueues m !! _).
  - rewrite lookup_insert_ne, app_nil_r; [done|].
    intros Heq. by apply append_inj_r in Heq.
Qed.

Lemma handleEvent_health (readings : Z * Z * Z) (event : Event)
    (k : InteractionClass) (m : Manager) :
  serviceHealth (handleEvent readings event k m).2 = serviceHealth m.
Proof.
  unfold handleEvent. destruct (isRealtimeAvailable m); [done|].
  by destruct k.
Qed.

Lemma handleEvent_queued (readings : Z * Z * Z) (event : Event)
    (k : InteractionClass) (m : Manager) (t : string) :
  getQueuedEvents t (handleEvent readings event k m).2 =
    getQueuedEvents t m ++
    (if isRealtimeAvailable m then []
     else filter (fun a : Z * Z * Z * Event * InteractionClass =>
                    queued_class a.2 = true /\ event_tenantId a.1.2 = t)
                 [(readings, event, k)]).*1.*2.
Proof.
  unfold handleEvent. destruct (isRealtimeAvailable m); [by rewrite app_nil_r|].
  rewrite filter_cons, filter_nil.
  destruct k; cbn [mode getFallbackConfig snd storeForPolling].
  - rewrite decide_False by (by intros [? _]). by rewrite app_nil_r.
  - rewrite queueEvent_queued. f_equal.
    destruct (decide (event_tenantId event = t)) as [Ht|Ht].
    + by rewrite decide_True.
    + rewrite decide_False; [done|]. by intros [_ ?].
  - rewrite queueEvent_queued. f_equal.
    destruct (decide (event_tenantId event = t)) as [Ht|Ht].
    + by rewrite decide_True.
    + rewrite decide_False; [done|]. by intros [_ ?].
  - rewrite decide_False by (by intros [? _]). by rewrite app_nil_r.
Qed.

Lemma handleAll_health (arrivals : list (Z * Z * Z * Event * InteractionClass))
    (m : Manager) :
  serviceHealth (handleAll m arrivals) = serviceHealth m.
Proof.
  revert m. induction arrivals as [|a arrivals IH]; intros m; [done|].
  simpl. by rewrite IH, handleEvent_health.
Qed.

(** X20: what the fallback manager keeps of a sequence of events. While the
    realtime service is healthy nothing is queued. Otherwise the queue of a
    tenant grows by exactly the Class B and Class C events of that tenant,
    in the order of their arrival; events of other tenants and events of
    Class A and Class D never enter it, and no event is refused or evicted,
    however long the queue already is. *)
Theorem X20_fallback_queue_is_fifo_per_tenant
    (arrivals : list (Z * Z * Z * Event * InteractionClass)) (m : Manager)
    (t : string) :
  getQueuedEvents t (handleAll m arrivals) =
    getQueuedEvents t m ++
    (if isRealtimeAvailable m then []
     else (filter (fun a : Z * Z * Z * Event * InteractionClass =>
                     queued_class a.2 = true /\ event_tenantId a.1.2 = t)
                  arrivals).*1.*2).
Proof.
  revert m. induction arrivals as [|[[readings event] k] arrivals IH];
    intros m.
  - simpl. by destruct (isRealtimeAvailable m); rewrite app_nil_r.
  - change (handleAll m ((readings, event, k) :: arrivals))
      with (handleAll (handleEvent readings event k m).2 arrivals).
    rewrite IH, handleEvent_queued.
    replace (isRealtimeAvailable (handleEvent readings event k m).2)
      with (isRealtimeAvailable m)
      by (unfold isRealtimeAvailable; by rewrite handleEvent_health).
    destruct (isRealtimeAvailable m); [by rewrite !app_nil_r|].
    rewrite <- app_assoc. f_equal.
    rewrite (filter_cons _ (readings, event, k) arrivals), filter_cons,
      filter_nil.
    case_decide; by rewrite ?fmap_cons.
Qed.

(** X21: the fate of one event. It is delivered exactly when the health of
    the realtime service is [HEALTHY] (a degraded service counts as
    unavailable). An event of Class B or C that is not delivered is last in
    the queue of its tenant afterwards; an event of Class A or D is never
    queued, and of the two only Class D reports a fallback. The recorded
    health is not changed. *)
Theorem X21_fallback_outcome
    (readings : Z * Z * Z) (event : Event) (k : InteractionClass)
    (m : Manager) :
  let r := handleEvent readings event k m in
  (delivered r.1 = true <-> health_status (serviceHealth m) = HEALTHY) /\
  (delivered r.1 = true -> fallbackUsed r.1 = false /\ r.2 = m) /\
  (delivered r.1 = false ->
     (fallbackUsed r.1 = false <-> k = CLASS_A) /\
     fallbackMode r.1 =
       (if fallbackUsed r.1 then Some (mode (getFallbackConfig k)) else None) /\
     getQueuedEvents (event_tenantId event) r.2 =
       getQueuedEvents (event_tenantId event) m ++
       (if queued_class k then [event] else [])) /\
  serviceHealth r.2 = serviceHealth m.
Proof.
  intros r. subst r. split; [|split; [|split]].
  - unfold handleEvent, isRealtimeAvailable.
    destruct (health_status (serviceHealth m)); [done|..];
      by destruct k.
  - unfold handleEvent. destruct (isRealtimeAvailable m); [done|].
    by destruct k.
  - intros Hd. rewrite handleEvent_queued.
    unfold handleEvent in *. destruct (isRealtimeAvailable m); [done|].
    rewrite filter_cons, filter_nil.
    destruct k; cbn [fst snd mode getFallbackConfig fallbackUsed fallbackMode
                     queued_class];
      (split; [done|]); (split; [done|]); f_equal;
      by rewrite decide_True.
  - apply handleEvent_health.
Qed.

(** X22: draining. [drainQueue] hands out exactly the events queued for
    the tenant, in their order, and leaves that queue empty, so that a
    second drain hands out nothing; the queues of every other tenant and
    the recorded health are untouched. *)
Theorem X22_drain_hands_out_once (t : string) (m : Manager) :
  (drainQueue t m).1 = getQueuedEvents t m /\
  getQueuedEvents t (drainQueue t m).2 = [] /\
  (drainQueue t (drainQueue t m).2).1 = [] /\
  (forall other, other <> t ->
     getQueuedEvents other (drainQueue t m).2 = getQueuedEvents other m) /\
  serviceHealth (drainQueue t m).2 = serviceHealth m.
Proof.
  assert (H1 : (drainQueue t m).1 = getQueuedEvents t m).
  { unfold drainQueue, getQueuedEvents. by destruct (eventQueues m !! _). }
  assert (H2 : getQueuedEvents t (drainQueue t m).2 = []).
  { unfold drainQueue, getQueuedEvents.
    destruct (eventQueues m !! _) eqn:Hq; cbn [snd eventQueues].
    - by rewrite lookup_insert_eq.
    - by rewrite Hq. }
  split; [done|]. split; [done|]. split; [|split].
  - assert (H3 : forall m', (drainQueue t m').1 = getQueuedEvents t m').
    { intros m'. unfold drainQueue, getQueuedEvents.
      by destruct (eventQueues m' !! _). }
    by rewrite H3.
  - intros other Hne. unfold drainQueue, getQueuedEvents.
    destruct (eventQueues m !! (t +:+ ":queue")); [|done].
    cbn [snd eventQueues]. rewrite lookup_insert_ne; [done|].
    intros Heq. by apply append_inj_r in Heq.
  - unfold drainQueue. by destruct (eventQueues m !! _).
Qed.

End FallbackQueues.

(** ** More on the realtime channel *)

Section RateLimit.

Import Realtime RealtimeRuns.

Variable socket : Socket.

Lemma handleMessage_state (uuid : string) (now : Z) (data : JsVal)
    (s : Service) :
  exists s',
    (handleMessage socket uuid now data s).2 = s' /\
    rate_limits s' = rate_limits (counted socket s) /\
    messageRateLimit s' = messageRateLimit s /\
    connections s' = connections s /\ sockets s' = sockets s /\
    presence s' = presence s /\ rooms s' = rooms s /\
    room_members s' = room_members s /\
    message_queues s' = message_queues s.
Proof.
  eexists. split; [reflexivity|]. rewrite handleMessage_run. cbn [snd].
  cbv zeta.
  destruct (messageRateLimit s <? _); [by repeat split|].
  destruct (validateMessage socket uuid now data) as [error|message];
    [by repeat split|].
  destruct (truthy (recipientId message)).
  - by destruct (_ && _).
  - by destruct (truthy (roomId message)).
Qed.

Lemma handleMessage_counter (uuid : string) (now : Z) (data : JsVal)
    (s : Service) :
  rate_limits (handleMessage socket uuid now data s).2 =
    <[ "rate_limit:" +:+ socket_id socket :=
         default 0 (rate_limits s !! ("rate_limit:" +:+ socket_id socket)) + 1 ]>
      (rate_limits s).
Proof.
  destruct (handleMessage_state uuid now data s) as (s' & -> & -> & _).
  reflexivity.
Qed.

Lemma handleMessage_over_limit (uuid : string) (now : Z) (data : JsVal)
    (s : Service) :
  messageRateLimit s <=
    default 0 (rate_limits s !! ("rate_limit:" +:+ socket_id socket)) ->
  published (handleMessage socket uuid now data s).2 = published s /\
  emitted (handleMessage socket uuid now data s).2 =
    emitted s ++ [(socket_id socket, ev_error "Message rate limit exceeded")].
Proof.
  intros Hlimit. rewrite handleMessage_run. cbn [snd]. cbv zeta.
  replace (messageRateLimit s <? _) with true; [done|].
  symmetry. apply Z.ltb_lt. lia.
Qed.

Lemma handleMessage_published_length (uuid : string) (now : Z) (data : JsVal)
    (s : Service) :
  (length (published (handleMessage socket uuid now data s).2) <=
     length (published s) + 1)%nat.
Proof.
  destruct (handleMessage_published socket uuid now data s)
    as [->|(message & _ & [->| ->])]; rewrite ?length_app; simpl; lia.
Qed.

(** X23: the rate limit over the messages of one socket, while its counter
    is not reset. Every message is counted, the refused ones too: after [n]
    messages the counter of the socket has grown by [n], and no counter of
    another socket has changed. At most as many messages are published as
    the counter was below the limit; and once the counter has reached the
    limit every further message publishes nothing and is answered with the
    error [Message rate limit exceeded]. *)
Theorem X23_rate_limit_window
    (arrivals : list (string * Z * JsVal)) (s : Service) :
  let key := "rate_limit:" +:+ socket_id socket in
  let count := default 0 (rate_limits s !! key) in
  let s' := handleMessages socket arrivals s in
  default 0 (rate_limits s' !! key) = count + Z.of_nat (length arrivals) /\
  (forall other, other <> key -> rate_limits s' !! other = rate_limits s !! other) /\
  (length (published s') <=
     length (published s) + Z.to_nat (messageRateLimit s - count))%nat /\
  (messageRateLimit s <= count ->
     published s' = published s /\
     emitted s' =
       emitted s ++
       replicate (length arrivals)
         (socket_id socket, ev_error "Message rate limit exceeded")).
Proof.
  cbv zeta. revert s.
  induction arrivals as [|[[uuid now] data] arrivals IH]; intros s.
  - cbn [handleMessages foldl length replicate]. rewrite app_nil_r.
    repeat split; lia.
  - change (handleMessages socket ((uuid, now, data) :: arrivals) s)
      with (handleMessages socket arrivals
              (handleMessage socket uuid now data s).2).
    destruct (IH (handleMessage socket uuid now data s).2)
      as (Hc & Ho & Hp & Hl).
    destruct (handleMessage_state uuid now data s)
      as (s1 & Hs1 & _ & Hlim & _).
    pose proof (handleMessage_counter uuid now data s) as Hrl.
    pose proof (handleMessage_published_length uuid now data s) as Hlen.
    rewrite Hs1 in *. rewrite Hlim in *.
    assert (Hc1 : default 0 (rate_limits s1 !! ("rate_limit:" +:+ socket_id socket))
                  = default 0 (rate_limits s !! ("rate_limit:" +:+ socket_id socket)) + 1).
    { by rewrite Hrl, lookup_insert_eq. }
    rewrite Hc1 in *. split; [|split; [|split]].
    + rewrite Hc. cbn [length]. lia.
    + intros other Hne. rewrite Ho by done. rewrite Hrl.
      by rewrite lookup_insert_ne.
    + destruct (Z_le_gt_dec (messageRateLimit s)
                  (default 0 (rate_limits s !! ("rate_limit:" +:+ socket_id socket))))
        as [Hover|Hunder].
      * destruct (handleMessage_over_limit uuid now data s Hover) as [Hp1 _].
        rewrite Hs1 in Hp1. rewrite Hp1 in Hp. lia.
      * lia.
    + intros Hover.
      destruct (handleMessage_over_limit uuid now data s Hover) as [Hp1 He1].
      rewrite Hs1 in Hp1, He1.
      destruct Hl as [Hp2 He2]; [lia|].
      rewrite Hp2, Hp1, He2, He1. split; [done|].
      cbn [length replicate]. by rewrite <- app_assoc.
Qed.

(** X24: every message gets exactly one answer on the socket of its sender
    and [handleMessage] never throws. Either the message is acknowledged
    with the identifier the server gave it, and then it is the one message
    published and nothing is logged; or an error is reported, and then
    nothing is published and the error is logged. Connections, presence,
    rooms, memberships and queues are the same afterwards in both cases. *)
Theorem X24_one_answer_per_message
    (uuid : string) (now : Z) (data : JsVal) (s : Service) :
  let r := handleMessage socket uuid now data s in
  r.1 = Ok tt /\
  ((exists channel message,
      validateMessage socket uuid now data = inr message /\
      published r.2 = published s ++ [(channel, message)] /\
      emitted r.2 = emitted s ++ [(socket_id socket, ev_message_ack uuid)] /\
      logged r.2 = logged s) \/
   (exists error,
      published r.2 = published s /\
      emitted r.2 =
        emitted s ++ [(socket_id socket, ev_error (message_of error))] /\
      logged r.2 = logged s ++ [log_error "Error handling message" error])) /\
  connections r.2 = connections s /\ sockets r.2 = sockets s /\
  presence r.2 = presence s /\ rooms r.2 = rooms s /\
  room_members r.2 = room_members s /\ message_queues r.2 = message_queues s.
Proof.
  intros r. subst r. split; [by rewrite handleMessage_run|]. split.
  - rewrite handleMessage_run. cbn [snd]. cbv zeta.
    destruct (messageRateLimit s <? _); [right; by eexists|].
    destruct (validateMessage socket uuid now data) as [error|message] eqn:Hv;
      [right; by eexists|].
    apply validateMessage_identity in Hv as (<- & _).
    destruct (truthy (recipientId message)).
    + destruct (_ && _); [right; by eexists|]. left. by eexists _, _.
    + destruct (truthy (roomId message)); [|right; by eexists].
      left. by eexists _, _.
  - destruct (handleMessage_state uuid now data s)
      as (s' & -> & _ & _ & H). exact H.
Qed.

End RateLimit.

Section DirectMessages.

Import Realtime RealtimeRuns.

Lemma strict_eq_str_spec (v : JsVal) (text : string) :
  strict_eq_str v text = true <-> v = JStr text.
Proof.
  destruct v; simpl; try (split; [done|by intros [=]]).
  rewrite String.eqb_eq. split; [by intros ->|by intros [= ->]].
Qed.

(** X25: direct messages and the tenant of the recipient. The tenant of a
    recipient is read from [getUserTenant], which answers [tenant-id] for
    every user. So a valid direct message within the rate limit is
    published, on the channel of the recipient under the tenant of the
    sender, and acknowledged when the tenant of the sender is [tenant-id]
    or the recipient id is the tenant id itself; from every other tenant it
    is refused with [Cross-tenant messaging not allowed] and nothing is
    published. A room named in the same message plays no part. *)
Theorem X25_direct_message_tenant_check
    (socket : Socket) (uuid : string) (now : Z) (data : JsVal) (s : Service)
    (message : WebSocketMessage) :
  validateMessage socket uuid now data = inr message ->
  truthy (recipientId message) = true ->
  default 0 (rate_limits s !! ("rate_limit:" +:+ socket_id socket)) + 1
    <= messageRateLimit s ->
  let r := handleMessage socket uuid now data s in
  (socket_tenantId socket = "tenant-id" \/
   recipientId message = JStr (socket_tenantId socket) ->
   published r.2 =
     published s ++
     [("user:" +:+ socket_tenantId socket +:+ ":" +:+
       toString (recipientId message), message)] /\
   emitted r.2 = emitted s ++ [(socket_id socket, ev_message_ack uuid)]) /\
  (socket_tenantId socket <> "tenant-id" ->
   recipientId message <> JStr (socket_tenantId socket) ->
   published r.2 = published s /\
   emitted r.2 =
     emitted s ++
     [(socket_id socket, ev_error "Cross-tenant messaging not allowed")]).
Proof.
  intros Hv Hr Hlimit r. subst r.
  rewrite handleMessage_run, Hv, Hr. cbn [snd]. cbv zeta.
  apply Z.ltb_ge in Hlimit. rewrite Hlimit.
  pose proof (validateMessage_identity _ _ _ _ _ Hv) as (Hid & Ht & _).
  rewrite Ht. unfold getUserTenant. split.
  - assert (Hrouted : forall channel,
              published (routed socket channel message (counted socket s)) =
                published s ++ [(channel, message)] /\
              emitted (routed socket channel message (counted socket s)) =
                emitted s ++ [(socket_id socket, ev_message_ack uuid)]).
    { intros channel. split; [done|]. unfold routed, emit. cbn [emitted].
      by rewrite Hid. }
    intros [Htenant|Hrecipient].
    + replace (String.eqb "tenant-id" (socket_tenantId socket)) with true
        by (symmetry; by apply String.eqb_eq).
      rewrite andb_false_r. apply Hrouted.
    + apply strict_eq_str_spec in Hrecipient. rewrite Hrecipient.
      apply Hrouted.
  - intros Htenant Hrecipient.
    replace (String.eqb "tenant-id" (socket_tenantId socket)) with false
      by (symmetry; by apply String.eqb_neq).
    replace (strict_eq_str (recipientId message) (socket_tenantId socket))
      with false; [done|].
    symmetry. apply not_true_is_false. by rewrite strict_eq_str_spec.
Qed.

(** X25 for a socket of tenant [t1] writing to user [u2]: refused. *)
Lemma X25_witness :
  published (handleMessage alice "m-1" 7000 (direct_payload "u2")
               room_service).2 = published room_service /\
  emitted (handleMessage alice "m-1" 7000 (direct_payload "u2")
             room_service).2 =
    emitted room_service ++
    [(socket_id alice, ev_error "Cross-tenant messaging not allowed")].
Proof.
  apply (proj2 (X25_direct_message_tenant_check alice "m-1" 7000
                  (direct_payload "u2") room_service
                  (direct_message alice "u2" "m-1" 7000)
                  eq_refl eq_refl ltac:(vm_compute; discriminate)));
    discriminate.
Defined.

Lemma emit_if_connected_run (message : WebSocketMessage)
    (conns : list ConnectionMetadata) (s : Service) :
  let s' := foldl (emit_if_connected message) s conns in
  sockets s' = sockets s /\
  emitted s' =
    emitted s ++
    ((fun conn => (conn_connectionId conn, ev_message message)) <$>
       filter (fun conn => conn_connectionId conn ∈ sockets s) conns).
Proof.
  cbv zeta. revert s. induction conns as [|conn conns IH]; intros s.
  - simpl. by rewrite app_nil_r.
  - cbn [foldl]. destruct (IH (emit_if_connected message s conn)) as [Hs He].
    rewrite Hs, He, filter_cons. unfold emit_if_connected.
    destruct (decide (conn_connectionId conn ∈ sockets s)) as [Hin|Hin].
    + cbn [sockets emitted emit]. split; [done|].
      by rewrite fmap_cons, <- app_assoc.
    + done.
Qed.

(** X26: delivery of a direct message. When no connection of the recipient
    under the tenant of the message is known, nothing is emitted and the
    message is put at the head of the queue of that recipient. When there
    is such a connection the message is never queued: it is emitted on each
    of these connections whose socket is still there, in order, and on no
    other socket; so with connections known but none of their sockets left
    the message is neither emitted nor queued. *)
Theorem X26_direct_delivery_or_queue
    (message : WebSocketMessage) (s : Service) :
  let key := "message_queue:" +:+ tenantId message +:+ ":" +:+
             toString (recipientId message) in
  let s' := deliverDirectMessage message s in
  (recipients message s = [] ->
     emitted s' = emitted s /\
     message_queues s' =
       <[key := message :: default [] (message_queues s !! key)]>
         (message_queues s)) /\
  (recipients message s <> [] ->
     message_queues s' = message_queues s /\
     logged s' = logged s /\
     emitted s' =
       emitted s ++
       ((fun conn => (conn_connectionId conn, ev_message message)) <$>
          filter (fun conn => conn_connectionId conn ∈ sockets s)
                 (recipients message s))).
Proof.
  cbv zeta. unfold deliverDirectMessage. fold (recipients message s).
  destruct (emit_if_connected_run message (recipients message s) s)
    as [Hs He].
  pose proof (emit_if_connected_queues message (recipients message s) s) as Hq.
  split.
  - intros Hnone. rewrite Hnone in *. by split.
  - intros Hsome. destruct (recipients message s) as [|conn conns] eqn:Hr;
      [done|].
    cbn [length Nat.eqb]. split; [done|]. split; [|done].
    clear. generalize (conn :: conns). intros conns'. revert s.
    induction conns' as [|c cs IH]; intros s; [done|].
    cbn [foldl]. rewrite IH. unfold emit_if_connected. by case_decide.
Qed.

(** X26 where the only connection of the recipient has lost its socket:
    the message is dropped. *)
Lemma X26_witness :
  message_queues
    (deliverDirectMessage (direct_message alice "u2" "m-1" 7000)
       stale_service) = message_queues stale_service /\
  logged
    (deliverDirectMessage (direct_message alice "u2" "m-1" 7000)
       stale_service) = logged stale_service /\
  emitted
    (deliverDirectMessage (direct_message alice "u2" "m-1" 7000)
       stale_service) = emitted stale_service ++ [].
Proof.
  apply (proj2 (X26_direct_delivery_or_queue
                  (direct_message alice "u2" "m-1" 7000) stale_service)).
  discriminate.
Defined.

End DirectMessages.

Section Rooms.

Import Realtime RealtimeRuns.

Lemma difference_union_singleton (x : string) (X : gset string) :
  ({[x]} ∪ X) ∖ {[x]} = X ∖ {[x]}.
Proof.
  apply set_eq. intros y.
  rewrite !elem_of_difference, elem_of_union. tauto.
Qed.

Lemma difference_empty_singleton (x : string) :
  (∅ : gset string) ∖ {[x]} = ∅.
Proof.
  apply set_eq. intros y. rewrite elem_of_difference.
  split; [by intros [? _]|intros H; by apply elem_of_empty in H].
Qed.

Lemma socket_join_lookup (sid roomKey : string) (s : Service) :
  rooms (socket_join sid roomKey s) !! roomKey =
    Some ({[sid]} ∪ default ∅ (rooms s !! roomKey)).
Proof. unfold socket_join. simpl. by rewrite lookup_insert_eq. Qed.

Lemma socket_leave_lookup (sid roomKey : string) (s : Service) :
  default ∅ (rooms (socket_leave sid roomKey s) !! roomKey) =
    default ∅ (rooms s !! roomKey) ∖ {[sid]}.
Proof.
  unfold socket_leave. simpl.
  destruct (rooms s !! roomKey) as [members|] eqn:Hm.
  - case_decide as He.
    + rewrite lookup_delete_eq. simpl. by rewrite He.
    + by rewrite lookup_insert_eq.
  - rewrite Hm. simpl. by rewrite difference_empty_singleton.
Qed.

Lemma storeRoomMembership_lookup (t u : string) (r : JsVal) (s : Service) :
  room_members (storeRoomMembership t u r s) !!
    ("room_members:" +:+ t +:+ ":" +:+ toString r) =
    Some ({[u]} ∪ default ∅ (room_members s !!
                               ("room_members:" +:+ t +:+ ":" +:+ toString r))).
Proof. unfold storeRoomMembership. simpl. by rewrite lookup_insert_eq. Qed.

Lemma removeRoomMembership_lookup (t u : string) (r : JsVal) (s : Service) :
  default ∅ (room_members (removeRoomMembership t u r s) !!
               ("room_members:" +:+ t +:+ ":" +:+ toString r)) =
    default ∅ (room_members s !!
                 ("room_members:" +:+ t +:+ ":" +:+ toString r)) ∖ {[u]}.
Proof.
  unfold removeRoomMembership. simpl.
  destruct (room_members s !! _) as [members|] eqn:Hm.
  - case_decide as He.
    + rewrite lookup_delete_eq. simpl. by rewrite He.
    + by rewrite lookup_insert_eq.
  - rewrite Hm. simpl. by rewrite difference_empty_singleton.
Qed.

(** X27: joining and leaving a room. After [join_room] a message delivered
    to that room of the tenant is emitted on the socket; after a following
    [leave_room] it is not. Joining and then leaving takes the socket out
    of the room and its user out of the members of the room, and leaves
    every other socket and user of the room where they were. *)
Theorem X27_join_then_leave
    (socket : Socket) (data : JsVal) (roomId0 : JsVal) (s : Service)
    (message : WebSocketMessage) :
  prop data "roomId" = inr roomId0 ->
  tenantId message = socket_tenantId socket ->
  toString (roomId message) = toString roomId0 ->
  let roomKey := socket_tenantId socket +:+ ":" +:+ toString roomId0 in
  let membersKey :=
    "room_members:" +:+ socket_tenantId socket +:+ ":" +:+ toString roomId0 in
  let s1 := (handleJoinRoom socket data s).2 in
  let s2 := (handleLeaveRoom socket data s1).2 in
  (socket_id socket, ev_message message) ∈
    emitted (deliverRoomMessage message s1) /\
  ((socket_id socket, ev_message message) ∈
     emitted (deliverRoomMessage message s2) ->
   (socket_id socket, ev_message message) ∈ emitted s) /\
  default ∅ (rooms s2 !! roomKey) =
    default ∅ (rooms s !! roomKey) ∖ {[socket_id socket]} /\
  default ∅ (room_members s2 !! membersKey) =
    default ∅ (room_members s !! membersKey) ∖ {[socket_userId socket]}.
Proof.
  intros Hdata Ht Hr roomKey membersKey s1 s2. subst s1 s2.
  rewrite handleLeaveRoom_run, handleJoinRoom_run, Hdata. cbn [snd].
  assert (Hrooms1 : rooms (joined socket roomId0 s) !! roomKey =
                    Some ({[socket_id socket]} ∪ default ∅ (rooms s !! roomKey))).
  { apply socket_join_lookup. }
  assert (Hrooms2 :
            default ∅ (rooms (left_room socket roomId0 (joined socket roomId0 s))
                         !! roomKey) =
            default ∅ (rooms s !! roomKey) ∖ {[socket_id socket]}).
  { change (rooms (left_room socket roomId0 (joined socket roomId0 s)))
      with (rooms (socket_leave (socket_id socket) roomKey
                     (joined socket roomId0 s))).
    rewrite socket_leave_lookup, Hrooms1. simpl.
    apply difference_union_singleton. }
  split; [|split; [|split]].
  - unfold deliverRoomMessage. rewrite emitted_foldl_emit, Ht, Hr.
    fold roomKey. rewrite Hrooms1. simpl.
    apply elem_of_app. right. apply list_elem_of_fmap.
    exists (socket_id socket). split; [done|].
    apply elem_of_elements, elem_of_union_l. by apply elem_of_singleton.
  - intros Hin.
    apply deliverRoomMessage_emitted in Hin as [Hin|(members & Hm & Hin)].
    + unfold left_room, joined, logger, emit in Hin. cbn [emitted] in Hin.
      apply elem_of_app in Hin as [Hin|Hin];
        [|by apply list_elem_of_singleton in Hin].
      apply elem_of_app in Hin as [Hin|Hin]; [done|].
      by apply list_elem_of_singleton in Hin.
    + rewrite Ht, Hr in Hm. fold roomKey in Hm. rewrite Hm in Hrooms2.
      simpl in Hrooms2. rewrite Hrooms2 in Hin.
      apply elem_of_difference in Hin as [_ Hn].
      exfalso. by apply Hn, elem_of_singleton.
  - exact Hrooms2.
  - change (room_members (left_room socket roomId0 (joined socket roomId0 s)))
      with (room_members
              (removeRoomMembership (socket_tenantId socket)
                 (socket_userId socket) roomId0
                 (socket_leave (socket_id socket) roomKey
                    (joined socket roomId0 s)))).
    unfold membersKey. rewrite removeRoomMembership_lookup.
    change (room_members (socket_leave (socket_id socket) roomKey
                            (joined socket roomId0 s)))
      with (room_members (storeRoomMembership (socket_tenantId socket)
                            (socket_userId socket) roomId0 s)).
    rewrite storeRoomMembership_lookup. simpl.
    apply difference_union_singleton.
Qed.

(** X27 for the socket of [u1] and room [r1], which [sock-2] has joined. *)
Lemma X27_witness :
  (socket_id alice, ev_message (class_d_message alice "m-1" 7000)) ∈
    emitted (deliverRoomMessage (class_d_message alice "m-1" 7000)
               (handleJoinRoom alice class_d_payload room_service).2) /\
  default ∅ (rooms (handleLeaveRoom alice class_d_payload
                      (handleJoinRoom alice class_d_payload room_service).2).2
               !! "t1:r1") =
    default ∅ (rooms room_service !! "t1:r1") ∖ {[socket_id alice]}.
Proof.
  pose proof (X27_join_then_leave alice class_d_payload (JStr "r1")
                room_service (class_d_message alice "m-1" 7000)
                eq_refl eq_refl eq_refl) as (H1 & _ & H3 & _).
  split; [exact H1|exact H3].
Defined.

(** X28: rooms are joined by sockets, memberships are kept by users. When
    two sockets of the same user and tenant have joined a room and one of
    them leaves, the other socket is still in the room and still receives
    the messages delivered to it, but the user is no longer among the
    recorded members of the room. *)
Theorem X28_membership_is_per_user
    (first second : Socket) (data : JsVal) (roomId0 : JsVal) (s : Service) :
  prop data "roomId" = inr roomId0 ->
  socket_tenantId second = socket_tenantId first ->
  socket_userId second = socket_userId first ->
  socket_id second <> socket_id first ->
  let roomKey := socket_tenantId first +:+ ":" +:+ toString roomId0 in
  let membersKey :=
    "room_members:" +:+ socket_tenantId first +:+ ":" +:+ toString roomId0 in
  let s' :=
    (handleLeaveRoom first data
       (handleJoinRoom second data (handleJoinRoom first data s).2).2).2 in
  socket_id second ∈ default ∅ (rooms s' !! roomKey) /\
  (socket_id first ∉ default ∅ (rooms s' !! roomKey)) /\
  (socket_userId second ∉ default ∅ (room_members s' !! membersKey)) /\
  (forall message,
     tenantId message = socket_tenantId first ->
     toString (roomId message) = toString roomId0 ->
     (socket_id second, ev_message message) ∈
       emitted (deliverRoomMessage message s')).
Proof.
  intros Hdata Ht Hu Hid roomKey membersKey s'. subst s'.
  rewrite handleLeaveRoom_run, !handleJoinRoom_run, Hdata. cbn [snd].
  set (s1 := joined first roomId0 s).
  set (s2 := joined second roomId0 s1).
  assert (Hrooms : default ∅ (rooms (left_room first roomId0 s2) !! roomKey) =
                   ({[socket_id second]} ∪ default ∅ (rooms s1 !! roomKey))
                     ∖ {[socket_id first]}).
  { change (rooms (left_room first roomId0 s2))
      with (rooms (socket_leave (socket_id first) roomKey s2)).
    rewrite socket_leave_lookup. subst s2.
    change (rooms (joined second roomId0 s1))
      with (rooms (socket_join (socket_id second)
                     (socket_tenantId second +:+ ":" +:+ toString roomId0) s1)).
    rewrite Ht. fold roomKey. by rewrite socket_join_lookup. }
  assert (Hmembers :
            default ∅ (room_members (left_room first roomId0 s2) !! membersKey) =
            ({[socket_userId second]} ∪
             default ∅ (room_members s1 !! membersKey))
              ∖ {[socket_userId first]}).
  { change (room_members (left_room first roomId0 s2))
      with (room_members
              (removeRoomMembership (socket_tenantId first)
                 (socket_userId first) roomId0 s2)).
    unfold membersKey. rewrite removeRoomMembership_lookup. subst s2.
    change (room_members (joined second roomId0 s1))
      with (room_members
              (storeRoomMembership (socket_tenantId second)
                 (socket_userId second) roomId0 s1)).
    rewrite Ht. by rewrite storeRoomMembership_lookup. }
  assert (Hsecond : socket_id second ∈
                      ({[socket_id second]} ∪ default ∅ (rooms s1 !! roomKey))
                        ∖ {[socket_id first]}).
  { apply elem_of_difference. split.
    - apply elem_of_union_l. by apply elem_of_singleton.
    - by intros Heq%elem_of_singleton. }
  split; [by rewrite Hrooms|]. split; [|split].
  - rewrite Hrooms.
    intros [_ Hn]%elem_of_difference. by apply Hn, elem_of_singleton.
  - rewrite Hmembers, Hu.
    intros [_ Hn]%elem_of_difference. by apply Hn, elem_of_singleton.
  - intros message Hmt Hmr. unfold deliverRoomMessage.
    rewrite emitted_foldl_emit, Hmt, Hmr. fold roomKey.
    apply elem_of_app. right. apply list_elem_of_fmap.
    exists (socket_id second). split; [done|].
    apply elem_of_elements. by rewrite Hrooms.
Qed.

(** X28 for two sockets of user [u1] of tenant [t1]. *)
Lemma X28_witness :
  "sock-9" ∈
    default ∅
      (rooms
         (handleLeaveRoom alice class_d_payload
            (handleJoinRoom (mkSocket "sock-9" "t1" "u1" "c9") class_d_payload
               (handleJoinRoom alice class_d_payload idle_service).2).2).2
         !! "t1:r1") /\
  "u1" ∉
    default ∅
      (room_members
         (handleLeaveRoom alice class_d_payload
            (handleJoinRoom (mkSocket "sock-9" "t1" "u1" "c9") class_d_payload
               (handleJoinRoom alice class_d_payload idle_service).2).2).2
         !! "room_members:t1:r1").
Proof.
  pose proof (X28_membership_is_per_user alice
                (mkSocket "sock-9" "t1" "u1" "c9") class_d_payload (JStr "r1")
                idle_service eq_refl eq_refl eq_refl
                ltac:(discriminate)) as (H1 & _ & H3 & _).
  split; [exact H1|exact H3].
Defined.

End Rooms.

(** ** The conflict rule *)

Section ConflictClaim.

Import Offline Reconciliation ReconciliationService.



End ConflictClaim.

(** ** The identity of a routed message *)

Section IdentityClaim.

Import Realtime RealtimeRuns.

(** C10, the claim as stated fails for a declared [tenantId] that is
    falsy: the payload declares the empty string as its tenant, which is
    not the tenant [t1] of the socket, and it is not refused. The message
    is built with tenant [t1], published to the room and acknowledged, and
    nothing is logged. *)
Lemma C10_counterexample :
  assoc_of empty_tenant_payload "tenantId" = JStr "" /\
  socket_tenantId alice = "t1" /\
  validateMessage alice "m-1" 7000 empty_tenant_payload =
    inr (room_message alice "r1" "m-1" 7000) /\
  published (handleMessage alice "m-1" 7000 empty_tenant_payload
               room_service).2 =
    [("room:t1:r1", room_message alice "r1" "m-1" 7000)] /\
  emitted (handleMessage alice "m-1" 7000 empty_tenant_payload
             room_service).2 = [("sock-1", ev_message_ack "m-1")] /\
  logged (handleMessage alice "m-1" 7000 empty_tenant_payload
            room_service).2 = [].
Proof. repeat split; reflexivity. Qed.

(** C10 as amended: the identity of a routed message comes from the
    socket. A payload is accepted exactly when its [type] and [payload] are
    truthy and its [tenantId] is falsy or is the tenant of the socket. The
    message built from an accepted payload carries the tenant and the user
    of the socket as [tenantId] and [senderId], the identifier drawn by the
    server as [messageId] and the time of the server, and takes its other
    fields from the payload; within the rate limit a message for a room is
    published as built on the channel of that room under the tenant of the
    socket and acknowledged under the server's identifier. Two payloads
    that differ only in [tenantId], [senderId] and [messageId] and are both
    accepted give the same message and the same run of [handleMessage], and
    every message that [handleMessage] publishes carries the three fields
    of the socket and the server. A payload whose [tenantId] is truthy and
    is not the tenant of the socket is refused: nothing is published and
    the error is logged and reported on the socket. *)
Theorem C10_identity_from_socket :
  (forall socket uuid now props,
     truthy (assoc "type" props) = true ->
     truthy (assoc "payload" props) = true ->
     truthy (assoc "tenantId" props) = false \/
     assoc "tenantId" props = JStr (socket_tenantId socket) ->
     validateMessage socket uuid now (JObj props) =
       inr (mkWebSocketMessage uuid (assoc "type" props)
              (or_else (assoc "interactionClass" props) (class_value CLASS_C))
              (socket_tenantId socket) (socket_userId socket)
              (assoc "recipientId" props) (assoc "roomId" props)
              (assoc "payload" props) now (assoc "metadata" props))) /\
  (forall socket uuid now data message,
     validateMessage socket uuid now data = inr message ->
     truthy (assoc_of data "type") = true /\
     truthy (assoc_of data "payload") = true /\
     (truthy (assoc_of data "tenantId") = false \/
      assoc_of data "tenantId" = JStr (socket_tenantId socket)) /\
     messageId message = uuid /\
     tenantId message = socket_tenantId socket /\
     senderId message = socket_userId socket) /\
  (forall socket uuid now data message s,
     validateMessage socket uuid now data = inr message ->
     default 0 (rate_limits s !! ("rate_limit:" +:+ socket_id socket)) + 1
       <= messageRateLimit s ->
     truthy (recipientId message) = false ->
     truthy (roomId message) = true ->
     published (handleMessage socket uuid now data s).2 =
       published s ++
       [("room:" +:+ socket_tenantId socket +:+ ":" +:+
         toString (roomId message), message)] /\
     emitted (handleMessage socket uuid now data s).2 =
       emitted s ++ [(socket_id socket, ev_message_ack uuid)]) /\
  (forall socket uuid now props props' message message',
     (forall key, key ∉ identity_keys -> assoc key props = assoc key props') ->
     validateMessage socket uuid now (JObj props) = inr message ->
     validateMessage socket uuid now (JObj props') = inr message' ->
     message = message' /\
     forall s, handleMessage socket uuid now (JObj props) s =
               handleMessage socket uuid now (JObj props') s) /\
  (forall socket uuid now data s channel message,
     (channel, message) ∈ published (handleMessage socket uuid now data s).2 ->
     (channel, message) ∈ published s \/
     (messageId message = uuid /\
      tenantId message = socket_tenantId socket /\
      senderId message = socket_userId socket)) /\
  (forall socket uuid now data s,
     truthy (assoc_of data "tenantId") = true ->
     strict_eq_str (assoc_of data "tenantId") (socket_tenantId socket) = false ->
     (exists error, validateMessage socket uuid now data = inl error) /\
     published (handleMessage socket uuid now data s).2 = published s /\
     exists error,
       logged (handleMessage socket uuid now data s).2 =
         logged s ++ [log_error "Error handling message" error] /\
       emitted (handleMessage socket uuid now data s).2 =
         emitted s ++ [(socket_id socket, ev_error (message_of error))]).
Proof.
  split; [|split; [|split; [|split; [|split]]]].
  - intros socket uuid now props Hty Hp Htid. unfold validateMessage. simpl.
    rewrite Hty, Hp. simpl.
    replace (truthy (assoc "tenantId" props) &&
             negb (strict_eq_str (assoc "tenantId" props)
                                 (socket_tenantId socket)))
      with false; [done|].
    destruct Htid as [->|Heq]; [done|].
    apply strict_eq_str_spec in Heq. rewrite Heq. by rewrite andb_false_r.
  - intros socket uuid now data message Hv.
    pose proof (validateMessage_identity _ _ _ _ _ Hv) as (Hid & Ht & Hs).
    unfold validateMessage in Hv.
    destruct data as [| | | | |props]; try done. simpl in *.
    destruct (truthy (assoc "type" props)); [|done].
    destruct (truthy (assoc "payload" props)); [|done]. simpl in Hv.
    split; [done|]. split; [done|]. split; [|done].
    destruct (truthy (assoc "tenantId" props)); [|by left].
    destruct (strict_eq_str (assoc "tenantId" props)
                            (socket_tenantId socket)) eqn:He; [|done].
    right. by apply strict_eq_str_spec.
  - intros socket uuid now data message s Hv Hlimit Hr Hroom.
    rewrite handleMessage_run, Hv, Hr, Hroom. cbn [snd]. cbv zeta.
    apply Z.ltb_ge in Hlimit. rewrite Hlimit.
    pose proof (validateMessage_identity _ _ _ _ _ Hv) as (Hid & Ht & _).
    rewrite Ht. split; [done|]. unfold routed, emit. cbn [emitted].
    by rewrite Hid.
  - intros socket uuid now props props' message message' Hsame Hv Hv'.
    pose proof (validateMessage_noninterference _ _ _ _ _ _ _ Hsame Hv Hv')
      as <-.
    split; [done|]. intros s. by rewrite !handleMessage_run, Hv, Hv'.
  - apply handleMessage_published_identity.
  - intros socket uuid now data s Ht Hne.
    destruct (validateMessage_refuses socket uuid now data Ht Hne)
      as [error Hv].
    split; [by exists error|].
    rewrite handleMessage_run, Hv. cbn [snd]. cbv zeta.
    destruct (messageRateLimit s <? _); (split; [done|]); by eexists.
Qed.

(** C10 on a message that the socket of [u1] of tenant [t1] sends to room
    [r1]: the message built and its publication. *)
Lemma C10_witness :
  validateMessage alice "m-1" 7000 (room_payload "r1") =
    inr (room_message alice "r1" "m-1" 7000) /\
  published (handleMessage alice "m-1" 7000 (room_payload "r1")
               room_service).2 =
    published room_service ++
    [("room:t1:r1", room_message alice "r1" "m-1" 7000)] /\
  emitted (handleMessage alice "m-1" 7000 (room_payload "r1")
             room_service).2 =
    emitted room_service ++ [("sock-1", ev_message_ack "m-1")].
Proof.
  destruct C10_identity_from_socket as (Hbuild & _ & Hroute & _).
  split.
  - exact (Hbuild alice "m-1" 7000
             [("type", JStr "chat.message"); ("roomId", JStr "r1");
              ("payload", JObj [("text", JStr "hello")])]
             eq_refl eq_refl (or_introl eq_refl)).
  - exact (Hroute alice "m-1" 7000 (room_payload "r1")
             (room_message alice "r1" "m-1" 7000) room_service
             eq_refl ltac:(vm_compute; discriminate) eq_refl eq_refl).
Defined.

End IdentityClaim.
